(** * Sentinel-Data-Extraction: a shallow embedding of the monthly
    compositing, index computation, batching and export code.

    Sources embedded here: [s1_service.py] (radar builder and exporter),
    [s2_service.py] (optical masking pipeline, index computation and
    exporter) and [index.py] (batching and scheduling).

    The Earth Engine client objects the code manipulates are deferred
    expressions.  An expression is modelled by what it denotes when the
    backend evaluates it: a raster image, or an evaluation error.

    Modelling choices for the backend, which is not part of the
    repository:
    - pixel values are rationals, so band algebra is exact;
    - there is one pixel grid: [reproject] and the scale arguments are
      left out, kernel radii are in pixels of that grid;
    - focal operators and the median look at valid pixels only;
    - the median of an even number of values is the mean of the two
      middle ones;
    - the directional distance transform and the sampling requests are
      taken from the environment of a run, as are the exceptions client
      calls and file writes may raise, and how far a failing write gets;
    - the tasks of the thread pool are run one after the other, in
      submission order. *)

From Stdlib Require Import ZArith QArith Qround Qabs Ascii Lia Lqa.
From stdpp Require Import gmap strings list pretty.

Local Open Scope list_scope.

(** ** The consumed backend surface (ee.Image, ee.ImageCollection) *)

Module EE.

(** A pixel of the working grid. *)
Definition Pixel : Type := (Z * Z)%type.

(** One band: a value per pixel, [None] where the pixel is masked. *)
Definition Band : Type := Pixel -> option Q.

(** The bands of an image, in band order, each with its name. *)
Abbreviation Image := (list (string * Band)).

(** What a client-side image expression denotes: [None] is an expression
    the backend rejects when it is evaluated. *)
Abbreviation img := (option Image).

Definition bandNames (i : Image) : list string := i.*1.

Fixpoint lookup_band (n : string) (i : Image) : option Band :=
  match i with
  | [] => None
  | (m, b) :: rest => if String.eqb m n then Some b else lookup_band n rest
  end.

(** [image.select(name)]: the one-band image of that name; an error when
    no band matches. *)
Definition select (n : string) (e : img) : img :=
  i ← e; b ← lookup_band n i; Some [(n, b)].

(** [image.select([n1, ..., nk])]. *)
Fixpoint select_list (ns : list string) (e : img) : img :=
  match ns with
  | [] => _ ← e; Some []
  | n :: rest => a ← select n e; b ← select_list rest e; Some (a ++ b)
  end.

(** The value of band [n] at pixel [p]: [None] when the expression fails,
    the band is absent or the pixel is masked. *)
Definition value_at (n : string) (p : Pixel) (e : img) : option Q :=
  i ← e; b ← lookup_band n i; b p.

(** Pixel-wise arithmetic is defined where both operands are unmasked. *)
Definition lift2 (f : Q -> Q -> Q) (x y : Band) : Band :=
  fun p => a ← x p; b ← y p; Some (f a b).

Definition lift1 (f : Q -> Q) (x : Band) : Band :=
  fun p => a ← x p; Some (f a).

(** Band matching of a binary operation: equal band counts are paired in
    order, a one-band operand is used against every band of the other. *)
Definition binop (f : Q -> Q -> Q) (ea eb : img) : img :=
  a ← ea; b ← eb;
  match a, b with
  | _, [(_, y)] => Some ((fun nb : string * Band => (nb.1, lift2 f nb.2 y)) <$> a)
  | [(_, x)], _ => Some ((fun nb : string * Band => (nb.1, lift2 f x nb.2)) <$> b)
  | _, _ =>
      if Nat.eqb (length a) (length b)
      then Some ((fun ab : (string * Band) * (string * Band) =>
                    (ab.1.1, lift2 f ab.1.2 ab.2.2)) <$> zip a b)
      else None
  end.

Definition constant (c : Q) : img := Some [("constant", fun _ => Some c)].

Definition add (a b : img) : img := binop Qplus a b.
Definition subtract (a b : img) : img := binop Qminus a b.
Definition multiply (a b : img) : img := binop Qmult a b.
(** [divide] returns 0 where the divisor is 0, as [Qdiv] does. *)
Definition divide (a b : img) : img := binop Qdiv a b.

Definition unop (f : Q -> Q) (ea : img) : img :=
  a ← ea; Some ((fun nb : string * Band => (nb.1, lift1 f nb.2)) <$> (a : Image)).

Definition Qbool (b : bool) : Q := if b then 1%Q else 0%Q.
Definition Qltb (x y : Q) : bool := negb (Qle_bool y x).
Definition Qeqb (x y : Q) : bool := Qeq_bool x y.

Definition gt (c : Q) (a : img) : img := unop (fun v => Qbool (Qltb c v)) a.
Definition lt (c : Q) (a : img) : img := unop (fun v => Qbool (Qltb v c)) a.
Definition neq (c : Q) (a : img) : img := unop (fun v => Qbool (negb (Qeqb v c))) a.
Definition Not (a : img) : img := unop (fun v => Qbool (Qeqb v 0)) a.

(** [image.rename(name)] of a one-band image. *)
Definition rename (n : string) (e : img) : img :=
  i ← e;
  match i with
  | [(_, b)] => Some [(n, b)]
  | _ => None
  end.

(** With [overwrite] left false, an added band whose name is taken gets a
    numeric suffix: [foo_1] unless that exists, then [foo_2], and so on. *)
Definition fresh_name (used : list string) (n : string) : string :=
  if bool_decide (n ∈ used) then
    default n
      (head (filter (fun s => s ∉ used)
               ((fun k : nat => n +:+ "_" +:+ pretty k) <$> seq 1 (S (length used)))))
  else n.

Fixpoint addBands_raw (dst src : Image) : Image :=
  match src with
  | [] => dst
  | (n, b) :: rest => addBands_raw (dst ++ [(fresh_name (bandNames dst) n, b)]) rest
  end.

(** [dst.addBands(src)]. *)
Definition addBands (dst src : img) : img :=
  d ← dst; s ← src; Some (addBands_raw d s).

(** [ee.Image([i1, ..., ik])]: the images combined into one. *)
Definition Image_of_list (l : list img) : img :=
  foldl addBands (Some []) l.

(** [image.updateMask(mask)]: a pixel stays valid where it was valid and
    the mask is valid and non-zero. *)
Definition mask_band (mb b : Band) : Band :=
  fun p =>
    match b p, mb p with
    | Some v, Some k => if Qeqb k 0 then None else Some v
    | _, _ => None
    end.

Definition updateMask (mask : img) (e : img) : img :=
  match e, mask with
  | Some i, Some [(_, mb)] =>
      Some ((fun nb : string * Band => (nb.1, mask_band mb nb.2)) <$> i)
  | _, _ => None
  end.

(** [image.mask()]: 1 where the band is valid, 0 where it is masked; the
    result itself is valid everywhere. *)
Definition mask (e : img) : img :=
  match e with
  | Some i =>
      Some ((fun nb : string * Band =>
               (nb.1, fun p => Some (Qbool (bool_decide (is_Some (nb.2 p)))))) <$> i)
  | None => None
  end.

(** *** Focal (morphological) operators *)

(** The offsets of a circular kernel of the given radius, in pixels. *)
Definition circle (r : Q) : list (Z * Z) :=
  let k := Qfloor r in
  filter (fun o : Z * Z => Qle_bool (inject_Z (o.1 * o.1 + o.2 * o.2)) (r * r))
         (dx ← seqZ (- k) (2 * k + 1); dy ← seqZ (- k) (2 * k + 1); [(dx, dy)]).

Definition shift (p : Pixel) (o : Z * Z) : Pixel := (p.1 + o.1, p.2 + o.2)%Z.

Definition Qmin (x y : Q) : Q := if Qle_bool x y then x else y.
Definition Qmax (x y : Q) : Q := if Qle_bool x y then y else x.

(** Reduction of the valid values of a neighbourhood; masked where the
    whole neighbourhood is masked. *)
Definition reduce_valid (pick : Q -> Q -> Q) (vs : list (option Q)) : option Q :=
  match omap id vs with
  | [] => None
  | v :: rest => Some (foldl pick v rest)
  end.

Definition focal (pick : Q -> Q -> Q) (r : Q) (b : Band) : Band :=
  fun p => reduce_valid pick ((fun o => b (shift p o)) <$> circle r).

Definition focalMin (r : Q) (e : img) : img :=
  match e with
  | Some i => Some ((fun nb : string * Band => (nb.1, focal Qmin r nb.2)) <$> i)
  | None => None
  end.

Definition focalMax (r : Q) (e : img) : img :=
  match e with
  | Some i => Some ((fun nb : string * Band => (nb.1, focal Qmax r nb.2)) <$> i)
  | None => None
  end.

(** *** Regions and clipping *)

(** A geometry, by the pixels it covers. *)
Definition Geometry : Type := Pixel -> bool.

(** [image.clip(region)]: pixels outside the region are masked. *)
Definition clip (region : Geometry) (e : img) : img :=
  match e with
  | Some i =>
      Some ((fun nb : string * Band =>
               (nb.1, fun p => if region p then nb.2 p else None)) <$> i)
  | None => None
  end.

(** *** Median reducer *)

Fixpoint insert_sorted (x : Q) (l : list Q) : list Q :=
  match l with
  | [] => [x]
  | y :: rest => if Qle_bool x y then x :: l else y :: insert_sorted x rest
  end.

Definition sort (l : list Q) : list Q := foldr insert_sorted [] l.

(** The median of the inputs: the middle value, or the mean of the two
    middle values of an even count; nothing for no input. *)
Definition median_of (l : list Q) : option Q :=
  let s := sort l in
  let n := length s in
  match n with
  | O => None
  | _ =>
      if Nat.even n
      then Some ((nth (n / 2 - 1) s 0 + nth (n / 2) s 0) / 2)%Q
      else Some (nth (n / 2) s 0%Q)
  end.

Definition band_value (n : string) (p : Pixel) (i : Image) : option Q :=
  match lookup_band n i with
  | Some b => b p
  | None => None
  end.

(** [collection.median()]: per band and per pixel, the median of the
    values of the images that are valid there.  The bands are those of the
    first image; an empty collection reduces to an image without bands. *)
Definition median_image (c : list Image) : Image :=
  match c with
  | [] => []
  | first :: _ =>
      (fun nb : string * Band =>
         (nb.1, fun p => median_of (omap (band_value nb.1 p) c))) <$> first
  end.

(** A collection expression denotes its images, or an error. *)
Definition median (c : option (list Image)) : img :=
  match c with
  | Some l => Some (median_image l)
  | None => None
  end.

(** [collection.map(f)] on what the collection denotes: [f] applied to
    every element, an error as soon as one application is one. *)
Definition map_collection {A} (f : A -> img) (c : list A) : option (list Image) :=
  mapM f c.

(** *** Scenes and collection filters *)

Record Scene := {
  system_index : string;
  (** acquisition date, [YYYY-MM-DD] *)
  date : string;
  footprint : list Pixel;
  str_props : gmap string string;
  num_props : gmap string Q;
  list_props : gmap string (list string);
  bands : Image
}.

Definition filterBounds (region : Geometry) (c : list Scene) : list Scene :=
  filter (fun s => Is_true (existsb region (footprint s))) c.

(** [filterDate(start, end)]: start inclusive, end exclusive.  Dates of
    one fixed format compare as their text does. *)
Definition filterDate (start_date end_date : string) (c : list Scene) : list Scene :=
  filter (fun s => Is_true (String.leb start_date (date s) && String.ltb (date s) end_date)) c.

Definition Filter_eq_str (k v : string) (s : Scene) : bool :=
  bool_decide (str_props s !! k = Some v).

Definition Filter_eq_num (k : string) (v : Q) (s : Scene) : bool :=
  match num_props s !! k with
  | Some x => Qeqb x v
  | None => false
  end.

Definition Filter_lte (k : string) (v : Q) (s : Scene) : bool :=
  match num_props s !! k with
  | Some x => Qle_bool x v
  | None => false
  end.

Definition Filter_listContains (k v : string) (s : Scene) : bool :=
  match list_props s !! k with
  | Some l => bool_decide (v ∈ l)
  | None => false
  end.

Definition filter_by (f : Scene -> bool) (c : list Scene) : list Scene :=
  filter (fun s => Is_true (f s)) c.

End EE.

Import EE.

(** ** Effects of the Python code: exceptions, logging, module globals,
    written files *)

Module Py.

Inductive exn :=
| EEException (msg : string)
| FileNotFoundError (path : string)
| JSONDecodeError (msg : string)
| KeyError (key : string)
| IndexError (msg : string)
| OSError (msg : string).

(** [except ee.EEException] catches only the backend's own exception
    class; [except Exception] catches every class above. *)
Definition is_EEException (e : exn) : bool :=
  match e with
  | EEException _ => true
  | _ => false
  end.

Definition is_Exception (e : exn) : bool := true.

Definition str_exn (e : exn) : string :=
  match e with
  | EEException m => m
  | FileNotFoundError f => "[Errno 2] No such file or directory: '" +:+ f +:+ "'"
  | JSONDecodeError m => m
  | KeyError k => "'" +:+ k +:+ "'"
  | IndexError m => m
  | OSError m => m
  end.

Inductive result (A : Type) :=
| Ok (a : A)
| Raise (e : exn).
Arguments Ok {A} a.
Arguments Raise {A} e.

Inductive level := INFO | ERROR.

(** A JSON value as the client receives it. *)
Inductive value :=
| VInt (z : Z)
| VNum (q : Q)
| VStr (s : string)
| VNull.

(** A row handed to [pd.DataFrame]: a dict, columns in insertion order. *)
Abbreviation Row := (list (string * value)).

Record World := {
  (** the module globals [july_s1 ... december_s1]; an unbound key is a
      global that is still [None] *)
  s1_globals : gmap string img;
  (** the module globals [july_s2 ... december_s2] *)
  s2_globals : gmap string img;
  (** the records passed to the logger, oldest first *)
  log : list (level * string);
  (** the files written by [to_csv], by path *)
  files : gmap string (list Row)
}.

Definition initial_world : World :=
  {| s1_globals := ∅; s2_globals := ∅; log := []; files := ∅ |}.

(** A computation: it returns or raises, and leaves a world behind. *)
Definition Prog (A : Type) : Type := World -> result A * World.

Definition ret {A} (a : A) : Prog A := fun w => (Ok a, w).

Definition bind {A B} (m : Prog A) (k : A -> Prog B) : Prog B :=
  fun w =>
    match m w with
    | (Ok a, w') => k a w'
    | (Raise e, w') => (Raise e, w')
    end.

Definition raise {A} (e : exn) : Prog A := fun w => (Raise e, w).

(** [try: body / except <class> as e: handler e]. *)
Definition try_except {A} (body : Prog A) (catches : exn -> bool)
    (handler : exn -> Prog A) : Prog A :=
  fun w =>
    match body w with
    | (Ok a, w') => (Ok a, w')
    | (Raise e, w') => if catches e then handler e w' else (Raise e, w')
    end.

Definition lift_result {A} (r : result A) : Prog A := fun w => (r, w).

Definition logger (l : level) (msg : string) : Prog unit :=
  fun w => (Ok tt, {| s1_globals := s1_globals w; s2_globals := s2_globals w;
                      log := log w ++ [(l, msg)]; files := files w |}).

Definition set_s1_global (name : string) (v : img) : Prog unit :=
  fun w => (Ok tt, {| s1_globals := <[name := v]> (s1_globals w);
                      s2_globals := s2_globals w; log := log w; files := files w |}).

Definition set_s2_global (name : string) (v : img) : Prog unit :=
  fun w => (Ok tt, {| s1_globals := s1_globals w;
                      s2_globals := <[name := v]> (s2_globals w);
                      log := log w; files := files w |}).

Definition write_file (path : string) (rows : list Row) : Prog unit :=
  fun w => (Ok tt, {| s1_globals := s1_globals w; s2_globals := s2_globals w;
                      log := log w; files := <[path := rows]> (files w) |}).

Definition get_world : Prog World := fun w => (Ok w, w).

Fixpoint for_each {A} (l : list A) (body : A -> Prog unit) : Prog unit :=
  match l with
  | [] => ret tt
  | x :: rest => bind (body x) (fun _ => for_each rest body)
  end.

Fixpoint map_prog {A B} (f : A -> Prog B) (l : list A) : Prog (list B) :=
  match l with
  | [] => ret []
  | x :: rest => bind (f x) (fun y => bind (map_prog f rest) (fun ys => ret (y :: ys)))
  end.

(** [try: body / except Exception as e: logger.error(msg e); raise]. *)
Definition log_and_reraise {A} (msg : exn -> string) (body : Prog A) : Prog A :=
  try_except body is_Exception (fun e => bind (logger ERROR (msg e)) (fun _ => raise e)).

Definition lower_ascii (c : ascii) : ascii :=
  let n := nat_of_ascii c in
  if (65 <=? n)%nat && (n <=? 90)%nat then ascii_of_nat (n + 32) else c.

(** [str.lower()]. *)
Fixpoint lower (s : string) : string :=
  match s with
  | EmptyString => EmptyString
  | String c rest => String (lower_ascii c) (lower rest)
  end.

Definition newline : string := String (ascii_of_nat 10) EmptyString.

(** [os.path.join(a, b)] for a relative [b]. *)
Definition path_join (a b : string) : string :=
  if bool_decide (a = "") then b
  else if String.eqb (String.substring (String.length a - 1) 1 a) "/" then a +:+ b
  else a +:+ "/" +:+ b.

End Py.

Import Py.

Declare Scope prog_scope.
Delimit Scope prog_scope with prog.
Notation "'let*' x ':=' m 'in' k" := (bind m (fun x => k))
  (at level 10, x name, m at level 100, k at level 200) : prog_scope.
Notation "m ';;' k" := (bind m (fun _ => k))
  (at level 100, k at level 200, right associativity) : prog_scope.

(** ** What a run receives from outside *)

(** An input feature of a sampling request: a point and its [id]. *)
Record Point := { pt_id : Z; pt_lon : Q; pt_lat : Q }.

(** A feature returned by a sampling request. *)
Record Feature := {
  properties : gmap string value;
  coordinates : list value
}.

Record Env := {
  (** what opening and parsing [Tumkur.geojson] and building the geometry
      gives: the region, or the exception raised on the way *)
  load_geojson : result Geometry;
  (** the scenes of [COPERNICUS/S1_GRD], [COPERNICUS/S2_SR_HARMONIZED] and
      [COPERNICUS/S2_CLOUD_PROBABILITY] *)
  S1_GRD : list Scene;
  S2_SR_HARMONIZED : list Scene;
  S2_CLOUD_PROBABILITY : list Scene;
  (** the backend's directional distance transform: angle, maximal
      distance, source band; the distance band is masked where nothing is
      found in that direction *)
  directionalDistanceTransform : Q -> Q -> Band -> Band;
  (** an exception raised by a client call while the named function
      builds the expression of the named month, if any *)
  client_fault : string -> string -> option exn;
  (** [sampleRegions(...).size().getInfo()] *)
  size_getInfo : img -> list Point -> result Z;
  (** [sampleRegions(...).getInfo()["features"]] *)
  sample_getInfo : img -> list Point -> result (list Feature);
  (** an exception raised by [to_csv] on the named path, if any *)
  write_fault : string -> option exn;
  (** how far a failing [to_csv] gets on the named path: [None] when the
      file cannot be opened, so that nothing is created and a file
      already there is left alone; [Some n] when the file is created, or
      truncated, and the exception comes after [n] rows are written (a
      row cut short counts as not written) *)
  write_progress : string -> option nat
}.

Definition fault (env : Env) (stage month : string) : Prog unit :=
  match client_fault env stage month with
  | Some e => raise e
  | None => ret tt
  end.

(** ** s1_service.py *)

Module S1.

Definition months : list string := ["07"; "08"; "09"; "10"; "11"; "12"].

Definition month_vars : list string :=
  ["july_s1"; "august_s1"; "september_s1"; "october_s1"; "november_s1"; "december_s1"].

(** [f"{year}-{month}-01"], line 35. *)
Definition start_date (year : Z) (month : string) : string :=
  pretty year +:+ "-" +:+ month +:+ "-01".

(** Line 36. *)
Definition end_date (year : Z) (month : string) : string :=
  if bool_decide (month ∈ ["09"; "11"])
  then pretty year +:+ "-" +:+ month +:+ "-30"
  else pretty year +:+ "-" +:+ month +:+ "-31".

(** The filtered collection of lines 39-48. *)
Definition s1_collection (env : Env) (region : Geometry) (year : Z) (month : string)
    : option (list Image) :=
  map_collection (fun s => select_list ["VV"; "VH"] (Some (bands s)))
    (filter_by (Filter_eq_str "orbitProperties_pass" "DESCENDING")
       (filter_by (Filter_eq_num "resolution_meters" 10)
          (filter_by (Filter_eq_str "instrumentMode" "IW")
             (filter_by (Filter_listContains "transmitterReceiverPolarisation" "VV")
                (filterDate (start_date year month) (end_date year month)
                   (filterBounds region (S1_GRD env))))))).

(** Lines 49-52: the median composite, and the image stored for the
    month. *)
Definition s1_median_image (env : Env) (region : Geometry) (year : Z) (month : string) : img :=
  clip region (median (s1_collection env region year month)).

Definition s1_month_image (env : Env) (region : Geometry) (year : Z) (month : string) : img :=
  let median_image := s1_median_image env region year month in
  let vh_vv := rename "VH_VV" (divide (select "VH" median_image) (select "VV" median_image)) in
  addBands median_image vh_vv.

Open Scope prog_scope.

(** The body of the month loop, lines 34-55. *)
Definition s1_month (env : Env) (region : Geometry) (year : Z) (im : nat * string)
    : Prog unit :=
  let i := im.1 in
  let month := im.2 in
  try_except
    (fault env "create_monthwise_s1_collection" month ;;
     let* var := lift_result (match month_vars !! i with
                              | Some v => Ok v
                              | None => Raise (IndexError "list index out of range")
                              end) in
     set_s1_global var (s1_month_image env region year month) ;;
     logger INFO ("Created Sentinel-1 median for month " +:+ month))
    is_Exception
    (fun e => logger ERROR ("Error creating Sentinel-1 data for month " +:+ month
                            +:+ ": " +:+ str_exn e)).

(** [create_monthwise_s1_collection(ee, year)], lines 18-55. *)
Definition create_monthwise_s1_collection (env : Env) (year : Z) : Prog unit :=
  let* loaded :=
    try_except
      (let* region := lift_result (load_geojson env) in
       logger INFO "Loaded Tumkur region geometry" ;;
       ret (Some region))
      is_Exception
      (fun e => logger ERROR ("Failed to load GeoJSON: " +:+ str_exn e) ;; ret None) in
  match loaded with
  | None => ret tt
  | Some region => for_each (imap pair months) (s1_month env region year)
  end.

(** The dict [month_vars] of [export_sentinel_1_data], lines 59-62. *)
Definition export_month_vars : list (string * string) :=
  [("July", "july_s1"); ("August", "august_s1"); ("September", "september_s1");
   ("October", "october_s1"); ("November", "november_s1"); ("December", "december_s1")].

Definition month_image (w : World) (month : string) : option img :=
  var ← (list_to_map export_month_vars : gmap string string) !! month;
  s1_globals w !! var.

(** [props.get(k, 0)]. *)
Definition get_or_zero (props : gmap string value) (k : string) : value :=
  default (VInt 0) (props !! k).

(** The dict appended to [data_list], lines 86-95. *)
Definition row_of_feature (feature : Feature) : result Row :=
  let props := properties feature in
  let geom := coordinates feature in
  match props !! "id" with
  | None => Raise (KeyError "id")
  | Some id =>
      match geom !! 0%nat with
      | None => Raise (IndexError "list index out of range")
      | Some lon =>
          match geom !! 1%nat with
          | None => Raise (IndexError "list index out of range")
          | Some lat =>
              Ok [("id", id); ("Longitude", lon); ("Latitude", lat);
                  ("VV", get_or_zero props "VV");
                  ("VH", get_or_zero props "VH");
                  ("VH_VV", get_or_zero props "VH_VV")]
          end
      end
  end.

(** [df.to_csv(output_file, index=False)]: the file is opened for
    writing, which creates or truncates it, and the rows are written in
    order; an exception on the way leaves what was written so far. *)
Definition to_csv (env : Env) (output_file : string) (rows : list Row) : Prog unit :=
  match write_fault env output_file with
  | Some e =>
      match write_progress env output_file with
      | Some n => bind (write_file output_file (take n rows)) (fun _ => raise e)
      | None => raise e
      end
  | None => write_file output_file rows
  end.

Definition output_file (output_dir month : string) (batch_idx : Z) : string :=
  path_join output_dir ("s1_" +:+ lower month +:+ "_2019_batch" +:+ pretty batch_idx +:+ ".csv").

(** [export_sentinel_1_data(ee, fc, month, batch_idx, output_dir)],
    lines 57-103. *)
Definition export_sentinel_1_data (env : Env) (fc : list Point) (month : string)
    (batch_idx : Z) (output_dir : string) : Prog unit :=
  let* w := get_world in
  match month_image w month with
  | None => logger ERROR ("Sentinel-1 image for " +:+ month +:+ " not initialized")
  | Some s1_img =>
      try_except
        (let* features := lift_result (sample_getInfo env s1_img fc) in
         let* data_list := map_prog (fun f => lift_result (row_of_feature f)) features in
         to_csv env (output_file output_dir month batch_idx) data_list ;;
         logger INFO ("Saved Sentinel-1 data for " +:+ month +:+ ", batch "
                      +:+ pretty batch_idx +:+ " to "
                      +:+ output_file output_dir month batch_idx))
        is_EEException
        (fun e => logger ERROR ("Error processing Sentinel-1 data for " +:+ month
                                +:+ ", batch " +:+ pretty batch_idx +:+ ": " +:+ str_exn e))
  end.

Close Scope prog_scope.

End S1.

(** ** s2_service.py *)

Module S2.

(** [compute_indices(image)], lines 108-124. *)
Definition compute_indices (image : img) : img :=
  let nir := select "B8" image in
  let red := select "B4" image in
  let blue := select "B2" image in
  let green := select "B3" image in
  let rededge := select "B5" image in
  let swir1 := select "B11" image in
  let ndvi := rename "NDVI" (divide (subtract nir red) (add nir red)) in
  let evi := rename "EVI"
    (divide (multiply (subtract nir red) (constant 2.5))
       (add (subtract (add nir (multiply red (constant 6)))
               (multiply blue (constant 7.5))) (constant 1))) in
  let gndvi := rename "GNDVI" (divide (subtract nir green) (add nir green)) in
  let savi := rename "SAVI"
    (divide (multiply (subtract nir red) (constant 1.5))
       (add (add nir red) (constant 0.5))) in
  let ndwi := rename "NDWI" (divide (subtract green nir) (add green nir)) in
  let ndmi := rename "NDMI" (divide (subtract nir swir1) (add nir swir1)) in
  let rendvi := rename "RENDVI" (divide (subtract rededge red) (add rededge red)) in
  addBands image (Image_of_list [ndvi; evi; gndvi; savi; ndwi; ndmi; rendvi]).

(** The bands every masked scene, and so the monthly median, carries
    (the [select] of [apply_cld_shdw_mask]). *)
Definition s2_bands : list string := ["B2"; "B3"; "B4"; "B5"; "B8"; "B11"; "B12"].

Definition index_bands : list string :=
  ["NDVI"; "EVI"; "GNDVI"; "SAVI"; "NDWI"; "NDMI"; "RENDVI"].

(** Line 94. *)
Definition CLOUD_FILTER : Q := 70.
Definition CLD_PRB_THRESH : Q := 70.
Definition NIR_DRK_THRESH : Q := 0.15.
Definition CLD_PRJ_DIST : Q := 1.
Definition BUFFER : Q := 40.

Definition months : list string := ["07"; "08"; "09"; "10"; "11"; "12"].

Definition month_vars : list string :=
  ["july_s2"; "august_s2"; "september_s2"; "october_s2"; "november_s2"; "december_s2"].

(** Lines 99-100. *)
Definition start_date (year : Z) (month : string) : string :=
  pretty year +:+ "-" +:+ month +:+ "-01".

Definition end_date (year : Z) (month : string) : string :=
  if bool_decide (month ∈ ["09"; "11"])
  then pretty year +:+ "-" +:+ month +:+ "-30"
  else pretty year +:+ "-" +:+ month +:+ "-31".

(** An element of the joined collection: the optical scene with the bands
    selected on it, and the cloud-probability scene saved under
    [s2cloudless]. *)
Record Joined := {
  primary : Scene;
  primary_image : img;
  s2cloudless : Scene
}.

(** [ee.Join.saveFirst('s2cloudless')] on equal [system:index]: a scene
    without a match is dropped. *)
Definition saveFirst (primaries : list (Scene * img)) (secondary : list Scene) : list Joined :=
  omap (fun pi : Scene * img =>
          s ← head (filter (fun s => system_index s = system_index pi.1) secondary);
          Some {| primary := pi.1; primary_image := pi.2; s2cloudless := s |})
       primaries.

(** [get_s2_sr_cld_col], lines 72-92. *)
Definition get_s2_sr_cld_col (env : Env) (aoi : Geometry) (start_date end_date : string)
    (CLOUD_FILTER : Q) : list Joined :=
  let s2_sr_col :=
    (fun s => (s, select_list ["B2"; "B3"; "B4"; "B5"; "B8"; "B11"; "B12"; "SCL"]
                    (Some (bands s))))
      <$> filter_by (Filter_lte "CLOUDY_PIXEL_PERCENTAGE" CLOUD_FILTER)
            (filterDate start_date end_date (filterBounds aoi (S2_SR_HARMONIZED env))) in
  let s2_cloudless_col :=
    filterDate start_date end_date (filterBounds aoi (S2_CLOUD_PROBABILITY env)) in
  saveFirst s2_sr_col s2_cloudless_col.

(** [add_cloud_bands], lines 25-32. *)
Definition add_cloud_bands (j : Joined) (image : img) : img :=
  let cld_prb := select "probability" (Some (bands (s2cloudless j))) in
  let is_cloud := rename "clouds" (gt CLD_PRB_THRESH cld_prb) in
  addBands image (Image_of_list [cld_prb; is_cloud]).

(** [image.directionalDistanceTransform(angle, maxDistance)] of a one-band
    image, reprojected: the source band and the [distance] band. *)
Definition ddt_image (env : Env) (angle maxDistance : Q) (e : img) : img :=
  match e with
  | Some [(n, b)] =>
      Some [(n, b); ("distance", directionalDistanceTransform env angle maxDistance b)]
  | _ => None
  end.

(** [add_shadow_bands], lines 34-49. *)
Definition add_shadow_bands (env : Env) (j : Joined) (image : img) : img :=
  let not_water := neq 6 (select "SCL" image) in
  let SR_BAND_SCALE : Q := 10000%Q in
  let dark_pixels :=
    rename "dark_pixels"
      (multiply (lt (NIR_DRK_THRESH * SR_BAND_SCALE) (select "B8" image)) not_water) in
  match num_props (primary j) !! "MEAN_SOLAR_AZIMUTH_ANGLE" with
  | None => None
  | Some azimuth =>
      let shadow_azimuth := (90 - azimuth)%Q in
      let cld_proj :=
        rename "cloud_transform"
          (mask (select "distance"
                   (ddt_image env shadow_azimuth (CLD_PRJ_DIST * 10) (select "clouds" image)))) in
      let shadows := rename "shadows" (multiply cld_proj dark_pixels) in
      addBands image (Image_of_list [dark_pixels; cld_proj; shadows])
  end.

(** Lines 55-59 of [add_cld_shdw_mask]: the union of the two flags, eroded
    and dilated, added as [cloudmask]. *)
Definition cld_shdw_mask_of (img_cloud_shadow : img) : img :=
  let is_cld_shdw :=
    gt 0 (add (select "clouds" img_cloud_shadow) (select "shadows" img_cloud_shadow)) in
  let is_cld_shdw :=
    rename "cloudmask" (focalMax (BUFFER * 2 / 20) (focalMin 2 is_cld_shdw)) in
  addBands img_cloud_shadow is_cld_shdw.

(** [add_cld_shdw_mask], lines 51-62. *)
Definition add_cld_shdw_mask (env : Env) (j : Joined) : img :=
  let img_cloud := add_cloud_bands j (primary_image j) in
  let img_cloud_shadow := add_shadow_bands env j img_cloud in
  cld_shdw_mask_of img_cloud_shadow.

(** [apply_cld_shdw_mask], lines 64-70. *)
Definition apply_cld_shdw_mask (image : img) : img :=
  let not_cld_shdw := Not (select "cloudmask" image) in
  updateMask not_cld_shdw (select_list s2_bands image).

(** Lines 103-105: the scenes as they enter the reduction, the month's
    median and the image stored for the month. *)
Definition s2_processed (env : Env) (s2_collection : list Joined) : option (list Image) :=
  map_collection (fun j => apply_cld_shdw_mask (add_cld_shdw_mask env j)) s2_collection.

Definition s2_month_image (env : Env) (region : Geometry) (s2_collection : list Joined) : img :=
  let median_image := clip region (median (s2_processed env s2_collection)) in
  compute_indices median_image.

Open Scope prog_scope.

(** The client-side run of one nested helper: the helpers it calls
    first, then its own client calls; it logs what it fails with and
    raises it again. *)
Definition helper {A} (env : Env) (name month : string) (calls : Prog unit) (value : A)
    : Prog A :=
  log_and_reraise (fun e => "Error in " +:+ name +:+ ": " +:+ str_exn e)
    (calls ;; fault env name month ;; ret value).

(** The body of the month loop, lines 98-106.  [collection.map(f)] runs
    [f] once on the client to build the expression; nothing around the
    month catches what the helpers raise. *)
Definition s2_month (env : Env) (region : Geometry) (year : Z) (im : nat * string)
    : Prog unit :=
  let i := im.1 in
  let month := im.2 in
  let start_date := start_date year month in
  let end_date := end_date year month in
  let* s2_collection :=
    helper env "get_s2_sr_cld_col" month (ret tt)
      (get_s2_sr_cld_col env region start_date end_date CLOUD_FILTER) in
  helper env "add_cld_shdw_mask" month
    (helper env "add_cloud_bands" month (ret tt) tt ;;
     helper env "add_shadow_bands" month (ret tt) tt) tt ;;
  helper env "apply_cld_shdw_mask" month (ret tt) tt ;;
  fault env "create_monthwise_s2_collection" month ;;
  let* var := lift_result (match month_vars !! i with
                           | Some v => Ok v
                           | None => Raise (IndexError "list index out of range")
                           end) in
  set_s2_global var (s2_month_image env region s2_collection) ;;
  logger INFO ("Created Sentinel-2 median with indices for month " +:+ month).

(** [create_monthwise_s2_collection(ee, year)], lines 17-106. *)
Definition create_monthwise_s2_collection (env : Env) (year : Z) : Prog unit :=
  let* region := lift_result (load_geojson env) in
  for_each (imap pair months) (s2_month env region year).

(** The dict [month_vars] of [export_sentinel_2_data], lines 128-131. *)
Definition export_month_vars : list (string * string) :=
  [("July", "july_s2"); ("August", "august_s2"); ("September", "september_s2");
   ("October", "october_s2"); ("November", "november_s2"); ("December", "december_s2")].

Definition month_image (w : World) (month : string) : option img :=
  var ← (list_to_map export_month_vars : gmap string string) !! month;
  s2_globals w !! var.

Definition get_or_zero (props : gmap string value) (k : string) : value :=
  default (VInt 0) (props !! k).

(** The dict appended to [data_list], lines 153-167. *)
Definition row_of_feature (feature : Feature) : result Row :=
  let props := properties feature in
  let geom := coordinates feature in
  match props !! "id" with
  | None => Raise (KeyError "id")
  | Some id =>
      match geom !! 0%nat with
      | None => Raise (IndexError "list index out of range")
      | Some lon =>
          match geom !! 1%nat with
          | None => Raise (IndexError "list index out of range")
          | Some lat =>
              Ok [("id", id); ("Longitude", lon); ("Latitude", lat);
                  ("NDVI", get_or_zero props "NDVI");
                  ("EVI", get_or_zero props "EVI");
                  ("GNDVI", get_or_zero props "GNDVI");
                  ("SAVI", get_or_zero props "SAVI");
                  ("NDWI", get_or_zero props "NDWI");
                  ("NDMI", get_or_zero props "NDMI");
                  ("RENDVI", get_or_zero props "RENDVI")]
          end
      end
  end.

(** [df.to_csv(output_file, index=False)]: the file is opened for
    writing, which creates or truncates it, and the rows are written in
    order; an exception on the way leaves what was written so far. *)
Definition to_csv (env : Env) (output_file : string) (rows : list Row) : Prog unit :=
  match write_fault env output_file with
  | Some e =>
      match write_progress env output_file with
      | Some n => bind (write_file output_file (take n rows)) (fun _ => raise e)
      | None => raise e
      end
  | None => write_file output_file rows
  end.

Definition output_file (output_dir month : string) (batch_idx : Z) : string :=
  path_join output_dir ("s2_" +:+ lower month +:+ "_2019_batch" +:+ pretty batch_idx +:+ ".csv").

(** [export_sentinel_2_data(ee, fc, month, batch_idx, output_dir)],
    lines 126-174. *)
Definition export_sentinel_2_data (env : Env) (fc : list Point) (month : string)
    (batch_idx : Z) (output_dir : string) : Prog unit :=
  let* w := get_world in
  match month_image w month with
  | None => logger ERROR ("Sentinel-2 image for " +:+ month +:+ " not initialized")
  | Some s2_img =>
      try_except
        (let* sampled_size := lift_result (size_getInfo env s2_img fc) in
         let* features := lift_result (sample_getInfo env s2_img fc) in
         let* data_list := map_prog (fun f => lift_result (row_of_feature f)) features in
         to_csv env (output_file output_dir month batch_idx) data_list ;;
         logger INFO ("Sampled features for " +:+ month +:+ ", batch "
                      +:+ pretty batch_idx +:+ ": " +:+ pretty sampled_size
                      +:+ newline +:+ "Saved Sentinel-2 data for " +:+ month
                      +:+ ", batch " +:+ pretty batch_idx +:+ " to "
                      +:+ output_file output_dir month batch_idx))
        is_EEException
        (fun e => logger ERROR ("Error processing Sentinel-2 data for " +:+ month
                                +:+ ", batch " +:+ pretty batch_idx +:+ ": " +:+ str_exn e))
  end.

Close Scope prog_scope.

End S2.

(** ** index.py *)

Module Index.

Definition INPUT_CSV_PATH : string := "Input/2019_non_ragi_downsampled_cleaned.csv".
Definition OUTPUT_DIR : string := "Output".

(** Line 45. *)
Definition batch_size : Z := 4000.

(** A data frame: the rows (Longitude, Latitude), each with its index
    label. *)
Abbreviation DataFrame := (list (Z * (Q * Q))).

(** [pd.read_csv]: the rows labelled 0, 1, 2, ... in file order. *)
Definition read_csv (rows : list (Q * Q)) : DataFrame :=
  imap (fun i r => (Z.of_nat i, r)) rows.

Definition len {A} (l : list A) : Z := Z.of_nat (length l).

(** Line 46: [(len(df_input) + batch_size - 1) // batch_size]. *)
Definition num_batches (df_input : DataFrame) (batch_size : Z) : Z :=
  ((len df_input + batch_size - 1) `div` batch_size)%Z.

(** [df.iloc[start:stop]] for non-negative bounds; the labels stay. *)
Definition iloc (start stop : Z) (df : DataFrame) : DataFrame :=
  drop (Z.to_nat start) (take (Z.to_nat stop) df).

(** Lines 71-74: the batch index and the slice of every submitted task. *)
Definition batches (df_input : DataFrame) (batch_size : Z) : list (Z * DataFrame) :=
  (fun batch_idx : Z =>
     let start_idx := (batch_idx * batch_size)%Z in
     let end_idx := Z.min ((batch_idx + 1) * batch_size) (len df_input) in
     (batch_idx, iloc start_idx end_idx df_input))
    <$> seqZ 0 (num_batches df_input batch_size).

Definition months : list string :=
  ["July"; "August"; "September"; "October"; "November"; "December"].

(** Lines 54-57: one feature per row, its [id] the row's index label. *)
Definition features (batch_df : DataFrame) : list Point :=
  (fun ir : Z * (Q * Q) => {| pt_id := ir.1; pt_lon := ir.2.1; pt_lat := ir.2.2 |})
    <$> batch_df.

Open Scope prog_scope.

(** [process_batch], lines 52-66. *)
Definition process_batch (env : Env) (nb : Z) (batch_idx : Z) (batch_df : DataFrame)
    (months : list string) (output_dir : string) : Prog unit :=
  let fc := features batch_df in
  logger INFO ("Created batch " +:+ pretty (batch_idx + 1)%Z +:+ "/" +:+ pretty nb
               +:+ " with " +:+ pretty (len batch_df) +:+ " points") ;;
  for_each months (fun month =>
    logger INFO ("Processing Sentinel-1 data for " +:+ month +:+ ", batch "
                 +:+ pretty (batch_idx + 1)%Z) ;;
    S1.export_sentinel_1_data env fc month batch_idx output_dir ;;
    logger INFO ("Processing Sentinel-2 data for " +:+ month +:+ ", batch "
                 +:+ pretty (batch_idx + 1)%Z) ;;
    S2.export_sentinel_2_data env fc month batch_idx output_dir).

(** [executor.submit(f, ...)]: the task runs, and what it raises is kept
    in its future.  Tasks are run here one after the other, in submission
    order. *)
Definition submit (task : Prog unit) : Prog (result unit) :=
  fun w => (Ok (task w).1, (task w).2).

(** Lines 78-82. *)
Definition future_result (future : result unit) : Prog unit :=
  try_except (lift_result future) is_Exception
    (fun e => logger ERROR ("Error in batch processing: " +:+ str_exn e)).

(** The script from line 36 on, for the rows read from the input file. *)
Definition main (env : Env) (rows : list (Q * Q)) : Prog unit :=
  let df_input := read_csv rows in
  logger INFO ("Loaded " +:+ pretty (len df_input) +:+ " coordinates from "
               +:+ INPUT_CSV_PATH) ;;
  logger INFO "Creating Sentinel-1 and Sentinel-2 collections for 2019" ;;
  S1.create_monthwise_s1_collection env 2019 ;;
  S2.create_monthwise_s2_collection env 2019 ;;
  let nb := num_batches df_input batch_size in
  logger INFO ("Processing " +:+ pretty (len df_input) +:+ " coordinates in "
               +:+ pretty nb +:+ " batches of " +:+ pretty batch_size) ;;
  let* futures :=
    map_prog (fun b : Z * DataFrame =>
                submit (process_batch env nb b.1 b.2 months OUTPUT_DIR))
             (batches df_input batch_size) in
  for_each futures future_result ;;
  logger INFO ("Processing complete. CSVs saved in " +:+ OUTPUT_DIR).

Close Scope prog_scope.

End Index.

(** ** The formulas and figures of the specification *)

Module Spec.

(** The index table of section 4.3, by band name. *)
Definition index_formulas (NIR RED BLUE GREEN REDEDGE SWIR1 : Q) : list (string * Q) :=
  [("NDVI", (NIR - RED) / (NIR + RED));
   ("EVI", 2.5 * (NIR - RED) / (NIR + 6 * RED - 7.5 * BLUE + 1));
   ("GNDVI", (NIR - GREEN) / (NIR + GREEN));
   ("SAVI", 1.5 * (NIR - RED) / (NIR + RED + 0.5));
   ("NDWI", (GREEN - NIR) / (GREEN + NIR));
   ("NDMI", (NIR - SWIR1) / (NIR + SWIR1));
   ("RENDVI", (REDEDGE - RED) / (REDEDGE + RED))]%Q.

(** The synthetic test of section 8, worked by hand to four decimals,
    each with the tolerance asked for. *)
Definition hand_computed : list (string * (Q * Q)) :=
  [("NDVI", (0.6667, 0.0001));
   ("EVI", (0.5797, 0.00005));
   ("GNDVI", (0.4286, 0.00005));
   ("SAVI", (0.5455, 0.00005));
   ("NDWI", (-0.4286, 0.00005));
   ("NDMI", (0.5385, 0.00005));
   ("RENDVI", (0.5, 0.00005))]%Q.

(** A band holds [x] at a pixel, up to equality of rationals. *)
Definition holds (v : option Q) (x : Q) : Prop :=
  match v with
  | Some a => (a == x)%Q
  | None => False
  end.

(** A band holds a value within [tol] of [x] at a pixel. *)
Definition within (v : option Q) (xt : Q * Q) : Prop :=
  match v with
  | Some a => (Qabs (a - xt.1) <= xt.2)%Q
  | None => False
  end.

End Spec.

(** ** Band algebra and test data used by the statements below *)

(** The bands [compute_indices] adds to a composite, as band algebra. *)
Definition index_band_values (b2 b3 b4 b5 b8 b11 : Band) : Image :=
  [("NDVI", lift2 Qdiv (lift2 Qminus b8 b4) (lift2 Qplus b8 b4));
   ("EVI", lift2 Qdiv (lift2 Qmult (lift2 Qminus b8 b4) (fun _ => Some 2.5%Q))
             (lift2 Qplus
                (lift2 Qminus (lift2 Qplus b8 (lift2 Qmult b4 (fun _ => Some 6%Q)))
                   (lift2 Qmult b2 (fun _ => Some 7.5%Q)))
                (fun _ => Some 1%Q)));
   ("GNDVI", lift2 Qdiv (lift2 Qminus b8 b3) (lift2 Qplus b8 b3));
   ("SAVI", lift2 Qdiv (lift2 Qmult (lift2 Qminus b8 b4) (fun _ => Some 1.5%Q))
              (lift2 Qplus (lift2 Qplus b8 b4) (fun _ => Some 0.5%Q)));
   ("NDWI", lift2 Qdiv (lift2 Qminus b3 b8) (lift2 Qplus b3 b8));
   ("NDMI", lift2 Qdiv (lift2 Qminus b8 b11) (lift2 Qplus b8 b11));
   ("RENDVI", lift2 Qdiv (lift2 Qminus b5 b4) (lift2 Qplus b5 b4))].

(** The synthetic composite of section 8: the same values at every
    pixel. *)
Definition synthetic_composite : Image :=
  [("B2", fun _ => Some 0.05%Q); ("B3", fun _ => Some 0.2%Q);
   ("B4", fun _ => Some 0.1%Q); ("B5", fun _ => Some 0.3%Q);
   ("B8", fun _ => Some 0.5%Q); ("B11", fun _ => Some 0.15%Q);
   ("B12", fun _ => Some 0.1%Q)].

(** Rows of a small input file and of one of 9000 coordinates. *)
Definition five_rows : list (Q * Q) :=
  [(76.94, 12.86); (76.95, 12.87); (76.96, 12.88); (76.97, 12.89); (76.98, 12.90)]%Q.

Definition nine_thousand_rows : list (Q * Q) :=
  replicate (Z.to_nat 9000) (76.94, 12.86)%Q.

(** The month boundary rule of section 8, by month name. *)
Definition month_number (name : string) : string :=
  default "" ((list_to_map [("July", "07"); ("August", "08"); ("September", "09");
                            ("October", "10"); ("November", "11"); ("December", "12")]
                 : gmap string string) !! name).

Definition end_day (name : string) : string :=
  if bool_decide (name ∈ ["September"; "November"]) then "30" else "31".

(** The value of a column of a row. *)
Definition column (k : string) (r : Row) : option value :=
  (list_to_map r : gmap string value) !! k.

(** What section 4.5 asks of the row of a returned feature, for the band
    columns [schema] of a sensor. *)
Definition row_of (schema : list string) (feature : Feature) (r : Row) : Prop :=
  r.*1 = "id" :: "Longitude" :: "Latitude" :: schema
  /\ column "id" r = properties feature !! "id"
  /\ column "Longitude" r = coordinates feature !! 0%nat
  /\ column "Latitude" r = coordinates feature !! 1%nat
  /\ Forall (fun k => column k r = Some (default (VInt 0) (properties feature !! k))) schema.

(** A returned feature carries its [id] and a point geometry. *)
Definition well_formed (feature : Feature) : Prop :=
  is_Some (properties feature !! "id") /\ (2 <= length (coordinates feature))%nat.

(** The band columns of the two output files. *)
Definition s1_schema : list string := ["VV"; "VH"; "VH_VV"].
Definition s2_schema : list string :=
  ["NDVI"; "EVI"; "GNDVI"; "SAVI"; "NDWI"; "NDMI"; "RENDVI"].

(** A backend for the examples: the region covers every pixel, the
    catalogues are empty, no client call fails, every sampled point comes
    back with its id and its VV value but nothing else, and every file can
    be written. *)
Definition sampled_feature (pt : Point) : Feature :=
  {| properties := {[ "id" := VInt (pt_id pt); "VV" := VNum (-12)%Q ]};
     coordinates := [VNum (pt_lon pt); VNum (pt_lat pt)] |}.

Definition demo_env : Env :=
  {| load_geojson := Ok (fun _ => true);
     S1_GRD := [];
     S2_SR_HARMONIZED := [];
     S2_CLOUD_PROBABILITY := [];
     directionalDistanceTransform := fun _ _ _ _ => None;
     client_fault := fun _ _ => None;
     size_getInfo := fun _ fc => Ok (Z.of_nat (length fc));
     sample_getInfo := fun _ fc => Ok (sampled_feature <$> fc);
     write_fault := fun _ => None;
     write_progress := fun _ => None |}.

(** The world the two builders leave behind. *)
Definition built_world (env : Env) : World :=
  (bind (S1.create_monthwise_s1_collection env 2019)
        (fun _ => S2.create_monthwise_s2_collection env 2019) initial_world).2.

Definition one_point : list Point :=
  [{| pt_id := 0; pt_lon := 76.9430421%Q; pt_lat := 12.8601999%Q |}].



(** The backend of the examples, where a client call of the named builder
    function fails for August only. *)
Definition august_fault_env (function : string) : Env :=
  {| load_geojson := load_geojson demo_env;
     S1_GRD := []; S2_SR_HARMONIZED := []; S2_CLOUD_PROBABILITY := [];
     directionalDistanceTransform := directionalDistanceTransform demo_env;
     client_fault := fun stage month =>
       if String.eqb stage function && String.eqb month "08"
       then Some (EEException "Connection reset by peer")
       else None;
     size_getInfo := size_getInfo demo_env;
     sample_getInfo := sample_getInfo demo_env;
     write_fault := write_fault demo_env;
     write_progress := write_progress demo_env |}.

(** The backend of the examples, without the region file. *)
Definition missing_region_env : Env :=
  {| load_geojson := Raise (FileNotFoundError "Tumkur.geojson");
     S1_GRD := []; S2_SR_HARMONIZED := []; S2_CLOUD_PROBABILITY := [];
     directionalDistanceTransform := directionalDistanceTransform demo_env;
     client_fault := client_fault demo_env;
     size_getInfo := size_getInfo demo_env;
     sample_getInfo := sample_getInfo demo_env;
     write_fault := write_fault demo_env;
     write_progress := write_progress demo_env |}.

Definition one_row : list (Q * Q) := [(76.9430421, 12.8601999)%Q].

(** The paths of the files a world holds, and the globals that are set. *)
Definition written (w : World) : list string := (map_to_list (files w)).*1.
Definition s1_set (w : World) : list string := (map_to_list (s1_globals w)).*1.
Definition s2_set (w : World) : list string := (map_to_list (s2_globals w)).*1.
Definition errors (w : World) : list string :=
  omap (fun r : level * string => match r.1 with ERROR => Some r.2 | INFO => None end) (log w).

(** A radar catalogue for the examples: three descending IW scenes of
    September 2019 over the region, and an ascending one that the filters
    drop.  Every scene holds the same values at every pixel. *)
Definition radar_scene (index day pass : string) (vv vh : Q) : Scene :=
  {| system_index := index;
     date := day;
     footprint := [(0, 0)%Z];
     str_props := {[ "instrumentMode" := "IW"; "orbitProperties_pass" := pass ]};
     num_props := {[ "resolution_meters" := 10%Q ]};
     list_props := {[ "transmitterReceiverPolarisation" := ["VV"; "VH"] ]};
     bands := [("VV", fun _ => Some vv); ("VH", fun _ => Some vh);
               ("angle", fun _ => Some 38%Q)] |}.

Definition radar_env : Env :=
  {| load_geojson := load_geojson demo_env;
     S1_GRD := [radar_scene "S1A_a" "2019-09-03" "DESCENDING" (-10) (-18);
                radar_scene "S1A_b" "2019-09-15" "DESCENDING" (-12) (-20);
                radar_scene "S1A_c" "2019-09-27" "DESCENDING" (-15) (-15);
                radar_scene "S1A_d" "2019-09-09" "ASCENDING" (-2) (-40);
                radar_scene "S1A_e" "2019-10-02" "DESCENDING" (-3) (-30)];
     S2_SR_HARMONIZED := []; S2_CLOUD_PROBABILITY := [];
     directionalDistanceTransform := directionalDistanceTransform demo_env;
     client_fault := client_fault demo_env;
     size_getInfo := size_getInfo demo_env;
     sample_getInfo := sample_getInfo demo_env;
     write_fault := write_fault demo_env;
     write_progress := write_progress demo_env |}.

Definition everywhere : Geometry := fun _ => true.

(** The three scenes that pass the filters for September, as selected. *)
Definition september_scenes : list Image :=
  [[("VV", fun _ => Some (-10)%Q); ("VH", fun _ => Some (-18)%Q)];
   [("VV", fun _ => Some (-12)%Q); ("VH", fun _ => Some (-20)%Q)];
   [("VV", fun _ => Some (-15)%Q); ("VH", fun _ => Some (-15)%Q)]].

(** The per-scene ratios of a collection at a pixel, for comparison. *)
Definition scene_ratios (p : Pixel) (c : list Image) : list Q :=
  omap (fun i => vh ← band_value "VH" p i; vv ← band_value "VV" p i; Some (vh / vv)%Q) c.

(** The bands of a scene once the cloud and the shadow bands are added. *)
Definition stage2_names : list string :=
  ["B2"; "B3"; "B4"; "B5"; "B8"; "B11"; "B12"; "SCL";
   "probability"; "clouds"; "dark_pixels"; "cloud_transform"; "shadows"].

(** The union of the cloud and the shadow flag at a pixel, before
    morphology. *)
Definition flagged (clouds shadows : Band) (q : Pixel) : bool :=
  match clouds q, shadows q with
  | Some c, Some s => Qltb 0 (c + s)
  | _, _ => false
  end.

(** The flag after erosion and dilation: some pixel of the dilation
    neighbourhood has its whole erosion neighbourhood flagged. *)
Definition flagged_after_morphology (clouds shadows : Band) (p : Pixel) : bool :=
  existsb (fun o => forallb (fun o' => flagged clouds shadows (shift (shift p o) o'))
                      (circle 2))
          (circle (S2.BUFFER * 2 / 20)).

(** Optical scenes for the examples: bright land everywhere, sun azimuth
    150 degrees, and the given cloud probability. *)
Definition optical_scene (index : string) : Scene :=
  {| system_index := index;
     date := "2019-08-10";
     footprint := [(0, 0)%Z];
     str_props := ∅;
     num_props := {[ "CLOUDY_PIXEL_PERCENTAGE" := 20%Q; "MEAN_SOLAR_AZIMUTH_ANGLE" := 150%Q ]};
     list_props := ∅;
     bands := [("B2", fun _ => Some 400%Q); ("B3", fun _ => Some 700%Q);
               ("B4", fun _ => Some 1000%Q); ("B5", fun _ => Some 1500%Q);
               ("B8", fun _ => Some 3000%Q); ("B11", fun _ => Some 2000%Q);
               ("B12", fun _ => Some 1200%Q); ("SCL", fun _ => Some 4%Q)] |}.

Definition probability_scene (index : string) (probability : Band) : Scene :=
  {| system_index := index;
     date := "2019-08-10";
     footprint := [(0, 0)%Z];
     str_props := ∅; num_props := ∅; list_props := ∅;
     bands := [("probability", probability)] |}.

Definition joined (probability : Band) : S2.Joined :=
  {| S2.primary := optical_scene "T43PGQ";
     S2.primary_image :=
       select_list ["B2"; "B3"; "B4"; "B5"; "B8"; "B11"; "B12"; "SCL"]
         (Some (bands (optical_scene "T43PGQ")));
     S2.s2cloudless := probability_scene "T43PGQ" probability |}.

(** One cloudy pixel, alone. *)
Definition isolated_cloud : Band :=
  fun q => if bool_decide (q = (0, 0)%Z) then Some 100%Q else Some 0%Q.

(** A block of five by five cloudy pixels. *)
Definition cloud_block : Band :=
  fun q => if (Z.abs q.1 <=? 2)%Z && (Z.abs q.2 <=? 2)%Z then Some 100%Q else Some 0%Q.

(** A scene with its cloud and shadow bands, and as it enters the
    reduction. *)
Definition with_flags (probability : Band) : img :=
  S2.add_shadow_bands demo_env (joined probability)
    (S2.add_cloud_bands (joined probability) (S2.primary_image (joined probability))).

Definition masked_scene (probability : Band) : img :=
  S2.apply_cld_shdw_mask (S2.add_cld_shdw_mask demo_env (joined probability)).

(** The bands of the block scene with its flags, and the two flags. *)
Definition block_bands : Image := default [] (with_flags cloud_block).
Definition block_clouds : Band := default (fun _ => None) (lookup_band "clouds" block_bands).
Definition block_shadows : Band := default (fun _ => None) (lookup_band "shadows" block_bands).

(** An optical catalogue for the examples: one clear scene of August 2019
    holding the synthetic band values of section 8 at every pixel. *)
Definition synthetic_scene : Scene :=
  {| system_index := "T43PGQ_20190810";
     date := "2019-08-10";
     footprint := [(0, 0)%Z];
     str_props := ∅;
     num_props := {[ "CLOUDY_PIXEL_PERCENTAGE" := 5%Q; "MEAN_SOLAR_AZIMUTH_ANGLE" := 150%Q ]};
     list_props := ∅;
     bands := synthetic_composite ++ [("SCL", fun _ => Some 4%Q)] |}.

Definition synthetic_env : Env :=
  {| load_geojson := load_geojson demo_env;
     S1_GRD := [];
     S2_SR_HARMONIZED := [synthetic_scene];
     S2_CLOUD_PROBABILITY := [probability_scene "T43PGQ_20190810" (fun _ => Some 0%Q)];
     directionalDistanceTransform := directionalDistanceTransform demo_env;
     client_fault := client_fault demo_env;
     size_getInfo := size_getInfo demo_env;
     sample_getInfo := sample_getInfo demo_env;
     write_fault := write_fault demo_env;
     write_progress := write_progress demo_env |}.

Definition august_collection : list S2.Joined :=
  S2.get_s2_sr_cld_col synthetic_env everywhere
    (S2.start_date 2019 "08") (S2.end_date 2019 "08") S2.CLOUD_FILTER.

Definition august_scenes : list Image :=
  default [] (S2.s2_processed synthetic_env august_collection).

(** ** The builders' loops, as folds over the months *)

(** One turn of the radar loop on the globals: a month whose client calls
    fail leaves them as they are. *)
Definition s1_step (env : Env) (region : Geometry) (year : Z)
    (g : gmap string img) (im : nat * string) : gmap string img :=
  match client_fault env "create_monthwise_s1_collection" im.2, S1.month_vars !! im.1 with
  | None, Some var => <[var := S1.s1_month_image env region year im.2]> g
  | _, _ => g
  end.

(** The helpers of the optical builder, in the order their client calls
    run for a month, and the first exception they raise. *)
Definition s2_stages : list string :=
  ["get_s2_sr_cld_col"; "add_cloud_bands"; "add_shadow_bands"; "add_cld_shdw_mask";
   "apply_cld_shdw_mask"; "create_monthwise_s2_collection"].

Definition s2_month_fault (env : Env) (month : string) : option exn :=
  head (omap (fun name => client_fault env name month) s2_stages).

(** The image the optical builder stores for a month. *)
Definition s2_stored (env : Env) (region : Geometry) (year : Z) (month : string) : img :=
  S2.s2_month_image env region
    (S2.get_s2_sr_cld_col env region (S2.start_date year month) (S2.end_date year month)
       S2.CLOUD_FILTER).

(** The optical loop on the globals: it stops at the first month that
    fails. *)
Fixpoint s2_built (env : Env) (region : Geometry) (year : Z)
    (g : gmap string img) (ims : list (nat * string)) : option exn * gmap string img :=
  match ims with
  | [] => (None, g)
  | im :: rest =>
      match s2_month_fault env im.2 with
      | Some e => (Some e, g)
      | None =>
          match S2.month_vars !! im.1 with
          | Some var => s2_built env region year (<[var := s2_stored env region year im.2]> g) rest
          | None => (Some (IndexError "list index out of range"), g)
          end
      end
  end.

Definition outcome (e : option exn) : result unit :=
  match e with
  | None => Ok tt
  | Some e => Raise e
  end.

(** ** Frames of the export steps *)

(** A step that changes no global, and no file but the one of the given
    path; it may log. *)
Definition writes_only (path : string) (w w' : World) : Prop :=
  s1_globals w' = s1_globals w /\ s2_globals w' = s2_globals w
  /\ (forall p, p <> path -> files w' !! p = files w !! p)
  /\ log w `prefix_of` log w'.

(** A returned feature the row builders cannot read. *)
Definition malformed (feature : Feature) : Prop :=
  properties feature !! "id" = None \/ (length (coordinates feature) < 2)%nat.

(** The exceptions of a failed dict or list access. *)
Definition is_access_error (e : exn) : bool :=
  match e with
  | KeyError _ | IndexError _ => true
  | _ => false
  end.

(** A feature without geometry coordinates, for the examples. *)
Definition broken_env : Env :=
  {| load_geojson := load_geojson demo_env;
     S1_GRD := []; S2_SR_HARMONIZED := []; S2_CLOUD_PROBABILITY := [];
     directionalDistanceTransform := directionalDistanceTransform demo_env;
     client_fault := client_fault demo_env;
     size_getInfo := size_getInfo demo_env;
     sample_getInfo := fun _ fc =>
       Ok ((sampled_feature <$> fc)
           ++ [{| properties := {[ "id" := VInt 1 ]}; coordinates := [] |}]);
     write_fault := write_fault demo_env;
     write_progress := write_progress demo_env |}.

(** A step that changes no global, and no file outside the given paths. *)
Definition touches (paths : string -> Prop) (w w' : World) : Prop :=
  s1_globals w' = s1_globals w /\ s2_globals w' = s2_globals w
  /\ (forall p, ~ paths p -> files w' !! p = files w !! p).

(** The paths of the twelve files of a batch. *)
Definition batch_paths (output_dir : string) (months : list string) (batch_idx : Z)
    (p : string) : Prop :=
  exists month, month ∈ months
    /\ (p = S1.output_file output_dir month batch_idx
        \/ p = S2.output_file output_dir month batch_idx).

(** ** Operands of the indices *)

(** The bands each index is computed from, lines 116-122. *)
Definition index_operands : list (string * list string) :=
  [("NDVI", ["B8"; "B4"]); ("EVI", ["B8"; "B4"; "B2"]); ("GNDVI", ["B8"; "B3"]);
   ("SAVI", ["B8"; "B4"]); ("NDWI", ["B3"; "B8"]); ("NDMI", ["B8"; "B11"]);
   ("RENDVI", ["B5"; "B4"])].

(** The indices that are a difference over a sum, with the band that is
    subtracted from and the band that is subtracted. *)
Definition normalised_differences : list (string * string * string) :=
  [("NDVI", "B8", "B4"); ("GNDVI", "B8", "B3"); ("NDWI", "B3", "B8");
   ("NDMI", "B8", "B11"); ("RENDVI", "B5", "B4")].

(** A region of one pixel, for the examples. *)
Definition origin_only : Geometry := fun p => bool_decide (p = (0, 0)%Z).

(** The radar scenes that pass the filters of lines 39-46 of
    [s1_service.py], before the bands are selected. *)
Definition s1_scenes (env : Env) (region : Geometry) (year : Z) (month : string)
    : list Scene :=
  filter_by (Filter_eq_str "orbitProperties_pass" "DESCENDING")
    (filter_by (Filter_eq_num "resolution_meters" 10)
       (filter_by (Filter_eq_str "instrumentMode" "IW")
          (filter_by (Filter_listContains "transmitterReceiverPolarisation" "VV")
             (filterDate (S1.start_date year month) (S1.end_date year month)
                (filterBounds region (S1_GRD env)))))).

(** A scene lies in the window of [filterDate], and its footprint meets
    the region of [filterBounds]. *)
Definition acquired_within (start_date end_date : string) (s : Scene) : Prop :=
  String.leb start_date (date s) = true /\ String.ltb (date s) end_date = true.

Definition meets (region : Geometry) (s : Scene) : Prop :=
  exists p : Pixel, p ∈ footprint s /\ region p = true.

(** ** A run on which nothing fails *)

(** The file of an export unit holds the rows of the features sampled
    for it, in the order returned. *)
Definition unit_written (env : Env) (schema : list string) (image : img)
    (fc : list Point) (path : string) (w : World) : Prop :=
  exists (features : list Feature) (rows : list Row),
    sample_getInfo env image fc = Ok features
    /\ files w !! path = Some rows
    /\ Forall2 (row_of schema) features rows.

(** Both files of a month of a batch are written, from the composites
    that the world [built] holds for the month. *)
Definition month_written (env : Env) (output_dir : string) (built : World)
    (fc : list Point) (batch_idx : Z) (month : string) (w : World) : Prop :=
  forall image1 image2 : img,
    month ∈ Index.months ->
    S1.month_image built month = Some image1 ->
    S2.month_image built month = Some image2 ->
    unit_written env s1_schema image1 fc (S1.output_file output_dir month batch_idx) w
    /\ unit_written env s2_schema image2 fc (S2.output_file output_dir month batch_idx) w.

Definition batch_written (env : Env) (output_dir : string) (built : World)
    (b : Z * Index.DataFrame) (w : World) : Prop :=
  forall month : string,
    month_written env output_dir built (Index.features b.2) b.1 month w.

(** The globals are those of the world [built]. *)
Definition same_globals (built w : World) : Prop :=
  s1_globals w = s1_globals built /\ s2_globals w = s2_globals built.

(** The two paths of a month of a batch. *)
Definition month_paths (output_dir month : string) (batch_idx : Z) (p : string) : Prop :=
  p = S1.output_file output_dir month batch_idx
  \/ p = S2.output_file output_dir month batch_idx.

(** ** The mask on scenes whose flags are not valid everywhere *)

(** The union of the two flags at a pixel, where both are valid. *)
Definition flag (clouds shadows : Band) (q : Pixel) : option bool :=
  c ← clouds q; s ← shadows q; Some (Qltb 0 (c + s)).

(** The values of [f] that are valid within radius [r] of [p]. *)
Definition valid_around (r : Q) (f : Pixel -> option bool) (p : Pixel) : list bool :=
  omap (fun o => f (shift p o)) (circle r).

(** Erosion and dilation as the focal operators compute them: over the
    valid pixels of the neighbourhood, and masked where it has none. *)
Definition eroded (clouds shadows : Band) (q : Pixel) : option bool :=
  match valid_around 2 (flag clouds shadows) q with
  | [] => None
  | vs => Some (forallb id vs)
  end.

Definition dilated (clouds shadows : Band) (p : Pixel) : option bool :=
  match valid_around (S2.BUFFER * 2 / 20) (eroded clouds shadows) p with
  | [] => None
  | vs => Some (existsb id vs)
  end.

(** A pixel leaves the reduction input where the flag after morphology
    is set, or is masked. *)
Definition excluded (clouds shadows : Band) (p : Pixel) : bool :=
  match dilated clouds shadows p with
  | Some false => false
  | _ => true
  end.

(** Cloud probabilities on a tile of 17 by 17 pixels, masked outside it:
    cloud along the eastern edge, three pixels deep. *)
Definition cloud_tile : Band :=
  fun q =>
    if (Z.abs q.1 <=? 8)%Z && (Z.abs q.2 <=? 8)%Z
    then Some (if (6 <=? q.1)%Z then 100%Q else 0%Q)
    else None.

(** ** The script with its input *)

(** Line 36 and what follows it: [pd.read_csv] gives the rows of the
    input file or raises, and nothing around it catches what it
    raises. *)
Definition script (env : Env) (input : result (list (Q * Q))) : Prog unit :=
  bind (lift_result input) (Index.main env).

(** Scenes for a catalogue that has data in every month. *)
Definition optical_scene_on (index day : string) : Scene :=
  {| system_index := index;
     date := day;
     footprint := [(0, 0)%Z];
     str_props := ∅;
     num_props := {[ "CLOUDY_PIXEL_PERCENTAGE" := 20%Q; "MEAN_SOLAR_AZIMUTH_ANGLE" := 150%Q ]};
     list_props := ∅;
     bands := [("B2", fun _ => Some 400%Q); ("B3", fun _ => Some 700%Q);
               ("B4", fun _ => Some 1000%Q); ("B5", fun _ => Some 1500%Q);
               ("B8", fun _ => Some 3000%Q); ("B11", fun _ => Some 2000%Q);
               ("B12", fun _ => Some 1200%Q); ("SCL", fun _ => Some 4%Q)] |}.

Definition probability_scene_on (index day : string) : Scene :=
  {| system_index := index;
     date := day;
     footprint := [(0, 0)%Z];
     str_props := ∅; num_props := ∅; list_props := ∅;
     bands := [("probability", fun _ => Some 10%Q)] |}.

Definition mid_month_days : list string :=
  ["2019-07-10"; "2019-08-10"; "2019-09-10"; "2019-10-10"; "2019-11-10"; "2019-12-10"].

(** A backend with one radar and one clear optical scene in every month
    of the schedule, which answers every request on an image that can be
    evaluated and refuses the others. *)
Definition full_year_env : Env :=
  {| load_geojson := Ok (fun _ => true);
     S1_GRD := (fun day => radar_scene ("S1A_" +:+ day) day "DESCENDING" (-12) (-18))
                 <$> mid_month_days;
     S2_SR_HARMONIZED := (fun day => optical_scene_on ("T43PGQ_" +:+ day) day)
                           <$> mid_month_days;
     S2_CLOUD_PROBABILITY := (fun day => probability_scene_on ("T43PGQ_" +:+ day) day)
                               <$> mid_month_days;
     directionalDistanceTransform := fun _ _ _ _ => None;
     client_fault := fun _ _ => None;
     size_getInfo := fun image fc =>
       match image with
       | Some _ => Ok (Z.of_nat (length fc))
       | None => Raise (EEException "Image.select: Pattern did not match any bands.")
       end;
     sample_getInfo := fun image fc =>
       match image with
       | Some _ => Ok (sampled_feature <$> fc)
       | None => Raise (EEException "Image.select: Pattern did not match any bands.")
       end;
     write_fault := fun _ => None;
     write_progress := fun _ => None |}.

(** ** A radar month that could not be built *)

(** The month's radar composite is unset and the month's radar file of
    the batch does not exist. *)
Definition never_written (name : string) (batch_idx : Z) (w : World) : Prop :=
  S1.month_image w name = None
  /\ files w !! S1.output_file Index.OUTPUT_DIR name batch_idx = None.

(** * Verification *)

(** ** Index computation *)

Section Indices.

Import S2.

Lemma compute_indices_unfold b2 b3 b4 b5 b8 b11 b12 :
  let image := [("B2", b2); ("B3", b3); ("B4", b4); ("B5", b5);
                ("B8", b8); ("B11", b11); ("B12", b12)] in
  compute_indices (Some image) = Some (image ++ index_band_values b2 b3 b4 b5 b8 b11).
Proof. reflexivity. Qed.

End Indices.

(** An image whose band names are the seven composite bands is seven
    named bands, in that order. *)
Ltac split_image image H :=
  repeat (let n := fresh "n" in
          let b := fresh "b" in
          destruct image as [|[n b] image]; [discriminate H|]);
  destruct image; [|discriminate H];
  injection H as -> -> -> -> -> -> ->.

Lemma composite_bands (image : Image) :
  bandNames image = S2.s2_bands ->
  exists b2 b3 b4 b5 b8 b11 b12,
    image = [("B2", b2); ("B3", b3); ("B4", b4); ("B5", b5);
             ("B8", b8); ("B11", b11); ("B12", b12)].
Proof.
  intros H. unfold bandNames, S2.s2_bands in H.
  split_image image H. by do 7 eexists.
Qed.

(** On an image with the seven composite bands, each index band holds,
    pixel by pixel, the value of the specification's formula, and the
    synthetic values give the hand-computed figures. *)
Lemma indices_on_composite_bands
    (image : Image) (p : Pixel) (NIR RED BLUE GREEN REDEDGE SWIR1 : Q) :
  bandNames image = S2.s2_bands ->
  band_value "B8" p image = Some NIR ->
  band_value "B4" p image = Some RED ->
  band_value "B2" p image = Some BLUE ->
  band_value "B3" p image = Some GREEN ->
  band_value "B5" p image = Some REDEDGE ->
  band_value "B11" p image = Some SWIR1 ->
  let out := S2.compute_indices (Some image) in
  Forall (fun nf : string * Q => Spec.holds (value_at nf.1 p out) nf.2)
         (Spec.index_formulas NIR RED BLUE GREEN REDEDGE SWIR1)
  /\ ((NIR == 0.5)%Q -> (RED == 0.1)%Q -> (BLUE == 0.05)%Q -> (GREEN == 0.2)%Q ->
      (REDEDGE == 0.3)%Q -> (SWIR1 == 0.15)%Q ->
      Forall (fun nx : string * (Q * Q) => Spec.within (value_at nx.1 p out) nx.2)
             Spec.hand_computed).
Proof.
  intros Hn H8 H4 H2 H3 H5 H11 out.
  destruct (composite_bands image Hn) as (b2 & b3 & b4 & b5 & b8 & b11 & b12 & ->).
  subst out. rewrite compute_indices_unfold.
  cbn in H8, H4, H2, H3, H5, H11.
  assert (Hform : Forall (fun nf : string * Q =>
            Spec.holds (value_at nf.1 p
              (Some ([("B2", b2); ("B3", b3); ("B4", b4); ("B5", b5);
                      ("B8", b8); ("B11", b11); ("B12", b12)]
                     ++ index_band_values b2 b3 b4 b5 b8 b11))) nf.2)
           (Spec.index_formulas NIR RED BLUE GREEN REDEDGE SWIR1)).
  { unfold Spec.index_formulas.
    repeat (apply List.Forall_cons); try apply List.Forall_nil;
      cbn; unfold lift2; rewrite ?H8, ?H4, ?H2, ?H3, ?H5, ?H11; cbn;
      apply Qdiv_comp; ring. }
  split; [exact Hform|].
  intros E8 E4 E2 E3 E5 E11.
  unfold Spec.index_formulas in Hform. unfold Spec.hand_computed.
  repeat match goal with
         | H : Forall _ (_ :: _) |- _ => apply Forall_cons in H; destruct H as [? H]
         end.
  cbn [fst snd] in *.
  repeat (apply List.Forall_cons); try apply List.Forall_nil; cbn [fst snd];
    match goal with
    | H : Spec.holds (value_at ?n p ?o) _ |- Spec.within (value_at ?n p ?o) _ =>
        unfold Spec.holds, Spec.within in H |- *;
        destruct (value_at n p o) as [v|]; [|contradiction];
        cbn [fst snd];
        rewrite H, ?E8, ?E4, ?E2, ?E3, ?E5, ?E11;
        apply Qle_bool_imp_le; reflexivity
    end.
Qed.


Lemma select_names (n : string) (e : img) (s : Image) :
  select n e = Some s -> bandNames s = [n].
Proof.
  unfold select. destruct e as [i|]; [|discriminate]. cbn.
  destruct (lookup_band n i); [|discriminate]. by intros [= <-].
Qed.

Lemma select_list_names (ns : list string) (e : img) :
  forall s, select_list ns e = Some s -> bandNames s = ns.
Proof.
  induction ns as [|n ns IH]; intros s; cbn [select_list].
  - destruct e; [|discriminate]. by intros [= <-].
  - destruct (select n e) as [a|] eqn:Ha; [|discriminate]. cbn.
    destruct (select_list ns e) as [b|]; [|discriminate]. cbn. intros [= <-].
    unfold bandNames in *. rewrite fmap_app, (IH b eq_refl).
    apply select_names in Ha. unfold bandNames in Ha. by rewrite Ha.
Qed.

(** A scene that enters the reduction has the seven optical bands. *)
Lemma apply_cld_shdw_mask_names (e : img) (s : Image) :
  S2.apply_cld_shdw_mask e = Some s -> bandNames s = S2.s2_bands.
Proof.
  unfold S2.apply_cld_shdw_mask, updateMask.
  destruct (select_list S2.s2_bands e) as [i|] eqn:Hi; [|discriminate].
  apply select_list_names in Hi.
  destruct (Not _) as [[|[? mb] [|? ?]]|]; try discriminate.
  intros [= <-]. unfold bandNames in *. by rewrite <- list_fmap_compose.
Qed.

(** So has the monthly composite of a collection that is not empty. *)
Lemma composite_band_names (env : Env) (region : Geometry) (s2_collection : list S2.Joined)
    (scenes : list Image) :
  S2.s2_processed env s2_collection = Some scenes ->
  scenes <> [] ->
  exists image : Image,
    clip region (median (Some scenes)) = Some image /\ bandNames image = S2.s2_bands.
Proof.
  intros Hp Hne. eexists. split; [reflexivity|].
  destruct scenes as [|first rest]; [done|].
  apply mapM_Some_1, Forall2_cons_inv_r in Hp as (j & js & Hj & _ & _).
  apply apply_cld_shdw_mask_names in Hj.
  unfold bandNames in *. cbn [median_image]. by rewrite <- !list_fmap_compose.
Qed.

(** C1. For every month whose masked collection is not empty, each of the
    seven index bands of the stored image holds, pixel by pixel, the value
    of the specification's formula on the bands of the month's median
    composite; with NIR=0.5, RED=0.1, BLUE=0.05, GREEN=0.2, REDEDGE=0.3 and
    SWIR1=0.15 at a pixel of the composite, NDVI is within 0.0001 of
    0.6667 there and the six others agree with the hand-computed figures
    to four decimals. *)
Theorem C1_indices_follow_the_formulas
    (env : Env) (region : Geometry) (s2_collection : list S2.Joined)
    (scenes : list Image) (p : Pixel) (NIR RED BLUE GREEN REDEDGE SWIR1 : Q) :
  S2.s2_processed env s2_collection = Some scenes ->
  scenes <> [] ->
  let composite := clip region (median (Some scenes)) in
  value_at "B8" p composite = Some NIR ->
  value_at "B4" p composite = Some RED ->
  value_at "B2" p composite = Some BLUE ->
  value_at "B3" p composite = Some GREEN ->
  value_at "B5" p composite = Some REDEDGE ->
  value_at "B11" p composite = Some SWIR1 ->
  let out := S2.s2_month_image env region s2_collection in
  Forall (fun nf : string * Q => Spec.holds (value_at nf.1 p out) nf.2)
         (Spec.index_formulas NIR RED BLUE GREEN REDEDGE SWIR1)
  /\ ((NIR == 0.5)%Q -> (RED == 0.1)%Q -> (BLUE == 0.05)%Q -> (GREEN == 0.2)%Q ->
      (REDEDGE == 0.3)%Q -> (SWIR1 == 0.15)%Q ->
      Forall (fun nx : string * (Q * Q) => Spec.within (value_at nx.1 p out) nx.2)
             Spec.hand_computed).
Proof.
  intros Hp Hne composite H8 H4 H2 H3 H5 H11 out.
  destruct (composite_band_names env region s2_collection scenes Hp Hne)
    as (image & Himage & Hnames).
  subst out. unfold S2.s2_month_image. rewrite Hp.
  subst composite. rewrite Himage in *.
  by apply indices_on_composite_bands.
Qed.

Lemma C1_indices_follow_the_formulas_witness :
  let out := S2.s2_month_image synthetic_env everywhere august_collection in
  Forall (fun nf : string * Q => Spec.holds (value_at nf.1 (0, 0)%Z out) nf.2)
         (Spec.index_formulas 0.5 0.1 0.05 0.2 0.3 0.15)
  /\ Forall (fun nx : string * (Q * Q) => Spec.within (value_at nx.1 (0, 0)%Z out) nx.2)
            Spec.hand_computed.
Proof.
  destruct (C1_indices_follow_the_formulas synthetic_env everywhere august_collection
              august_scenes (0, 0)%Z 0.5 0.1 0.05 0.2 0.3 0.15
              eq_refl ltac:(by vm_compute)
              eq_refl eq_refl eq_refl eq_refl eq_refl eq_refl) as [Hf Hn].
  split; [exact Hf|].
  apply Hn; reflexivity.
Defined.

(** ** Adding bands keeps the bands that are there *)

Lemma fresh_name_unused (used : list string) (n : string) :
  n ∉ used -> fresh_name used n = n.
Proof. intros H. unfold fresh_name. by rewrite bool_decide_eq_false_2. Qed.

Lemma addBands_raw_prefix (src : Image) :
  forall dst : Image, exists added : Image,
    addBands_raw dst src = dst ++ added /\ added.*2 = src.*2.
Proof.
  induction src as [|[n b] rest IH]; intros dst; cbn.
  - exists []. by rewrite app_nil_r.
  - destruct (IH (dst ++ [(fresh_name (bandNames dst) n, b)])) as (added & -> & Hb).
    exists ((fresh_name (bandNames dst) n, b) :: added).
    rewrite <- app_assoc. cbn. by rewrite Hb.
Qed.

Lemma addBands_raw_no_clash (src : Image) :
  forall dst : Image,
    NoDup (bandNames src) ->
    (forall n, n ∈ bandNames src -> n ∉ bandNames dst) ->
    addBands_raw dst src = dst ++ src.
Proof.
  induction src as [|[n b] rest IH]; intros dst Hnd Hfresh; cbn.
  - by rewrite app_nil_r.
  - unfold bandNames in *. cbn in Hnd. apply NoDup_cons in Hnd as [Hn Hnd].
    rewrite fresh_name_unused by (apply Hfresh; cbn; left).
    rewrite IH; [by rewrite <- app_assoc | done |].
    intros m Hm. rewrite fmap_app. cbn. intros [Hin | Hin%list_elem_of_singleton]%elem_of_app.
    + apply (Hfresh m); [cbn; by right | done].
    + by subst m.
Qed.

Lemma foldl_addBands_None (l : list img) : foldl addBands None l = None.
Proof. induction l as [|x l IH]; [done | exact IH]. Qed.

Lemma Image_of_list_inv (l : list img) :
  forall (acc s : Image),
    foldl addBands (Some acc) l = Some s ->
    exists parts : list Image, l = Some <$> parts /\ s = foldl addBands_raw acc parts.
Proof.
  induction l as [|x l IH]; intros acc s H; cbn in H.
  - exists []. split; [done | by injection H as <-].
  - destruct x as [i|]; cbn in H.
    + destruct (IH _ _ H) as (parts & -> & ->). by exists (i :: parts).
    + by rewrite foldl_addBands_None in H.
Qed.

Lemma rename_inv (n : string) (e : img) (i : Image) :
  rename n e = Some i -> exists b, i = [(n, b)].
Proof.
  destruct e as [[|[m b] [|? ?]]|]; cbn; intros H; try discriminate.
  injection H as <-. by exists b.
Qed.

(** The seven index images, once combined, are seven bands with the index
    names. *)
Lemma compute_indices_inv (image out : Image) :
  S2.compute_indices (Some image) = Some out ->
  exists s : Image, bandNames s = S2.index_bands /\ out = addBands_raw image s.
Proof.
  unfold S2.compute_indices. cbv zeta.
  match goal with
  | |- addBands _ (Image_of_list ?l) = _ -> _ => generalize (eq_refl l); generalize l at 2 3
  end.
  intros l Hl H. unfold addBands in H. cbn in H.
  destruct (Image_of_list l) as [s|] eqn:Hs; [|discriminate].
  cbn in H. injection H as <-. exists s. split; [|done].
  apply Image_of_list_inv in Hs as (parts & -> & ->).
  do 8 (destruct parts as [|? parts]; try discriminate Hl).
  injection Hl as H1 H2 H3 H4 H5 H6 H7.
  apply rename_inv in H1 as [? ->], H2 as [? ->], H3 as [? ->], H4 as [? ->],
    H5 as [? ->], H6 as [? ->], H7 as [? ->].
  reflexivity.
Qed.

(** C10. [compute_indices] only adds bands.  Whatever image it is given,
    the image it returns starts with the bands of the input, each with its
    name and its values, followed by seven more, named NDVI, EVI, GNDVI,
    SAVI, NDWI, NDMI and RENDVI when the input has no band of such a name;
    on a composite, with the bands B2, B3, B4, B5, B8, B11 and B12, it does
    return, and the seven new bands have these names. *)
Theorem C10_compute_indices_only_adds_bands (image : Image) :
  (forall out, S2.compute_indices (Some image) = Some out ->
     exists added : Image,
       out = image ++ added /\ length added = 7%nat
       /\ ((forall n, n ∈ S2.index_bands -> n ∉ bandNames image) ->
           bandNames added = S2.index_bands))
  /\ (bandNames image = S2.s2_bands ->
      exists added : Image,
        S2.compute_indices (Some image) = Some (image ++ added)
        /\ bandNames added = S2.index_bands).
Proof.
  split.
  - intros out (s & Hs & ->)%compute_indices_inv.
    destruct (addBands_raw_prefix s image) as (added & Hout & Hb).
    exists added. split; [done|]. split.
    + rewrite <- (length_fmap snd), Hb, length_fmap, <- (length_fmap fst).
      unfold bandNames in Hs. by rewrite Hs.
    + intros Hfresh.
      rewrite addBands_raw_no_clash in Hout.
      * apply app_inv_head in Hout. by subst added.
      * rewrite Hs. unfold S2.index_bands. by apply (bool_decide_unpack _).
      * by rewrite Hs.
  - intros Hn.
    destruct (composite_bands image Hn) as (b2 & b3 & b4 & b5 & b8 & b11 & b12 & ->).
    exists (index_band_values b2 b3 b4 b5 b8 b11).
    split; [apply compute_indices_unfold | reflexivity].
Qed.

Lemma C10_compute_indices_only_adds_bands_witness :
  exists added : Image,
    S2.compute_indices (Some synthetic_composite) = Some (synthetic_composite ++ added)
    /\ bandNames added = S2.index_bands.
Proof.
  exact (proj2 (C10_compute_indices_only_adds_bands synthetic_composite) eq_refl).
Defined.

(** ** Batching *)

Section Batching.

Import Index.

Local Open Scope Z_scope.

Lemma len_nonneg {A} (l : list A) : 0 <= len l.
Proof. unfold len. lia. Qed.

(** The quotient of line 46 is the ceiling of N / B. *)
Lemma num_batches_ceiling (df : DataFrame) (B : Z) :
  0 < B ->
  B * (num_batches df B - 1) < len df <= B * num_batches df B.
Proof.
  intros HB. unfold num_batches.
  pose proof (Z.div_mod (len df + B - 1) B ltac:(lia)) as Hdm.
  pose proof (Z.mod_pos_bound (len df + B - 1) B HB) as Hm.
  pose proof (len_nonneg df). nia.
Qed.

Lemma num_batches_nonneg (df : DataFrame) (B : Z) : 0 < B -> 0 <= num_batches df B.
Proof.
  intros HB. unfold num_batches. apply Z.div_pos; [|done].
  pose proof (len_nonneg df). lia.
Qed.

Lemma len_iloc (s e : Z) (df : DataFrame) :
  0 <= s -> 0 <= e -> len (iloc s e df) = Z.max 0 (Z.min e (len df) - s).
Proof.
  intros Hs He. unfold len, iloc. rewrite length_drop, length_take. lia.
Qed.

(** The first [k] slices, put end to end, are the first [k * B] rows. *)
Lemma concat_slices (df : DataFrame) (B : Z) (k : nat) :
  0 < B ->
  concat ((fun i => iloc (i * B) (Z.min ((i + 1) * B) (len df)) df) <$> seqZ 0 (Z.of_nat k))
  = take (Z.to_nat (Z.min (Z.of_nat k * B) (len df))) df.
Proof.
  intros HB. induction k as [|k IH].
  - cbn. by rewrite Z.min_l by (pose proof (len_nonneg df); lia).
  - rewrite seqZ_S, fmap_app, concat_app, IH. cbn [fmap list_fmap concat].
    rewrite app_nil_r, Z.add_0_l. unfold iloc.
    set (a := Z.min (Z.of_nat k * B) (len df)).
    set (b := Z.min ((Z.of_nat k + 1) * B) (len df)).
    replace (Z.min (Z.of_nat (S k) * B) (len df)) with b by (subst b; f_equal; lia).
    assert (Hab : (Z.to_nat a <= Z.to_nat b)%nat) by (subst a b; nia).
    destruct (decide (Z.of_nat k * B <= len df)) as [Hle | Hgt].
    + replace (Z.to_nat (Z.of_nat k * B)) with (Z.to_nat a) by (subst a; lia).
      rewrite <- (take_drop (Z.to_nat a) (take (Z.to_nat b) df)) at 2.
      by rewrite take_take, Nat.min_l.
    + rewrite (drop_ge (take _ _)) by (rewrite length_take; subst b; unfold len in *; lia).
      rewrite app_nil_r. f_equal. subst a b. lia.
Qed.

(** The labels [read_csv] gives are 0, 1, 2, ... *)
Lemma read_csv_labels (rows : list (Q * Q)) :
  (read_csv rows).*1 = seqZ 0 (len rows).
Proof.
  unfold read_csv, len, seqZ. rewrite fmap_imap, Nat2Z.id.
  rewrite <- (imap_seq_0 rows (fun i => Z.of_nat i + 0)).
  apply imap_ext. intros i x _. cbn. lia.
Qed.

Lemma len_read_csv (rows : list (Q * Q)) : len (read_csv rows) = len rows.
Proof. unfold len, read_csv. by rewrite length_imap. Qed.

Lemma fmap_concat {A C} (f : A -> C) (ls : list (list A)) :
  f <$> concat ls = concat ((fun l : list A => f <$> l) <$> ls).
Proof.
  induction ls as [|l ls IH]; [done|]. cbn. by rewrite fmap_app, IH.
Qed.

Lemma concat_batches (df : DataFrame) (B : Z) :
  0 < B -> concat ((batches df B).*2) = df.
Proof.
  intros HB. unfold batches. rewrite <- list_fmap_compose.
  pose proof (num_batches_nonneg df B HB) as Hk.
  pose proof (num_batches_ceiling df B HB) as Hc.
  rewrite <- (Z2Nat.id (num_batches df B)) by done.
  etransitivity; [apply (concat_slices df B _ HB)|].
  apply take_ge. unfold len in *. lia.
Qed.

(** C3. For a batch size B > 0 the N input rows are cut into exactly
    ceil(N / B) batches, numbered in order, the i-th being the rows from
    i * B up to (i + 1) * B or the end; each has at most B rows; put end
    to end in batch order they are the input in input order, so the ids
    of the batches, in order, are 0, ..., N - 1 without a duplicate.  For
    N = 9000 and B = 4000 the batch sizes are 4000, 4000 and 1000. *)
Theorem C3_batches_partition_the_input (rows : list (Q * Q)) (B : Z) :
  0 < B ->
  let df_input := read_csv rows in
  let bs := batches df_input B in
  let k := num_batches df_input B in
  len bs = k
  /\ B * (k - 1) < len rows <= B * k
  /\ bs.*1 = seqZ 0 k
  /\ (forall (i : nat) (b : Z * DataFrame), bs !! i = Some b ->
        b.2 = drop (Z.to_nat (Z.of_nat i * B)) (take (Z.to_nat ((Z.of_nat i + 1) * B)) df_input)
        /\ 0 < len b.2 <= B)
  /\ concat (bs.*2) = df_input
  /\ concat ((fun b : Z * DataFrame => pt_id <$> features b.2) <$> bs) = seqZ 0 (len rows)
  /\ NoDup (concat ((fun b : Z * DataFrame => pt_id <$> features b.2) <$> bs))
  /\ (len rows = 9000 -> B = 4000 ->
      (fun b : Z * DataFrame => len b.2) <$> bs = [4000; 4000; 1000]).
Proof.
  intros HB df_input bs k.
  pose proof (num_batches_nonneg df_input B HB) as Hk.
  pose proof (num_batches_ceiling df_input B HB) as Hc.
  pose proof (len_read_csv rows) as Hlen. fold df_input in Hlen.
  assert (Hids : concat ((fun b : Z * DataFrame => pt_id <$> features b.2) <$> bs)
                 = seqZ 0 (len rows)).
  { rewrite <- read_csv_labels. fold df_input.
    transitivity ((concat (bs.*2)).*1); [|unfold bs; by rewrite (concat_batches df_input B HB)].
    rewrite fmap_concat, <- list_fmap_compose.
    f_equal. apply list_fmap_ext. intros _ [i b] _. cbn.
    unfold features. by rewrite <- list_fmap_compose. }
  repeat split.
  - subst bs. unfold batches, len. rewrite length_fmap, length_seqZ. fold k. lia.
  - fold k in Hc. lia.
  - fold k in Hc. lia.
  - subst bs. unfold batches. rewrite <- list_fmap_compose. fold k.
    apply list_eq. intros i. rewrite list_lookup_fmap. by destruct (seqZ 0 k !! i).
  - subst bs. unfold batches in H. fold k in H.
    rewrite list_lookup_fmap in H.
    destruct (seqZ 0 k !! i) as [j|] eqn:Hj; [|discriminate].
    apply lookup_seqZ in Hj as [-> Hi]. injection H as <-. cbn. unfold iloc.
    rewrite Z.add_0_l.
    destruct (decide ((Z.of_nat i + 1) * B <= len df_input)) as [Hle|Hgt].
    + by rewrite Z.min_l.
    + rewrite Z.min_r by lia. unfold len.
      rewrite Nat2Z.id, !take_ge; [done | unfold len in *; lia | done].
  - subst bs. unfold batches in H. fold k in H.
    rewrite list_lookup_fmap in H.
    destruct (seqZ 0 k !! i) as [j|] eqn:Hj; [|discriminate].
    apply lookup_seqZ in Hj as [-> Hi]. injection H as <-. cbn.
    rewrite len_iloc by nia. fold k in Hc. nia.
  - subst bs. unfold batches in H. fold k in H.
    rewrite list_lookup_fmap in H.
    destruct (seqZ 0 k !! i) as [j|] eqn:Hj; [|discriminate].
    apply lookup_seqZ in Hj as [-> Hi]. injection H as <-. cbn.
    rewrite len_iloc by nia. fold k in Hc. nia.
  - apply concat_batches, HB.
  - exact Hids.
  - rewrite Hids. apply NoDup_seqZ.
  - intros HN ->. subst bs. unfold batches, num_batches.
    rewrite Hlen, HN.
    change ((9000 + 4000 - 1) `div` 4000) with 3.
    change (seqZ 0 3) with [0; 1; 2].
    cbn [fmap list_fmap snd]. rewrite !len_iloc by lia. rewrite Hlen, HN.
    reflexivity.
Qed.

End Batching.

Lemma C3_batches_partition_the_input_witness :
  let bs := Index.batches (Index.read_csv five_rows) 2 in
  Index.len bs = 3%Z
  /\ concat (bs.*2) = Index.read_csv five_rows
  /\ (fun b : Z * Index.DataFrame => Index.len b.2)
       <$> Index.batches (Index.read_csv nine_thousand_rows) 4000
     = [4000; 4000; 1000]%Z.
Proof.
  destruct (C3_batches_partition_the_input five_rows 2 ltac:(lia))
    as (Hlen & _ & _ & _ & Hcat & _).
  destruct (C3_batches_partition_the_input nine_thousand_rows 4000 ltac:(lia))
    as (_ & _ & _ & _ & _ & _ & _ & Hsizes).
  split; [exact Hlen|]. split; [exact Hcat|].
  apply Hsizes; [|reflexivity].
  unfold Index.len, nine_thousand_rows. rewrite length_replicate. lia.
Defined.

(** ** Month boundaries *)

(** C8. For every processing month, under the name the scheduler and the
    exporters use for it, both builders filter from day 1 of the month to
    day 30 for September and November and to day 31 for July, August,
    October and December, and the radar and the optical builder use the
    same two dates. *)
Theorem C8_month_date_ranges (year : Z) (i : nat) (name : string) :
  Index.months !! i = Some name ->
  exists m var1 var2 : string,
    S1.months !! i = Some m /\ S2.months !! i = Some m
    /\ S1.month_vars !! i = Some var1 /\ S2.month_vars !! i = Some var2
    /\ (list_to_map S1.export_month_vars : gmap string string) !! name = Some var1
    /\ (list_to_map S2.export_month_vars : gmap string string) !! name = Some var2
    /\ m = month_number name
    /\ S1.start_date year m = pretty year +:+ "-" +:+ m +:+ "-01"
    /\ S1.end_date year m = pretty year +:+ "-" +:+ m +:+ "-" +:+ end_day name
    /\ S2.start_date year m = S1.start_date year m
    /\ S2.end_date year m = S1.end_date year m.
Proof.
  intros H.
  do 6 (destruct i as [|i]; [injection H as <-; by do 3 eexists|]).
  discriminate H.
Qed.

Lemma C8_month_date_ranges_witness :
  exists m var1 var2 : string,
    S1.months !! 2%nat = Some m /\ S2.months !! 2%nat = Some m
    /\ S1.month_vars !! 2%nat = Some var1 /\ S2.month_vars !! 2%nat = Some var2
    /\ (list_to_map S1.export_month_vars : gmap string string) !! "September" = Some var1
    /\ (list_to_map S2.export_month_vars : gmap string string) !! "September" = Some var2
    /\ m = month_number "September"
    /\ S1.start_date 2019 m = pretty 2019%Z +:+ "-" +:+ m +:+ "-01"
    /\ S1.end_date 2019 m = pretty 2019%Z +:+ "-" +:+ m +:+ "-" +:+ end_day "September"
    /\ S2.start_date 2019 m = S1.start_date 2019 m
    /\ S2.end_date 2019 m = S1.end_date 2019 m.
Proof. exact (C8_month_date_ranges 2019 2 "September" eq_refl). Defined.

Example end_date_september : S1.end_date 2019 "09" = "2019-09-30".
Proof. reflexivity. Qed.

Example end_date_october : S2.end_date 2019 "10" = "2019-10-31".
Proof. reflexivity. Qed.

(** ** Rows of the output files *)

Lemma s1_row_of_feature (f : Feature) :
  well_formed f -> exists r, S1.row_of_feature f = Ok r /\ row_of s1_schema f r.
Proof.
  intros [[id Hid] Hlen]. unfold S1.row_of_feature. rewrite Hid.
  destruct (coordinates f) as [|lon [|lat rest]] eqn:Hc; cbn in Hlen; try lia.
  eexists. split; [reflexivity|].
  unfold row_of, column. rewrite Hid, Hc.
  repeat split; try reflexivity.
  repeat (apply List.Forall_cons); try apply List.Forall_nil; reflexivity.
Qed.

Lemma s2_row_of_feature (f : Feature) :
  well_formed f -> exists r, S2.row_of_feature f = Ok r /\ row_of s2_schema f r.
Proof.
  intros [[id Hid] Hlen]. unfold S2.row_of_feature. rewrite Hid.
  destruct (coordinates f) as [|lon [|lat rest]] eqn:Hc; cbn in Hlen; try lia.
  eexists. split; [reflexivity|].
  unfold row_of, column. rewrite Hid, Hc.
  repeat split; try reflexivity.
  repeat (apply List.Forall_cons); try apply List.Forall_nil; reflexivity.
Qed.

Lemma map_prog_rows {A B} (g : A -> result B) (P : A -> B -> Prop) (l : list A) (w : World) :
  Forall (fun x => exists r, g x = Ok r /\ P x r) l ->
  exists rows, map_prog (fun x => lift_result (g x)) l w = (Ok rows, w) /\ Forall2 P l rows.
Proof.
  induction 1 as [|x l (r & Hg & HP) _ (rows & IH & HF)]; cbn [map_prog].
  - by exists [].
  - exists (r :: rows). unfold bind at 1. unfold lift_result at 1. rewrite Hg.
    unfold bind. rewrite IH. split; [done | by constructor].
Qed.

Section Exporters.

Variables (env : Env) (fc : list Point) (month : string) (batch_idx : Z)
          (output_dir : string) (w : World).

Lemma export_s1_rows (s1_img : img) (features : list Feature) :
  S1.month_image w month = Some s1_img ->
  sample_getInfo env s1_img fc = Ok features ->
  Forall well_formed features ->
  write_fault env (S1.output_file output_dir month batch_idx) = None ->
  exists rows,
    (S1.export_sentinel_1_data env fc month batch_idx output_dir w).1 = Ok tt
    /\ files (S1.export_sentinel_1_data env fc month batch_idx output_dir w).2
         !! S1.output_file output_dir month batch_idx = Some rows
    /\ Forall2 (row_of s1_schema) features rows.
Proof.
  intros Himg Hsample Hwf Hwrite.
  destruct (map_prog_rows S1.row_of_feature (row_of s1_schema) features w) as (rows & Hrows & HF).
  { eapply Forall_impl; [exact Hwf | apply s1_row_of_feature]. }
  exists rows.
  assert (Hrun : exists msg,
             S1.export_sentinel_1_data env fc month batch_idx output_dir w
             = bind (write_file (S1.output_file output_dir month batch_idx) rows)
                    (fun _ => logger INFO msg) w).
  { eexists.
    unfold S1.export_sentinel_1_data, bind at 1, get_world. rewrite Himg.
    unfold try_except, bind at 1. unfold lift_result at 1. rewrite Hsample.
    unfold bind at 1. rewrite Hrows.
    unfold S1.to_csv. rewrite Hwrite. reflexivity. }
  destruct Hrun as [msg ->]. cbn.
  by rewrite lookup_insert_eq.
Qed.

Lemma export_s2_rows (s2_img : img) (n : Z) (features : list Feature) :
  S2.month_image w month = Some s2_img ->
  size_getInfo env s2_img fc = Ok n ->
  sample_getInfo env s2_img fc = Ok features ->
  Forall well_formed features ->
  write_fault env (S2.output_file output_dir month batch_idx) = None ->
  exists rows,
    (S2.export_sentinel_2_data env fc month batch_idx output_dir w).1 = Ok tt
    /\ files (S2.export_sentinel_2_data env fc month batch_idx output_dir w).2
         !! S2.output_file output_dir month batch_idx = Some rows
    /\ Forall2 (row_of s2_schema) features rows.
Proof.
  intros Himg Hsize Hsample Hwf Hwrite.
  destruct (map_prog_rows S2.row_of_feature (row_of s2_schema) features w) as (rows & Hrows & HF).
  { eapply Forall_impl; [exact Hwf | apply s2_row_of_feature]. }
  exists rows.
  assert (Hrun : exists msg,
             S2.export_sentinel_2_data env fc month batch_idx output_dir w
             = bind (write_file (S2.output_file output_dir month batch_idx) rows)
                    (fun _ => logger INFO msg) w).
  { eexists.
    unfold S2.export_sentinel_2_data, bind at 1, get_world. rewrite Himg.
    unfold try_except, bind at 1. unfold lift_result at 1. rewrite Hsize.
    unfold bind at 1. unfold lift_result at 1. rewrite Hsample.
    unfold bind at 1. rewrite Hrows.
    unfold S2.to_csv. rewrite Hwrite. reflexivity. }
  destruct Hrun as [msg ->]. cbn.
  by rewrite lookup_insert_eq.
Qed.

(** C9. When an exporter has sampled a batch, the file it writes holds one
    row per returned feature, in the order returned; the row's id is the
    feature's [id] property, its Longitude and Latitude are the first and
    the second coordinate of the feature's geometry, and every band or
    index column holds the feature's property of that name, or zero when
    the feature has no such property.  This is so for the radar and for
    the optical exporter. *)
Theorem C9_rows_carry_features_and_default_to_zero
    (s1_img s2_img : img) (n : Z) (features1 features2 : list Feature) :
  (S1.month_image w month = Some s1_img ->
   sample_getInfo env s1_img fc = Ok features1 ->
   Forall well_formed features1 ->
   write_fault env (S1.output_file output_dir month batch_idx) = None ->
   exists rows,
     (S1.export_sentinel_1_data env fc month batch_idx output_dir w).1 = Ok tt
     /\ files (S1.export_sentinel_1_data env fc month batch_idx output_dir w).2
          !! S1.output_file output_dir month batch_idx = Some rows
     /\ Forall2 (row_of s1_schema) features1 rows)
  /\ (S2.month_image w month = Some s2_img ->
      size_getInfo env s2_img fc = Ok n ->
      sample_getInfo env s2_img fc = Ok features2 ->
      Forall well_formed features2 ->
      write_fault env (S2.output_file output_dir month batch_idx) = None ->
      exists rows,
        (S2.export_sentinel_2_data env fc month batch_idx output_dir w).1 = Ok tt
        /\ files (S2.export_sentinel_2_data env fc month batch_idx output_dir w).2
             !! S2.output_file output_dir month batch_idx = Some rows
        /\ Forall2 (row_of s2_schema) features2 rows).
Proof. split; [apply export_s1_rows | apply export_s2_rows]. Qed.

End Exporters.

Lemma C9_rows_carry_features_and_default_to_zero_witness :
  (exists rows,
     (S1.export_sentinel_1_data demo_env one_point "July" 0 "Output"
        (built_world demo_env)).1 = Ok tt
     /\ files (S1.export_sentinel_1_data demo_env one_point "July" 0 "Output"
                 (built_world demo_env)).2
          !! S1.output_file "Output" "July" 0 = Some rows
     /\ Forall2 (row_of s1_schema) (sampled_feature <$> one_point) rows)
  /\ (exists rows,
        (S2.export_sentinel_2_data demo_env one_point "July" 0 "Output"
           (built_world demo_env)).1 = Ok tt
        /\ files (S2.export_sentinel_2_data demo_env one_point "July" 0 "Output"
                    (built_world demo_env)).2
             !! S2.output_file "Output" "July" 0 = Some rows
        /\ Forall2 (row_of s2_schema) (sampled_feature <$> one_point) rows).
Proof.
  assert (Hwf : Forall well_formed (sampled_feature <$> one_point)).
  { repeat constructor. by eexists. }
  destruct (C9_rows_carry_features_and_default_to_zero
              demo_env one_point "July" 0 "Output" (built_world demo_env)
              (S1.s1_month_image demo_env (fun _ => true) 2019 "07")
              (S2.s2_month_image demo_env (fun _ => true)
                 (S2.get_s2_sr_cld_col demo_env (fun _ => true)
                    (S2.start_date 2019 "07") (S2.end_date 2019 "07") S2.CLOUD_FILTER))
              1 (sampled_feature <$> one_point) (sampled_feature <$> one_point))
    as [H1 H2].
  split.
  - apply H1; [vm_compute; reflexivity | reflexivity | exact Hwf | reflexivity].
  - apply H2; [vm_compute; reflexivity | reflexivity | reflexivity | exact Hwf | reflexivity].
Defined.

Example s1_row_of_sampled_feature :
  S1.row_of_feature (sampled_feature {| pt_id := 7; pt_lon := 76.9%Q; pt_lat := 12.8%Q |})
  = Ok [("id", VInt 7); ("Longitude", VNum 76.9%Q); ("Latitude", VNum 12.8%Q);
        ("VV", VNum (-12)%Q); ("VH", VInt 0); ("VH_VV", VInt 0)].
Proof. reflexivity. Qed.

(** ** Failures of the builders *)

(** C4. A client call of the optical builder that fails for August only:
    the exception leaves [create_monthwise_s2_collection] and the script;
    July is the only optical composite built, the optical composites of
    September to December are never built, and no file, radar or optical,
    is written for any month. *)
Theorem C4_optical_build_failure_aborts_the_run :
  let r := Index.main (august_fault_env "get_s2_sr_cld_col") one_row initial_world in
  r.1 = Raise (EEException "Connection reset by peer")
  /\ s2_set r.2 = ["july_s2"]
  /\ length (s1_set r.2) = 6%nat
  /\ written r.2 = []
  /\ errors r.2
     = ["Error in get_s2_sr_cld_col: Connection reset by peer"].
Proof. vm_compute. repeat split. Qed.

(** The radar builder, on the same failure, goes on with the other months,
    and the run writes every file but the radar file of August. *)
Example radar_build_failure_is_isolated :
  let r := Index.main (august_fault_env "create_monthwise_s1_collection") one_row
             initial_world in
  r.1 = Ok tt
  /\ s1_globals r.2 !! "august_s1" = None
  /\ length (s1_set r.2) = 5%nat
  /\ length (s2_set r.2) = 6%nat
  /\ files r.2 !! S1.output_file "Output" "August" 0 = None
  /\ length (written r.2) = 11%nat.
Proof. vm_compute. repeat split. Qed.

(** ** Loading the region *)

(** C5, as stated, fails on the radar builder: without the region file it
    logs the error and returns normally, with no composite built. *)
Lemma C5_radar_builder_returns_without_region :
  S1.create_monthwise_s1_collection missing_region_env 2019 initial_world
  = (Ok tt,
     {| s1_globals := ∅; s2_globals := ∅;
        log := [(ERROR, "Failed to load GeoJSON: [Errno 2] No such file or directory: 'Tumkur.geojson'")];
        files := ∅ |}).
Proof. reflexivity. Qed.

(** C5, amended. When loading the region raises, the optical builder
    raises the same exception and changes nothing; the radar builder logs
    one error, builds no composite and returns normally; and the script,
    which calls the radar builder and then the optical builder on the same
    resource, ends with the load's exception before any batch is
    processed: no composite is built and no file is written. *)
Theorem C5_region_load_failure
    (env : Env) (year : Z) (rows : list (Q * Q)) (w : World) (e : exn) :
  load_geojson env = Raise e ->
  S2.create_monthwise_s2_collection env year w = (Raise e, w)
  /\ (let r := S1.create_monthwise_s1_collection env year w in
      r.1 = Ok tt /\ s1_globals r.2 = s1_globals w /\ files r.2 = files w
      /\ log r.2 = log w ++ [(ERROR, "Failed to load GeoJSON: " +:+ str_exn e)])
  /\ (let r := Index.main env rows w in
      r.1 = Raise e /\ s1_globals r.2 = s1_globals w /\ s2_globals r.2 = s2_globals w
      /\ files r.2 = files w).
Proof.
  intros H. repeat split.
  - unfold S2.create_monthwise_s2_collection, bind, lift_result. by rewrite H.
  - unfold S1.create_monthwise_s1_collection, bind, try_except, lift_result. by rewrite H.
  - unfold S1.create_monthwise_s1_collection, bind, try_except, lift_result. by rewrite H.
  - unfold S1.create_monthwise_s1_collection, bind, try_except, lift_result. by rewrite H.
  - unfold S1.create_monthwise_s1_collection, bind, try_except, lift_result. by rewrite H.
  - unfold Index.main, S1.create_monthwise_s1_collection,
      S2.create_monthwise_s2_collection, bind, try_except, lift_result. by rewrite H.
  - unfold Index.main, S1.create_monthwise_s1_collection,
      S2.create_monthwise_s2_collection, bind, try_except, lift_result. by rewrite H.
  - unfold Index.main, S1.create_monthwise_s1_collection,
      S2.create_monthwise_s2_collection, bind, try_except, lift_result. by rewrite H.
  - unfold Index.main, S1.create_monthwise_s1_collection,
      S2.create_monthwise_s2_collection, bind, try_except, lift_result. by rewrite H.
Qed.

Lemma C5_region_load_failure_witness :
  S2.create_monthwise_s2_collection missing_region_env 2019 initial_world
  = (Raise (FileNotFoundError "Tumkur.geojson"), initial_world)
  /\ (Index.main missing_region_env one_row initial_world).1
     = Raise (FileNotFoundError "Tumkur.geojson").
Proof.
  destruct (C5_region_load_failure missing_region_env 2019 one_row initial_world
              (FileNotFoundError "Tumkur.geojson") eq_refl) as (H2 & _ & Hm & _).
  split; [exact H2 | exact Hm].
Defined.

(** ** Failures inside the exporters *)


(** Building the rows leaves the world as it is. *)
Lemma map_prog_lift_world {A B} (g : A -> result B) (l : list A) (w : World) :
  (map_prog (fun x => lift_result (g x)) l w).2 = w.
Proof.
  induction l as [|x l IH]; [done|]. cbn [map_prog].
  unfold bind at 1. unfold lift_result at 1.
  destruct (g x) as [r|e]; [|done].
  unfold bind. destruct (map_prog _ l w) as [[rs|e] w'] eqn:E; cbn in IH |- *; by subst.
Qed.

Section ExportFailures.

Variables (env : Env) (fc : list Point) (month : string) (batch_idx : Z)
          (output_dir : string) (w : World).




End ExportFailures.


(** ** The radar ratio *)

Lemma select_VV_VH (i s : Image) :
  select_list ["VV"; "VH"] (Some i) = Some s ->
  exists vv vh : Band, s = [("VV", vv); ("VH", vh)].
Proof.
  cbn. destruct (lookup_band "VV" i) as [vv|]; [|discriminate].
  destruct (lookup_band "VH" i) as [vh|]; [|discriminate].
  cbn. intros [= <-]. by exists vv, vh.
Qed.

(** Every image of the filtered radar collection is a VV and a VH band. *)
Lemma s1_collection_bands (env : Env) (region : Geometry) (year : Z) (month : string)
    (scenes : list Image) :
  S1.s1_collection env region year month = Some scenes ->
  Forall (fun s : Image => exists vv vh : Band, s = [("VV", vv); ("VH", vh)]) scenes.
Proof.
  unfold S1.s1_collection, map_collection. intros H%mapM_Some_1.
  induction H as [|x s l k Hx _ IH]; constructor; [|exact IH].
  by apply select_VV_VH in Hx.
Qed.

(** The image stored for a month, band by band. *)
Lemma s1_month_image_bands (env : Env) (region : Geometry) (year : Z) (month : string)
    (scenes : list Image) :
  S1.s1_collection env region year month = Some scenes ->
  scenes <> [] ->
  let m := fun (n : string) (p : Pixel) =>
             if region p then median_of (omap (band_value n p) scenes) else None in
  S1.s1_median_image env region year month = Some [("VV", m "VV"); ("VH", m "VH")]
  /\ S1.s1_month_image env region year month
     = Some [("VV", m "VV"); ("VH", m "VH"); ("VH_VV", lift2 Qdiv (m "VH") (m "VV"))].
Proof.
  intros Hc Hne m.
  pose proof (s1_collection_bands _ _ _ _ _ Hc) as Hb.
  assert (Hmed : S1.s1_median_image env region year month
                 = Some [("VV", m "VV"); ("VH", m "VH")]).
  { unfold S1.s1_median_image. rewrite Hc.
    destruct scenes as [|first rest]; [done|].
    apply Forall_cons in Hb as [(vv & vh & ->) _]. reflexivity. }
  split; [exact Hmed|].
  unfold S1.s1_month_image. rewrite Hmed. reflexivity.
Qed.

(** C2. For every month whose filtered radar collection is not empty, the
    composite holds at every pixel of the region the median of the VV and
    of the VH values of the filtered scenes, and the band VH_VV of the
    stored image is VH divided by VV of that composite, pixel by pixel;
    where the composite holds VV = -12 and VH = -18, the ratio is 1.5. *)
Theorem C2_ratio_of_the_median_composite
    (env : Env) (region : Geometry) (year : Z) (month : string)
    (scenes : list Image) (p : Pixel) :
  S1.s1_collection env region year month = Some scenes ->
  scenes <> [] ->
  let med := S1.s1_median_image env region year month in
  let out := S1.s1_month_image env region year month in
  (forall n, n ∈ ["VV"; "VH"] ->
     value_at n p med
     = (if region p then median_of (omap (band_value n p) scenes) else None)
     /\ value_at n p out = value_at n p med)
  /\ value_at "VH_VV" p out
     = (vh ← value_at "VH" p med; vv ← value_at "VV" p med; Some (vh / vv)%Q)
  /\ (forall vv vh : Q,
        value_at "VV" p med = Some vv -> value_at "VH" p med = Some vh ->
        (vv == -12)%Q -> (vh == -18)%Q ->
        Spec.holds (value_at "VH_VV" p out) 1.5).
Proof.
  intros Hc Hne med out.
  destruct (s1_month_image_bands env region year month scenes Hc Hne) as [Hmed Hout].
  subst med out. rewrite Hmed, Hout.
  split; [|split].
  - intros n [-> | [-> | []%elem_of_nil]%elem_of_cons]%elem_of_cons; by split.
  - reflexivity.
  - intros vv vh Hvv Hvh Evv Evh. cbn in Hvv, Hvh |- *.
    unfold lift2. rewrite Hvv, Hvh. cbn. rewrite Evv, Evh. reflexivity.
Qed.

Lemma C2_ratio_of_the_median_composite_witness :
  value_at "VV" (0, 0)%Z (S1.s1_median_image radar_env everywhere 2019 "09") = Some (-12)%Q
  /\ value_at "VH" (0, 0)%Z (S1.s1_median_image radar_env everywhere 2019 "09") = Some (-18)%Q
  /\ Spec.holds (value_at "VH_VV" (0, 0)%Z (S1.s1_month_image radar_env everywhere 2019 "09")) 1.5.
Proof.
  destruct (C2_ratio_of_the_median_composite radar_env everywhere 2019 "09"
              september_scenes (0, 0)%Z eq_refl ltac:(discriminate))
    as (_ & _ & H).
  split; [reflexivity|]. split; [reflexivity|].
  apply (H (-12)%Q (-18)%Q); reflexivity.
Defined.

(** The ratio is not taken scene by scene: on the same three scenes the
    median of the scene ratios is 5/3, the ratio of the medians 3/2. *)
Example ratio_of_medians_not_median_of_ratios :
  Spec.holds (median_of (scene_ratios (0, 0)%Z september_scenes)) (5 # 3)
  /\ Spec.holds (value_at "VH_VV" (0, 0)%Z
                   (S1.s1_month_image radar_env everywhere 2019 "09")) (3 # 2).
Proof. split; vm_compute; reflexivity. Qed.

(** ** The cloud and shadow mask *)

(** C7, as stated, fails both ways.  A cloudy pixel that stands alone is
    removed by the erosion and stays in the reduction input; a clear pixel
    four pixels from the centre of a block of cloud is covered by the
    dilation and leaves it. *)
Lemma C7_flag_and_mask_differ :
  (value_at "clouds" (0, 0)%Z (with_flags isolated_cloud) = Some 1%Q
   /\ value_at "B4" (0, 0)%Z (masked_scene isolated_cloud) = Some 1000%Q)
  /\ (value_at "clouds" (4, 0)%Z (with_flags cloud_block) = Some 0%Q
      /\ value_at "shadows" (4, 0)%Z (with_flags cloud_block) = Some 0%Q
      /\ value_at "B4" (4, 0)%Z (masked_scene cloud_block) = None).
Proof. vm_compute. repeat split. Qed.

Lemma Qmin_Qbool (a b : bool) : Qmin (Qbool a) (Qbool b) = Qbool (a && b).
Proof. by destruct a, b. Qed.

Lemma Qmax_Qbool (a b : bool) : Qmax (Qbool a) (Qbool b) = Qbool (a || b).
Proof. by destruct a, b. Qed.

Lemma foldl_Qmin_Qbool (bs : list bool) :
  forall a, foldl Qmin (Qbool a) (Qbool <$> bs) = Qbool (a && forallb id bs).
Proof.
  induction bs as [|b bs IH]; intros a; cbn.
  - by rewrite andb_true_r.
  - by rewrite Qmin_Qbool, IH, andb_assoc.
Qed.

Lemma foldl_Qmax_Qbool (bs : list bool) :
  forall a, foldl Qmax (Qbool a) (Qbool <$> bs) = Qbool (a || existsb id bs).
Proof.
  induction bs as [|b bs IH]; intros a; cbn.
  - by rewrite orb_false_r.
  - by rewrite Qmax_Qbool, IH, orb_assoc.
Qed.

Lemma circle_2 : circle 2 <> [].
Proof. by vm_compute. Qed.

Lemma circle_buffer : circle (S2.BUFFER * 2 / 20) <> [].
Proof. by vm_compute. Qed.

(** A scene as it enters the reduction, band by band. *)
Lemma masked_scene_bands (b2 b3 b4 b5 b8 b11 b12 scl prob cl dark proj sh : Band) :
  let not_cld_shdw :=
    lift1 (fun v => Qbool (Qeqb v 0))
      (focal Qmax (S2.BUFFER * 2 / 20)
         (focal Qmin 2 (lift1 (fun v => Qbool (Qltb 0 v)) (lift2 Qplus cl sh)))) in
  S2.apply_cld_shdw_mask
    (S2.cld_shdw_mask_of
       (Some [("B2", b2); ("B3", b3); ("B4", b4); ("B5", b5); ("B8", b8);
              ("B11", b11); ("B12", b12); ("SCL", scl); ("probability", prob);
              ("clouds", cl); ("dark_pixels", dark); ("cloud_transform", proj);
              ("shadows", sh)]))
  = Some [("B2", mask_band not_cld_shdw b2); ("B3", mask_band not_cld_shdw b3);
          ("B4", mask_band not_cld_shdw b4); ("B5", mask_band not_cld_shdw b5);
          ("B8", mask_band not_cld_shdw b8); ("B11", mask_band not_cld_shdw b11);
          ("B12", mask_band not_cld_shdw b12)].
Proof. reflexivity. Qed.

Lemma omap_fmap_Some {A B} (f : A -> option B) (g : A -> B) (l : list A) :
  (forall x, x ∈ l -> f x = Some (g x)) -> omap f l = g <$> l.
Proof.
  induction l as [|x l IH]; intros H; [done|]. cbn.
  rewrite (H x) by by left. cbn. rewrite IH; [done|]. intros y Hy. apply H. by right.
Qed.

Lemma forallb_fmap {A} (g : A -> bool) (l : list A) :
  forallb id (g <$> l) = forallb g l.
Proof. induction l as [|x l IH]; [done|]. cbn. by rewrite IH. Qed.

Lemma existsb_fmap {A} (g : A -> bool) (l : list A) :
  existsb id (g <$> l) = existsb g l.
Proof. induction l as [|x l IH]; [done|]. cbn. by rewrite IH. Qed.

(** The focal minimum and maximum of a band of flags: the conjunction
    and the disjunction of the flags that are valid in the kernel. *)
Lemma focal_valid_flags (r : Q) (f : Pixel -> option bool) (F : Band) (p : Pixel) :
  (forall q, F q = Qbool <$> f q) ->
  focal Qmin r F p
  = Qbool <$> match valid_around r f p with [] => None | vs => Some (forallb id vs) end
  /\ focal Qmax r F p
     = Qbool <$> match valid_around r f p with [] => None | vs => Some (existsb id vs) end.
Proof.
  intros HF. unfold focal, reduce_valid, valid_around.
  assert (omap id ((fun o => F (shift p o)) <$> circle r)
          = Qbool <$> omap (fun o => f (shift p o)) (circle r)) as ->.
  { induction (circle r) as [|o os IH]; [done|]. cbn. rewrite HF.
    destruct (f (shift p o)); cbn; by rewrite IH. }
  destruct (omap _ (circle r)) as [|v vs]; [done|]. cbn [fmap list_fmap].
  rewrite foldl_Qmin_Qbool, foldl_Qmax_Qbool. done.
Qed.

(** The [cloudmask] band is the flag after morphology. *)
Lemma cloudmask_is_dilated (cl sh : Band) (p : Pixel) :
  focal Qmax (S2.BUFFER * 2 / 20)
    (focal Qmin 2 (lift1 (fun v => Qbool (Qltb 0 v)) (lift2 Qplus cl sh))) p
  = Qbool <$> dilated cl sh p.
Proof.
  assert (forall q, lift1 (fun v => Qbool (Qltb 0 v)) (lift2 Qplus cl sh) q
                    = Qbool <$> flag cl sh q) as Hflag.
  { intros q. unfold lift1, lift2, flag. by destruct (cl q), (sh q). }
  assert (forall q, focal Qmin 2 (lift1 (fun v => Qbool (Qltb 0 v)) (lift2 Qplus cl sh)) q
                    = Qbool <$> eroded cl sh q) as Hmin.
  { intros q. apply (focal_valid_flags 2 (flag cl sh) _ q Hflag). }
  apply (focal_valid_flags _ (eroded cl sh) _ p Hmin).
Qed.

Lemma reduce_nonempty {A} (h : list bool -> bool) (g : A -> bool) (l : list A) :
  l <> [] ->
  match g <$> l with [] => None | vs => Some (h vs) end = Some (h (g <$> l)).
Proof. by destruct l. Qed.

(** Where the flags are valid all around a pixel, the flag after
    morphology is the plain rule. *)
Lemma excluded_where_valid (cl sh : Band) (p : Pixel) :
  (forall o o', o ∈ circle (S2.BUFFER * 2 / 20) -> o' ∈ circle 2 ->
     is_Some (cl (shift (shift p o) o')) /\ is_Some (sh (shift (shift p o) o'))) ->
  excluded cl sh p = flagged_after_morphology cl sh p.
Proof.
  intros Hv. unfold excluded, dilated, valid_around.
  rewrite (omap_fmap_Some _
             (fun o => forallb (fun o' => flagged cl sh (shift (shift p o) o')) (circle 2))).
  - rewrite (reduce_nonempty (existsb id)) by apply circle_buffer.
    rewrite existsb_fmap. unfold flagged_after_morphology. by destruct (existsb _ _).
  - intros o Ho. unfold eroded, valid_around.
    rewrite (omap_fmap_Some _ (fun o' => flagged cl sh (shift (shift p o) o'))).
    + rewrite (reduce_nonempty (forallb id)) by apply circle_2. by rewrite forallb_fmap.
    + intros o' Ho'. unfold flag, flagged.
      destruct (Hv o o' Ho Ho') as [[c ->] [s ->]]. done.
Qed.

(** C7, amended.  A pixel of a scene leaves the reduction input exactly
    where the union of the cloud and the shadow flag, after erosion and
    dilation, is set or is masked; elsewhere it enters the reduction with
    the value the scene has there.  Erosion and dilation run over the
    valid pixels of their kernels, of radius 2 and BUFFER * 2 / 20 = 4
    pixels, and are masked where a kernel holds no valid pixel.  Where
    both flags are valid all around the pixel, this is the plain rule:
    the pixel leaves exactly when some pixel within the dilation radius
    has every pixel within the erosion radius flagged cloud or shadow. *)
Theorem C7_mask_is_the_flag_after_morphology
    (env : Env) (j : S2.Joined) (ics : Image) (cl sh : Band)
    (p : Pixel) (n : string) (v : Q) :
  S2.add_shadow_bands env j (S2.add_cloud_bands j (S2.primary_image j)) = Some ics ->
  bandNames ics = stage2_names ->
  lookup_band "clouds" ics = Some cl ->
  lookup_band "shadows" ics = Some sh ->
  n ∈ S2.s2_bands ->
  band_value n p ics = Some v ->
  value_at n p (S2.apply_cld_shdw_mask (S2.add_cld_shdw_mask env j))
  = (if excluded cl sh p then None else Some v)
  /\ ((forall o o', o ∈ circle (S2.BUFFER * 2 / 20) -> o' ∈ circle 2 ->
         is_Some (cl (shift (shift p o) o')) /\ is_Some (sh (shift (shift p o) o'))) ->
      excluded cl sh p = flagged_after_morphology cl sh p).
Proof.
  intros Hics Hn Hcl Hsh Hin Hval. split; [|apply excluded_where_valid].
  unfold S2.add_cld_shdw_mask. rewrite Hics.
  unfold bandNames, stage2_names in Hn.
  do 13 (destruct ics as [|[? ?] ics]; [discriminate Hn|]).
  destruct ics; [|discriminate Hn].
  cbn in Hn. simplify_eq. cbn in Hcl, Hsh. simplify_eq.
  pose proof (cloudmask_is_dilated cl sh p) as Hm.
  rewrite masked_scene_bands. cbv zeta.
  unfold S2.s2_bands in Hin. unfold excluded.
  repeat (apply elem_of_cons in Hin as [-> | Hin]);
    [ .. | by apply elem_of_nil in Hin ];
    cbn in Hval |- *; unfold mask_band, lift1 at 1; rewrite Hval, Hm;
    by destruct (dilated cl sh p) as [[]|].
Qed.

Lemma C7_mask_is_the_flag_after_morphology_witness :
  value_at "B4" (4, 0)%Z (masked_scene cloud_block) = None
  /\ value_at "B4" (5, 0)%Z (masked_scene cloud_block) = Some 1000%Q
  /\ value_at "B4" (8, 0)%Z (masked_scene cloud_tile) = None
  /\ flagged_after_morphology
       (default (fun _ => None) (lookup_band "clouds" (default [] (with_flags cloud_tile))))
       (default (fun _ => None) (lookup_band "shadows" (default [] (with_flags cloud_tile))))
       (8, 0)%Z = false.
Proof.
  split; [|split; [|split]].
  - exact (proj1 (C7_mask_is_the_flag_after_morphology demo_env (joined cloud_block)
             block_bands block_clouds block_shadows (4, 0)%Z "B4" 1000%Q
             eq_refl eq_refl eq_refl eq_refl
             ltac:(by apply (bool_decide_unpack _)) eq_refl)).
  - exact (proj1 (C7_mask_is_the_flag_after_morphology demo_env (joined cloud_block)
             block_bands block_clouds block_shadows (5, 0)%Z "B4" 1000%Q
             eq_refl eq_refl eq_refl eq_refl
             ltac:(by apply (bool_decide_unpack _)) eq_refl)).
  - exact (proj1 (C7_mask_is_the_flag_after_morphology demo_env (joined cloud_tile)
             (default [] (with_flags cloud_tile))
             (default (fun _ => None) (lookup_band "clouds" (default [] (with_flags cloud_tile))))
             (default (fun _ => None) (lookup_band "shadows" (default [] (with_flags cloud_tile))))
             (8, 0)%Z "B4" 1000%Q
             eq_refl eq_refl eq_refl eq_refl
             ltac:(by apply (bool_decide_unpack _)) eq_refl)).
  - vm_compute. reflexivity.
Defined.

(** * Further properties of the code *)

(** ** The month loops of the two builders *)

Lemma s1_month_run (env : Env) (region : Geometry) (year : Z) (im : nat * string)
    (w w' : World) (res : result unit) :
  S1.s1_month env region year im w = (res, w') ->
  res = Ok tt
  /\ s1_globals w' = s1_step env region year (s1_globals w) im
  /\ s2_globals w' = s2_globals w /\ files w' = files w.
Proof.
  unfold S1.s1_month, s1_step, try_except, bind, fault, lift_result.
  destruct (client_fault env _ im.2); [by intros [= <- <-]|].
  destruct (S1.month_vars !! im.1); by intros [= <- <-].
Qed.

Lemma s1_loop_run (env : Env) (region : Geometry) (year : Z) (ims : list (nat * string)) :
  forall (w w' : World) (res : result unit),
    for_each ims (S1.s1_month env region year) w = (res, w') ->
    res = Ok tt
    /\ s1_globals w' = foldl (s1_step env region year) (s1_globals w) ims
    /\ s2_globals w' = s2_globals w /\ files w' = files w.
Proof.
  induction ims as [|im ims IH]; intros w w' res; [by intros [= <- <-]|].
  cbn [for_each foldl]. unfold bind at 1.
  destruct (S1.s1_month env region year im w) as [r1 w1] eqn:E1.
  apply s1_month_run in E1 as (-> & Hg & H2 & Hf).
  intros (-> & Hg' & H2' & Hf')%IH. by rewrite Hg', H2', Hf', Hg, H2, Hf.
Qed.

Lemma s1_step_other (env : Env) (region : Geometry) (year : Z)
    (g : gmap string img) (im : nat * string) (var : string) :
  S1.month_vars !! im.1 <> Some var ->
  s1_step env region year g im !! var = g !! var.
Proof.
  intros H. unfold s1_step. destruct (client_fault env _ _); [done|].
  destruct (S1.month_vars !! im.1) as [v|]; [|done].
  apply lookup_insert_ne. congruence.
Qed.

Lemma s1_step_same (env : Env) (region : Geometry) (year : Z)
    (g : gmap string img) (im : nat * string) (var : string) :
  S1.month_vars !! im.1 = Some var ->
  s1_step env region year g im !! var
  = match client_fault env "create_monthwise_s1_collection" im.2 with
    | None => Some (S1.s1_month_image env region year im.2)
    | Some _ => g !! var
    end.
Proof.
  intros H. unfold s1_step. rewrite H. destruct (client_fault env _ _); [done|].
  apply lookup_insert_eq.
Qed.

Lemma s1_builder_loaded (env : Env) (year : Z) (w : World) (region : Geometry) :
  load_geojson env = Ok region ->
  S1.create_monthwise_s1_collection env year w
  = for_each (imap pair S1.months) (S1.s1_month env region year)
      (logger INFO "Loaded Tumkur region geometry" w).2.
Proof.
  intros H. unfold S1.create_monthwise_s1_collection, bind at 1, try_except, bind at 1,
    lift_result.
  by rewrite H.
Qed.

(** The radar builder returns normally whatever happens, and touches
    neither the optical globals nor the files. *)
Lemma s1_builder_returns (env : Env) (year : Z) (w w' : World) (res : result unit) :
  S1.create_monthwise_s1_collection env year w = (res, w') ->
  res = Ok tt /\ s2_globals w' = s2_globals w /\ files w' = files w.
Proof.
  destruct (load_geojson env) as [region|e] eqn:Hload.
  - rewrite (s1_builder_loaded env year w region Hload).
    intros (-> & _ & H2 & Hf)%s1_loop_run. by rewrite H2, Hf.
  - unfold S1.create_monthwise_s1_collection, bind at 1, try_except, bind at 1,
      lift_result.
    rewrite Hload. by intros [= <- <-].
Qed.

(** The radar globals after the builder, month by month. *)
Lemma s1_builder_globals (env : Env) (year : Z) (w w' : World) (region : Geometry)
    (res : result unit) :
  load_geojson env = Ok region ->
  S1.create_monthwise_s1_collection env year w = (res, w') ->
  forall (i : nat) (month var : string),
    S1.months !! i = Some month -> S1.month_vars !! i = Some var ->
    s1_globals w' !! var
    = match client_fault env "create_monthwise_s1_collection" month with
      | None => Some (S1.s1_month_image env region year month)
      | Some _ => s1_globals w !! var
      end.
Proof.
  intros Hload E. rewrite (s1_builder_loaded env year w region Hload) in E.
  apply s1_loop_run in E as (_ & Hg & _). rewrite Hg. clear Hg.
  intros i month var Hm Hv.
  change (imap pair S1.months)
    with [(0%nat, "07"); (1%nat, "08"); (2%nat, "09"); (3%nat, "10"); (4%nat, "11");
          (5%nat, "12")].
  change (s1_globals (logger INFO "Loaded Tumkur region geometry" w).2) with (s1_globals w).
  do 6 (destruct i as [|i];
        [injection Hm as <-; injection Hv as <-; cbn [foldl];
         rewrite ?s1_step_other by (cbn; congruence);
         rewrite s1_step_same by reflexivity; cbn [snd];
         destruct (client_fault env _ _); [|done];
         by rewrite ?s1_step_other by (cbn; congruence)|]).
  discriminate Hm.
Qed.

(** X1. With the region loaded, the radar builder always returns
    normally and touches neither the optical globals nor the files; for
    each of the six months, the month's global holds the month's image
    when the month's client calls succeed, and keeps the value it had
    when they fail, whatever happens to the other months. *)
Theorem X1_radar_builder_isolates_months
    (env : Env) (year : Z) (w : World) (region : Geometry) :
  load_geojson env = Ok region ->
  let r := S1.create_monthwise_s1_collection env year w in
  r.1 = Ok tt /\ s2_globals r.2 = s2_globals w /\ files r.2 = files w
  /\ forall (i : nat) (month var : string),
       S1.months !! i = Some month -> S1.month_vars !! i = Some var ->
       s1_globals r.2 !! var
       = match client_fault env "create_monthwise_s1_collection" month with
         | None => Some (S1.s1_month_image env region year month)
         | Some _ => s1_globals w !! var
         end.
Proof.
  intros Hload r. subst r.
  destruct (S1.create_monthwise_s1_collection env year w) as [res w'] eqn:E.
  destruct (s1_builder_returns _ _ _ _ _ E) as (-> & H2 & Hf).
  cbn [fst snd]. do 3 (split; [done|]).
  by eapply s1_builder_globals.
Qed.

Lemma X1_radar_builder_isolates_months_witness :
  let r := S1.create_monthwise_s1_collection
             (august_fault_env "create_monthwise_s1_collection") 2019 initial_world in
  r.1 = Ok tt
  /\ s1_globals r.2 !! "august_s1" = None
  /\ s1_globals r.2 !! "september_s1"
     = Some (S1.s1_month_image (august_fault_env "create_monthwise_s1_collection")
               (fun _ => true) 2019 "09").
Proof.
  destruct (X1_radar_builder_isolates_months
              (august_fault_env "create_monthwise_s1_collection") 2019 initial_world
              (fun _ => true) eq_refl) as (H1 & _ & _ & H).
  split; [exact H1|]. split.
  - exact (H 1%nat "08" "august_s1" eq_refl eq_refl).
  - exact (H 2%nat "09" "september_s1" eq_refl eq_refl).
Defined.

Lemma s2_month_run (env : Env) (region : Geometry) (year : Z) (im : nat * string)
    (w w' : World) (res : result unit) :
  S2.s2_month env region year im w = (res, w') ->
  res = outcome (s2_built env region year (s2_globals w) [im]).1
  /\ s2_globals w' = (s2_built env region year (s2_globals w) [im]).2
  /\ s1_globals w' = s1_globals w /\ files w' = files w.
Proof.
  unfold S2.s2_month, S2.helper, log_and_reraise, try_except, bind, fault, lift_result.
  cbn [s2_built]. unfold s2_month_fault, s2_stages. cbn [omap list_omap].
  destruct (client_fault env "get_s2_sr_cld_col" im.2); [by intros [= <- <-]|].
  destruct (client_fault env "add_cloud_bands" im.2); [by intros [= <- <-]|].
  destruct (client_fault env "add_shadow_bands" im.2); [by intros [= <- <-]|].
  destruct (client_fault env "add_cld_shdw_mask" im.2); [by intros [= <- <-]|].
  destruct (client_fault env "apply_cld_shdw_mask" im.2); [by intros [= <- <-]|].
  destruct (client_fault env "create_monthwise_s2_collection" im.2); [by intros [= <- <-]|].
  cbn [head]. destruct (S2.month_vars !! im.1); by intros [= <- <-].
Qed.

Lemma s2_loop_run (env : Env) (region : Geometry) (year : Z) (ims : list (nat * string)) :
  forall (w w' : World) (res : result unit),
    for_each ims (S2.s2_month env region year) w = (res, w') ->
    res = outcome (s2_built env region year (s2_globals w) ims).1
    /\ s2_globals w' = (s2_built env region year (s2_globals w) ims).2
    /\ s1_globals w' = s1_globals w /\ files w' = files w.
Proof.
  induction ims as [|im ims IH]; intros w w' res; [by intros [= <- <-]|].
  cbn [for_each]. unfold bind at 1.
  destruct (S2.s2_month env region year im w) as [r1 w1] eqn:E1.
  apply s2_month_run in E1 as (-> & Hg & H1 & Hf). cbn [s2_built] in *.
  destruct (s2_month_fault env im.2) as [e|]; [by intros [= <- <-]|].
  destruct (S2.month_vars !! im.1) as [var|]; [|by intros [= <- <-]].
  cbn [fst snd outcome] in *.
  intros (-> & Hg' & H1' & Hf')%IH. by rewrite Hg', H1', Hf', Hg, H1, Hf.
Qed.

Lemma s2_builder_loaded (env : Env) (year : Z) (w : World) (region : Geometry) :
  load_geojson env = Ok region ->
  S2.create_monthwise_s2_collection env year w
  = for_each (imap pair S2.months) (S2.s2_month env region year) w.
Proof.
  intros H. unfold S2.create_monthwise_s2_collection, bind, lift_result. by rewrite H.
Qed.

(** The optical builder touches neither the radar globals nor the files. *)
Lemma s2_builder_frame (env : Env) (year : Z) (w w' : World) (res : result unit) :
  S2.create_monthwise_s2_collection env year w = (res, w') ->
  s1_globals w' = s1_globals w /\ files w' = files w.
Proof.
  destruct (load_geojson env) as [region|e] eqn:Hload.
  - rewrite (s2_builder_loaded env year w region Hload).
    by intros (_ & _ & H1 & Hf)%s2_loop_run.
  - unfold S2.create_monthwise_s2_collection, bind, lift_result.
    rewrite Hload. by intros [= <- <-].
Qed.

(** The optical globals after a builder no client call of which fails. *)
Lemma s2_builder_globals (env : Env) (year : Z) (w w' : World) (region : Geometry)
    (res : result unit) :
  load_geojson env = Ok region ->
  (forall month, month ∈ S2.months -> s2_month_fault env month = None) ->
  S2.create_monthwise_s2_collection env year w = (res, w') ->
  res = Ok tt
  /\ forall (i : nat) (month var : string),
       S2.months !! i = Some month -> S2.month_vars !! i = Some var ->
       s2_globals w' !! var = Some (s2_stored env region year month).
Proof.
  intros Hload Hok E. rewrite (s2_builder_loaded env year w region Hload) in E.
  apply s2_loop_run in E as (-> & -> & _).
  change (imap pair S2.months)
    with [(0%nat, "07"); (1%nat, "08"); (2%nat, "09"); (3%nat, "10"); (4%nat, "11");
          (5%nat, "12")].
  cbn [s2_built fst snd].
  rewrite !Hok by (by apply (bool_decide_unpack _)).
  split; [done|]. intros i month var Hm Hv.
  do 6 (destruct i as [|i];
        [injection Hm as <-; injection Hv as <-; by simplify_map_eq|]).
  discriminate Hm.
Qed.

(** X2. With the region loaded, the optical builder touches neither the
    radar globals nor the files.  When no client call fails it returns
    normally with the six globals holding the six month images.  When the
    first month with a failing client call is the k-th, the builder raises
    that month's exception: the months before it hold their images, and
    that month and every later one keep the value they had. *)
Theorem X2_optical_builder_stops_at_first_failure
    (env : Env) (year : Z) (w : World) (region : Geometry) :
  load_geojson env = Ok region ->
  let r := S2.create_monthwise_s2_collection env year w in
  s1_globals r.2 = s1_globals w /\ files r.2 = files w
  /\ ((forall month, month ∈ S2.months -> s2_month_fault env month = None) ->
      r.1 = Ok tt
      /\ forall (i : nat) (month var : string),
           S2.months !! i = Some month -> S2.month_vars !! i = Some var ->
           s2_globals r.2 !! var = Some (s2_stored env region year month))
  /\ (forall (k : nat) (month : string) (e : exn),
        S2.months !! k = Some month ->
        s2_month_fault env month = Some e ->
        (forall (j : nat) (m : string),
           (j < k)%nat -> S2.months !! j = Some m -> s2_month_fault env m = None) ->
        r.1 = Raise e
        /\ forall (i : nat) (m var : string),
             S2.months !! i = Some m -> S2.month_vars !! i = Some var ->
             s2_globals r.2 !! var
             = if decide (i < k)%nat then Some (s2_stored env region year m)
               else s2_globals w !! var).
Proof.
  intros Hload r. subst r.
  destruct (S2.create_monthwise_s2_collection env year w) as [res w'] eqn:E.
  destruct (s2_builder_frame _ _ _ _ _ E) as (H1 & Hf).
  cbn [fst snd]. do 2 (split; [done|]).
  rewrite (s2_builder_loaded env year w region Hload) in E.
  apply s2_loop_run in E as (-> & -> & _).
  change (imap pair S2.months)
    with [(0%nat, "07"); (1%nat, "08"); (2%nat, "09"); (3%nat, "10"); (4%nat, "11");
          (5%nat, "12")].
  split.
  - intros Hok. cbn [s2_built fst snd].
    rewrite !Hok by (by apply (bool_decide_unpack _)).
    split; [done|]. intros i month var Hm Hv.
    do 6 (destruct i as [|i];
          [injection Hm as <-; injection Hv as <-; by simplify_map_eq|]).
    discriminate Hm.
  - intros k month e Hk He Hbefore.
    do 6 (destruct k as [|k];
          [injection Hk as <-; cbn [s2_built fst snd];
           rewrite ?(Hbefore 0%nat "07") by (lia || done);
           rewrite ?(Hbefore 1%nat "08") by (lia || done);
           rewrite ?(Hbefore 2%nat "09") by (lia || done);
           rewrite ?(Hbefore 3%nat "10") by (lia || done);
           rewrite ?(Hbefore 4%nat "11") by (lia || done);
           rewrite He; split; [done|];
           intros i m var Hm Hv;
           do 6 (destruct i as [|i];
                 [injection Hm as <-; injection Hv as <-; by simplify_map_eq|]);
           discriminate Hm|]).
    discriminate Hk.
Qed.

Lemma X2_optical_builder_stops_at_first_failure_witness :
  (let r := S2.create_monthwise_s2_collection demo_env 2019 initial_world in
   r.1 = Ok tt
   /\ s2_globals r.2 !! "december_s2" = Some (s2_stored demo_env (fun _ => true) 2019 "12"))
  /\ (let r := S2.create_monthwise_s2_collection (august_fault_env "add_cloud_bands") 2019
                 initial_world in
      r.1 = Raise (EEException "Connection reset by peer")
      /\ s2_globals r.2 !! "july_s2"
         = Some (s2_stored (august_fault_env "add_cloud_bands") (fun _ => true) 2019 "07")
      /\ s2_globals r.2 !! "september_s2" = None).
Proof.
  split.
  - destruct (X2_optical_builder_stops_at_first_failure demo_env 2019 initial_world
                (fun _ => true) eq_refl) as (_ & _ & Hok & _).
    destruct (Hok (fun month _ => eq_refl)) as [H1 H].
    split; [exact H1|]. exact (H 5%nat "12" "december_s2" eq_refl eq_refl).
  - destruct (X2_optical_builder_stops_at_first_failure
                (august_fault_env "add_cloud_bands") 2019 initial_world
                (fun _ => true) eq_refl) as (_ & _ & _ & Hfail).
    assert (Hbefore : forall (j : nat) (m : string),
               (j < 1)%nat -> S2.months !! j = Some m ->
               s2_month_fault (august_fault_env "add_cloud_bands") m = None).
    { intros [|j] m Hj Hm; [injection Hm as <-; reflexivity | lia]. }
    destruct (Hfail 1%nat "08" (EEException "Connection reset by peer")
                eq_refl eq_refl Hbefore) as [H1 H].
    split; [exact H1|]. split.
    + exact (H 0%nat "07" "july_s2" eq_refl eq_refl).
    + exact (H 2%nat "09" "september_s2" eq_refl eq_refl).
Defined.

(** ** The exporters, case by case *)

Section ExporterCases.

Variables (env : Env) (fc : list Point) (month : string) (batch_idx : Z)
          (output_dir : string) (w : World).

(** Every way [export_sentinel_1_data] can end: after having written
    nothing, or some rows to the unit's file, it returns with one record
    logged, or it raises an exception that is no [ee.EEException]. *)
Lemma s1_export_cases (res : result unit) (w' : World) :
  S1.export_sentinel_1_data env fc month batch_idx output_dir w = (res, w') ->
  exists w0,
    (w0 = w \/ exists rows, w0 = (write_file (S1.output_file output_dir month batch_idx)
                                    rows w).2)
    /\ ((res = Ok tt /\ exists l text, w' = (logger l text w0).2)
        \/ (exists e, res = Raise e /\ w' = w0 /\ is_EEException e = false)).
Proof.
  unfold S1.export_sentinel_1_data, bind at 1, get_world.
  destruct (S1.month_image w month) as [s1_img|];
    [|intros [= <- <-]; exists w; split; [by left|]; left; split; [done | by do 2 eexists]].
  unfold try_except.
  unfold bind at 1. unfold lift_result at 1.
  destruct (sample_getInfo env s1_img fc) as [features|e1].
  - unfold bind at 1.
    pose proof (map_prog_lift_world S1.row_of_feature features w) as Hw.
    destruct (map_prog _ features w) as [[rows|e2] w0] eqn:E; cbn in Hw; subst w0.
    + unfold S1.to_csv. destruct (write_fault env _) as [e3|].
      * destruct (write_progress env _) as [n|]; cbn;
          destruct (is_EEException e3) eqn:E3; intros [= <- <-];
          first
            [ exists w; split; [by left|];
              solve [ left; split; [done | by do 2 eexists] | right; by exists e3 ]
            | eexists; split; [right; by eexists|];
              solve [ left; split; [done | by do 2 eexists] | right; by exists e3 ] ].
      * intros [= <- <-]. eexists. split; [right; by eexists|].
        left. split; [done | by do 2 eexists].
    + destruct (is_EEException e2) eqn:E2; intros [= <- <-]; exists w;
        (split; [by left|]);
        first [ left; split; [done | by do 2 eexists] | right; by exists e2 ].
  - destruct (is_EEException e1) eqn:E1; intros [= <- <-]; exists w;
      (split; [by left|]);
      first [ left; split; [done | by do 2 eexists] | right; by exists e1 ].
Qed.

(** Every way [export_sentinel_2_data] can end. *)
Lemma s2_export_cases (res : result unit) (w' : World) :
  S2.export_sentinel_2_data env fc month batch_idx output_dir w = (res, w') ->
  exists w0,
    (w0 = w \/ exists rows, w0 = (write_file (S2.output_file output_dir month batch_idx)
                                    rows w).2)
    /\ ((res = Ok tt /\ exists l text, w' = (logger l text w0).2)
        \/ (exists e, res = Raise e /\ w' = w0 /\ is_EEException e = false)).
Proof.
  unfold S2.export_sentinel_2_data, bind at 1, get_world.
  destruct (S2.month_image w month) as [s2_img|];
    [|intros [= <- <-]; exists w; split; [by left|]; left; split; [done | by do 2 eexists]].
  unfold try_except.
  unfold bind at 1. unfold lift_result at 1.
  destruct (size_getInfo env s2_img fc) as [n0|e0].
  - unfold bind at 1. unfold lift_result at 1.
    destruct (sample_getInfo env s2_img fc) as [features|e1].
    + unfold bind at 1.
      pose proof (map_prog_lift_world S2.row_of_feature features w) as Hw.
      destruct (map_prog _ features w) as [[rows|e2] w0] eqn:E; cbn in Hw; subst w0.
      * unfold S2.to_csv. destruct (write_fault env _) as [e3|].
        -- destruct (write_progress env _) as [n|]; cbn;
             destruct (is_EEException e3) eqn:E3; intros [= <- <-];
             first
               [ exists w; split; [by left|];
                 solve [ left; split; [done | by do 2 eexists] | right; by exists e3 ]
               | eexists; split; [right; by eexists|];
                 solve [ left; split; [done | by do 2 eexists] | right; by exists e3 ] ].
        -- intros [= <- <-]. eexists. split; [right; by eexists|].
           left. split; [done | by do 2 eexists].
      * destruct (is_EEException e2) eqn:E2; intros [= <- <-]; exists w;
          (split; [by left|]);
          first [ left; split; [done | by do 2 eexists] | right; by exists e2 ].
    + destruct (is_EEException e1) eqn:E1; intros [= <- <-]; exists w;
        (split; [by left|]);
        first [ left; split; [done | by do 2 eexists] | right; by exists e1 ].
  - destruct (is_EEException e0) eqn:E0; intros [= <- <-]; exists w;
      (split; [by left|]);
      first [ left; split; [done | by do 2 eexists] | right; by exists e0 ].
Qed.

Lemma writes_only_cases (path : string) (res : result unit) (w' : World) :
  (exists w0,
     (w0 = w \/ exists rows, w0 = (write_file path rows w).2)
     /\ ((res = Ok tt /\ exists l text, w' = (logger l text w0).2)
         \/ (exists e, res = Raise e /\ w' = w0 /\ is_EEException e = false))) ->
  writes_only path w w'.
Proof.
  intros (w0 & Hw0 & Hw').
  assert (writes_only path w w0) as H0.
  { destruct Hw0 as [-> | [rows ->]]; unfold writes_only; cbn; repeat split; try done.
    intros p Hp. by rewrite lookup_insert_ne. }
  destruct Hw' as [[_ (l & text & ->)] | (e & _ & -> & _)]; [|done].
  destruct H0 as (A & B & C & D). unfold writes_only. cbn. repeat split; try done.
  etrans; [exact D | by apply prefix_app_r].
Qed.

End ExporterCases.

(** ** What an export step touches *)

Lemma touches_refl (paths : string -> Prop) (w : World) : touches paths w w.
Proof. by unfold touches. Qed.

Lemma touches_trans (paths : string -> Prop) (w1 w2 w3 : World) :
  touches paths w1 w2 -> touches paths w2 w3 -> touches paths w1 w3.
Proof.
  intros (Ha & Hb & Hc) (Ha' & Hb' & Hc'). unfold touches.
  rewrite Ha', Hb'. repeat split; try done.
  intros p Hp. by rewrite Hc', Hc.
Qed.

Lemma writes_only_touches (paths : string -> Prop) (path : string) (w w' : World) :
  paths path -> writes_only path w w' -> touches paths w w'.
Proof.
  intros Hin (Ha & Hb & Hc & _). repeat split; try done.
  intros p Hp. apply Hc. by intros ->.
Qed.

Lemma touches_logger (paths : string -> Prop) (l : level) (text : string) (w : World) :
  touches paths w (logger l text w).2.
Proof. by unfold touches. Qed.

(** Relations kept by every step are kept by sequences and loops. *)
Lemma bind_rel {A B} (R : World -> World -> Prop) (m : Prog A) (k : A -> Prog B)
    (w w' : World) (res : result B) :
  (forall a b c, R a b -> R b c -> R a c) ->
  (forall r w1, m w = (r, w1) -> R w w1) ->
  (forall a w1 r, k a w1 = (r, w') -> R w1 w') ->
  bind m k w = (res, w') -> R w w'.
Proof.
  intros Htrans Hm Hk. unfold bind.
  destruct (m w) as [[a|e] w1] eqn:E.
  - intros H. eapply Htrans; [by eapply Hm | by eapply Hk].
  - intros [= <- <-]. by eapply Hm.
Qed.

Lemma for_each_rel {A} (R : World -> World -> Prop) (body : A -> Prog unit) (l : list A) :
  (forall a, R a a) ->
  (forall a b c, R a b -> R b c -> R a c) ->
  (forall x w r w1, x ∈ l -> body x w = (r, w1) -> R w w1) ->
  forall w w' res, for_each l body w = (res, w') -> R w w'.
Proof.
  intros Hrefl Htrans. induction l as [|x l IH]; intros Hbody w w' res; cbn [for_each].
  - by intros [= <- <-].
  - apply bind_rel; [done | |].
    + intros r w1. apply Hbody. by left.
    + intros _ w1 r. apply IH. intros y w2 r2 w3 Hy. apply Hbody. by right.
Qed.

Lemma process_batch_touches (env : Env) (nb batch_idx : Z) (batch_df : Index.DataFrame)
    (output_dir : string) (months : list string) (w w' : World) (res : result unit) :
  Index.process_batch env nb batch_idx batch_df months output_dir w = (res, w') ->
  touches (batch_paths output_dir months batch_idx) w w'.
Proof.
  set (R := touches (batch_paths output_dir months batch_idx)).
  assert (Htrans : forall a b c, R a b -> R b c -> R a c) by apply touches_trans.
  assert (Hlog : forall l text w0 r w1, logger l text w0 = (r, w1) -> R w0 w1).
  { intros l text w0 r w1 [= <- <-]. apply touches_logger. }
  unfold Index.process_batch.
  apply bind_rel; [done | apply Hlog |]. intros _ w0 r0.
  apply for_each_rel; [apply touches_refl | done |].
  intros m w1 r1 w2 Hm.
  apply bind_rel; [done | apply Hlog |]. intros _ w3 r3.
  apply bind_rel; [done | |].
  { intros r w4 E. apply (writes_only_touches _ (S1.output_file output_dir m batch_idx)).
    - exists m. split; [done | by left].
    - eapply writes_only_cases, s1_export_cases, E. }
  intros _ w4 r4.
  apply bind_rel; [done | apply Hlog |]. intros _ w5 r5 E.
  apply (writes_only_touches _ (S2.output_file output_dir m batch_idx)).
  - exists m. split; [done | by right].
  - eapply writes_only_cases, s2_export_cases, E.
Qed.

(** X6. The composites are read-only during extraction.  An exporter
    changes no global and no file other than the output file of its unit,
    and only appends to the log; a batch task changes no global and no
    file other than the files of its own batch index. *)
Theorem X6_export_units_touch_only_their_files
    (env : Env) (fc : list Point) (month : string) (batch_idx nb : Z)
    (batch_df : Index.DataFrame) (months : list string) (output_dir : string)
    (w : World) :
  writes_only (S1.output_file output_dir month batch_idx) w
    (S1.export_sentinel_1_data env fc month batch_idx output_dir w).2
  /\ writes_only (S2.output_file output_dir month batch_idx) w
       (S2.export_sentinel_2_data env fc month batch_idx output_dir w).2
  /\ touches (batch_paths output_dir months batch_idx) w
       (Index.process_batch env nb batch_idx batch_df months output_dir w).2.
Proof.
  split; [|split].
  - destruct (S1.export_sentinel_1_data env fc month batch_idx output_dir w)
      as [r w'] eqn:E.
    eapply writes_only_cases, s1_export_cases, E.
  - destruct (S2.export_sentinel_2_data env fc month batch_idx output_dir w)
      as [r w'] eqn:E.
    eapply writes_only_cases, s2_export_cases, E.
  - destruct (Index.process_batch env nb batch_idx batch_df months output_dir w)
      as [r w'] eqn:E.
    eapply process_batch_touches, E.
Qed.

(** ** Features the row builders cannot read *)

Lemma s1_row_raises (f : Feature) (e : exn) :
  S1.row_of_feature f = Raise e -> is_access_error e = true.
Proof.
  unfold S1.row_of_feature. destruct (properties f !! "id"); [|by intros [= <-]].
  destruct (coordinates f !! 0%nat); [|by intros [= <-]].
  destruct (coordinates f !! 1%nat); [discriminate | by intros [= <-]].
Qed.

Lemma s2_row_raises (f : Feature) (e : exn) :
  S2.row_of_feature f = Raise e -> is_access_error e = true.
Proof.
  unfold S2.row_of_feature. destruct (properties f !! "id"); [|by intros [= <-]].
  destruct (coordinates f !! 0%nat); [|by intros [= <-]].
  destruct (coordinates f !! 1%nat); [discriminate | by intros [= <-]].
Qed.

Lemma s1_row_malformed (f : Feature) :
  malformed f -> exists e, S1.row_of_feature f = Raise e.
Proof.
  unfold S1.row_of_feature, malformed. intros [-> | Hlen]; [by eexists|].
  destruct (properties f !! "id"); [|by eexists].
  destruct (coordinates f) as [|lon [|lat rest]]; cbn in Hlen |- *; try lia; by eexists.
Qed.

Lemma s2_row_malformed (f : Feature) :
  malformed f -> exists e, S2.row_of_feature f = Raise e.
Proof.
  unfold S2.row_of_feature, malformed. intros [-> | Hlen]; [by eexists|].
  destruct (properties f !! "id"); [|by eexists].
  destruct (coordinates f) as [|lon [|lat rest]]; cbn in Hlen |- *; try lia; by eexists.
Qed.

(** Building the rows stops at the first feature that cannot be read. *)
Lemma map_prog_raises {A B} (g : A -> result B) (P : A -> Prop) (ok : exn -> bool)
    (l : list A) (w : World) :
  (forall x, P x -> exists e, g x = Raise e) ->
  (forall x e, g x = Raise e -> ok e = true) ->
  Exists P l ->
  exists e, map_prog (fun x => lift_result (g x)) l w = (Raise e, w) /\ ok e = true.
Proof.
  intros HP Hok. induction 1 as [x l Hx | x l _ IH]; cbn [map_prog].
  - destruct (HP x Hx) as [e He]. exists e.
    unfold bind at 1. unfold lift_result at 1. rewrite He. eauto.
  - unfold bind at 1. unfold lift_result at 1.
    destruct (g x) as [r|e] eqn:Hg; [|exists e; eauto].
    destruct IH as (e & Hrows & He). exists e. unfold bind. rewrite Hrows. eauto.
Qed.

(** X7. When one feature of a sampling answer lacks the [id] property or
    has fewer than two coordinates, the exporter raises a [KeyError] or an
    [IndexError] past its caller and leaves the world as it was: no row of
    the answer is written and nothing is logged. *)
Theorem X7_unreadable_feature_loses_the_unit
    (env : Env) (fc : list Point) (month : string) (batch_idx : Z)
    (output_dir : string) (w : World) (image : img) (features : list Feature) :
  sample_getInfo env image fc = Ok features ->
  Exists malformed features ->
  (S1.month_image w month = Some image ->
   exists e, S1.export_sentinel_1_data env fc month batch_idx output_dir w = (Raise e, w)
             /\ is_access_error e = true)
  /\ (S2.month_image w month = Some image ->
      (exists n, size_getInfo env image fc = Ok n) ->
      exists e, S2.export_sentinel_2_data env fc month batch_idx output_dir w = (Raise e, w)
                /\ is_access_error e = true).
Proof.
  intros Hs Hbad. split.
  - intros Himg.
    destruct (map_prog_raises S1.row_of_feature malformed is_access_error features w
                s1_row_malformed s1_row_raises Hbad) as (e & Hrows & He).
    exists e. split; [|done].
    unfold S1.export_sentinel_1_data, bind at 1, get_world. rewrite Himg.
    unfold try_except, bind at 1. unfold lift_result at 1. rewrite Hs.
    unfold bind at 1. rewrite Hrows. by destruct e.
  - intros Himg [n Hn].
    destruct (map_prog_raises S2.row_of_feature malformed is_access_error features w
                s2_row_malformed s2_row_raises Hbad) as (e & Hrows & He).
    exists e. split; [|done].
    unfold S2.export_sentinel_2_data, bind at 1, get_world. rewrite Himg.
    unfold try_except, bind at 1. unfold lift_result at 1. rewrite Hn.
    unfold bind at 1. unfold lift_result at 1. rewrite Hs.
    unfold bind at 1. rewrite Hrows. by destruct e.
Qed.

Lemma X7_unreadable_feature_loses_the_unit_witness :
  exists e,
    S1.export_sentinel_1_data broken_env one_point "July" 0 "Output" (built_world broken_env)
    = (Raise e, built_world broken_env)
    /\ is_access_error e = true.
Proof.
  apply (proj1 (X7_unreadable_feature_loses_the_unit broken_env one_point "July" 0 "Output"
                  (built_world broken_env)
                  (S1.s1_month_image broken_env (fun _ => true) 2019 "07")
                  ((sampled_feature <$> one_point)
                   ++ [{| properties := {[ "id" := VInt 1 ]}; coordinates := [] |}])
                  eq_refl
                  ltac:(apply Exists_cons_tl, Exists_cons_hd; right; cbn; lia))).
  vm_compute. reflexivity.
Defined.

(** ** The scheduler *)

Lemma touches_weaken (P Q : string -> Prop) (w w' : World) :
  (forall p, P p -> Q p) -> touches P w w' -> touches Q w w'.
Proof.
  intros HPQ (Ha & Hb & Hc). repeat split; try done.
  intros p Hp. apply Hc. intros HP. by apply Hp, HPQ.
Qed.

Lemma bind_logger {A} (l : level) (text : string) (k : unit -> Prog A) (w : World) :
  bind (logger l text) k w = k tt (logger l text w).2.
Proof. reflexivity. Qed.

Lemma bind_ok {A B} (m : Prog A) (k : A -> Prog B) (w w1 : World) (a : A) :
  m w = (Ok a, w1) -> bind m k w = k a w1.
Proof. intros H. unfold bind. by rewrite H. Qed.

Lemma bind_raise {A B} (m : Prog A) (k : A -> Prog B) (w w1 : World) (e : exn) :
  m w = (Raise e, w1) -> bind m k w = (Raise e, w1).
Proof. intros H. unfold bind. by rewrite H. Qed.

(** Submitting the tasks never raises: what a task raises stays in its
    future. *)
Lemma submit_all_returns {A} (R : World -> World -> Prop) (task : A -> Prog unit)
    (l : list A) :
  (forall a, R a a) ->
  (forall a b c, R a b -> R b c -> R a c) ->
  (forall x w r w1, task x w = (r, w1) -> R w w1) ->
  forall w, exists futures w',
    map_prog (fun x => Index.submit (task x)) l w = (Ok futures, w') /\ R w w'.
Proof.
  intros Hrefl Htrans Htask. induction l as [|x l IH]; intros w; cbn [map_prog].
  - by exists [], w.
  - unfold bind at 1. unfold Index.submit at 1.
    destruct (task x w) as [r w1] eqn:E. cbn [fst snd].
    destruct (IH w1) as (fs & w2 & Hfs & HR).
    exists (r :: fs), w2. unfold bind. rewrite Hfs.
    split; [done|]. eapply Htrans; [by eapply Htask | done].
Qed.

(** Collecting the futures never raises either: a failed task is logged. *)
Lemma collect_returns (futures : list (result unit)) :
  forall w, exists w',
    for_each futures Index.future_result w = (Ok tt, w')
    /\ touches (fun _ => False) w w'.
Proof.
  induction futures as [|f fs IH]; intros w; cbn [for_each].
  - exists w. split; [done | apply touches_refl].
  - unfold bind at 1.
    assert (H1 : exists w1, Index.future_result f w = (Ok tt, w1)
                            /\ touches (fun _ => False) w w1).
    { destruct f as [[]|e]; eexists; (split; [reflexivity|]).
      - apply touches_refl.
      - by unfold touches. }
    destruct H1 as (w1 & -> & HR1). destruct (IH w1) as (w2 & -> & HR2).
    exists w2. split; [done|]. by eapply touches_trans.
Qed.

(** What can end a run once the input is read: the radar builder always
    returns, and the outcome of the run is the outcome of the optical
    builder. *)
Lemma main_outcome (env : Env) (rows : list (Q * Q)) (w : World) :
  exists (w0 w1 w2 : World) (res : result unit),
    touches (fun _ => False) w w0
    /\ S1.create_monthwise_s1_collection env 2019 w0 = (Ok tt, w1)
    /\ S2.create_monthwise_s2_collection env 2019 w1 = (res, w2)
    /\ (Index.main env rows w).1 = res
    /\ s1_globals (Index.main env rows w).2 = s1_globals w2
    /\ s2_globals (Index.main env rows w).2 = s2_globals w2.
Proof.
  unfold Index.main. rewrite !bind_logger.
  set (w0 := (logger INFO _ (logger INFO _ w).2).2).
  destruct (S1.create_monthwise_s1_collection env 2019 w0) as [r1 w1] eqn:E1.
  destruct (s1_builder_returns _ _ _ _ _ E1) as (-> & _).
  destruct (S2.create_monthwise_s2_collection env 2019 w1) as [res w2] eqn:E2.
  exists w0, w1, w2, res.
  split; [by unfold touches|]. split; [done|]. split; [done|].
  rewrite !(bind_ok _ _ _ _ _ E1).
  destruct res as [[]|e]; [|by rewrite !(bind_raise _ _ _ _ _ E2)].
  rewrite !(bind_ok _ _ _ _ _ E2), !bind_logger.
  set (w3 := (logger INFO _ w2).2).
  destruct (submit_all_returns (touches (fun _ => True))
              (fun b : Z * Index.DataFrame =>
                 Index.process_batch env
                   (Index.num_batches (Index.read_csv rows) Index.batch_size)
                   b.1 b.2 Index.months Index.OUTPUT_DIR)
              (Index.batches (Index.read_csv rows) Index.batch_size)
              (touches_refl _) (touches_trans _)) with w3
    as (futures & w4 & Hsub & HR4).
  { intros x w5 r w6 E. eapply touches_weaken; [|eapply process_batch_touches, E]. done. }
  rewrite !(bind_ok _ _ _ _ _ Hsub).
  destruct (collect_returns futures w4) as (w5 & Hcol & HR5).
  rewrite !(bind_ok _ _ _ _ _ Hcol). cbn.
  destruct HR4 as (Ha & Hb & _). destruct HR5 as (Ha' & Hb' & _).
  by rewrite Ha', Hb', Ha, Hb.
Qed.

(** X5. The exceptions that leave the script are those of reading the
    input file and those the optical builder raises.  When the input
    cannot be read the script ends there, with nothing built or written.
    Otherwise the radar builder always returns; after it, the outcome of
    the run is the outcome of the optical builder; when that one
    returns, nothing that happens in a batch task, in sampling, row
    building or file writing, makes the run raise, and the run ends with
    the globals as the builders left them. *)
Theorem X5_run_raises_only_from_input_or_optical_builder
    (env : Env) (input : result (list (Q * Q))) (w : World) :
  match input with
  | Raise e => script env input w = (Raise e, w)
  | Ok rows =>
      exists (w0 w1 w2 : World) (res : result unit),
        touches (fun _ => False) w w0
        /\ S1.create_monthwise_s1_collection env 2019 w0 = (Ok tt, w1)
        /\ S2.create_monthwise_s2_collection env 2019 w1 = (res, w2)
        /\ (script env input w).1 = res
        /\ s1_globals (script env input w).2 = s1_globals w2
        /\ s2_globals (script env input w).2 = s2_globals w2
  end.
Proof.
  destruct input as [rows|e]; [|reflexivity].
  change (script env (Ok rows) w) with (Index.main env rows w).
  apply main_outcome.
Qed.

(** ** Names of the output files *)

Lemma length_append (a b : string) :
  String.length (a +:+ b) = (String.length a + String.length b)%nat.
Proof.
  induction a as [|c a IH]; [done|].
  change (String c a +:+ b) with (String c (a +:+ b)). cbn [String.length]. by rewrite IH.
Qed.

Lemma append_inj_r (s a b : string) : a +:+ s = b +:+ s -> a = b.
Proof.
  revert b. induction a as [|c a IH]; intros [|d b] H.
  - done.
  - apply (f_equal String.length) in H. rewrite !length_append in H. cbn in H. lia.
  - apply (f_equal String.length) in H. rewrite !length_append in H. cbn in H. lia.
  - change (String c a +:+ s) with (String c (a +:+ s)) in H.
    change (String d b +:+ s) with (String d (b +:+ s)) in H.
    injection H as -> H. f_equal. by apply IH.
Qed.

Lemma path_join_inj (dir a b : string) :
  path_join dir a = path_join dir b -> a = b.
Proof.
  unfold path_join. destruct (bool_decide _); [done|].
  destruct (String.eqb _ _); intros H.
  - by apply String.app_inj in H.
  - by apply String.app_inj, String.app_inj in H.
Qed.

(** The names of two units of a sensor, for months of the schedule. *)
Lemma unit_name_inj (sensor m1 m2 : string) (i1 i2 : Z) :
  m1 ∈ Index.months -> m2 ∈ Index.months ->
  sensor +:+ lower m1 +:+ "_2019_batch" +:+ pretty i1 +:+ ".csv"
  = sensor +:+ lower m2 +:+ "_2019_batch" +:+ pretty i2 +:+ ".csv" ->
  m1 = m2 /\ i1 = i2.
Proof.
  intros H1 H2 H%String.app_inj.
  unfold Index.months in H1, H2.
  repeat (apply elem_of_cons in H1 as [-> | H1]); [ .. | by apply elem_of_nil in H1 ];
    (repeat (apply elem_of_cons in H2 as [-> | H2]); [ .. | by apply elem_of_nil in H2 ]);
    first
      [ (* the same month *)
        apply String.app_inj, String.app_inj, append_inj_r, pretty_Z_inj in H; done
      | (* two months: their names differ at the first letter *)
        apply (f_equal (String.get 0)) in H; lazy in H; discriminate H ].
Qed.

Lemma output_files_distinct (output_dir m1 m2 : string) (i1 i2 : Z) :
  m1 ∈ Index.months -> m2 ∈ Index.months ->
  (S1.output_file output_dir m1 i1 = S1.output_file output_dir m2 i2 -> m1 = m2 /\ i1 = i2)
  /\ (S2.output_file output_dir m1 i1 = S2.output_file output_dir m2 i2 ->
      m1 = m2 /\ i1 = i2)
  /\ S1.output_file output_dir m1 i1 <> S2.output_file output_dir m2 i2.
Proof.
  intros H1 H2. split; [|split].
  - intros H%path_join_inj. by apply (unit_name_inj "s1_").
  - intros H%path_join_inj. by apply (unit_name_inj "s2_").
  - intros H%path_join_inj. apply (f_equal (String.get 1)) in H. lazy in H. discriminate H.
Qed.

(** X4. Two export units write to the same path only when they are the
    same unit: for months of the schedule, the path of a sensor's file
    determines the month and the batch index, and a radar file never has
    the path of an optical file.  So no unit of a run overwrites the file
    of another. *)
Theorem X4_output_files_are_distinct
    (output_dir m1 m2 : string) (i1 i2 : Z) :
  m1 ∈ Index.months -> m2 ∈ Index.months ->
  (S1.output_file output_dir m1 i1 = S1.output_file output_dir m2 i2 -> m1 = m2 /\ i1 = i2)
  /\ (S2.output_file output_dir m1 i1 = S2.output_file output_dir m2 i2 ->
      m1 = m2 /\ i1 = i2)
  /\ S1.output_file output_dir m1 i1 <> S2.output_file output_dir m2 i2.
Proof. apply output_files_distinct. Qed.

Lemma X4_output_files_are_distinct_witness :
  S1.output_file "Output" "July" 3 <> S2.output_file "Output" "July" 3
  /\ (S1.output_file "Output" "July" 3 = S1.output_file "Output" "July" 3 ->
      "July" = "July" /\ 3%Z = 3%Z).
Proof.
  assert (Hj : "July" ∈ Index.months) by (by apply (bool_decide_unpack _)).
  destruct (X4_output_files_are_distinct "Output" "July" "July" 3 3 Hj Hj) as (H1 & _ & H3).
  split; [exact H3 | exact H1].
Defined.

(** ** Batches, one by one *)

Section Batches.

Import Index.

Local Open Scope Z_scope.

Lemma batches_lookup (df : DataFrame) (B : Z) (i : nat) (b : Z * DataFrame) :
  batches df B !! i = Some b ->
  Z.of_nat i < num_batches df B
  /\ b = (Z.of_nat i,
          iloc (Z.of_nat i * B) (Z.min ((Z.of_nat i + 1) * B) (len df)) df).
Proof.
  unfold batches. rewrite list_lookup_fmap.
  destruct (seqZ 0 (num_batches df B) !! i) as [j|] eqn:Hj; [|discriminate].
  apply lookup_seqZ in Hj as [-> Hi]. rewrite Z.add_0_l. by intros [= <-].
Qed.

(** X15. The i-th batch carries the index i and has exactly
    min(B, N - i * B) rows: every batch but the last is full.  An empty
    input gives no batch at all, and an input of at most B rows gives the
    one batch of index 0 that is the whole input. *)
Theorem X15_batch_sizes (rows : list (Q * Q)) (B : Z) :
  0 < B ->
  let df_input := read_csv rows in
  (forall (i : nat) (b : Z * DataFrame),
     batches df_input B !! i = Some b ->
     b.1 = Z.of_nat i /\ len b.2 = Z.min B (len rows - Z.of_nat i * B))
  /\ (rows = [] -> batches df_input B = [])
  /\ (0 < len rows <= B -> batches df_input B = [(0, df_input)]).
Proof.
  intros HB df_input.
  pose proof (len_read_csv rows) as Hlen. fold df_input in Hlen.
  pose proof (num_batches_ceiling df_input B HB) as Hc.
  split; [|split].
  - intros i b (Hi & ->)%batches_lookup. cbn [fst snd]. split; [done|].
    rewrite len_iloc by nia. nia.
  - intros ->. unfold batches.
    assert (Hk : num_batches df_input B = 0) by (unfold len in *; cbn in *; nia).
    by rewrite Hk.
  - intros HN. unfold batches.
    assert (Hk : num_batches df_input B = 1) by nia.
    rewrite Hk. change (seqZ 0 1) with [0]. cbn [fmap list_fmap].
    do 2 f_equal. unfold iloc. rewrite Z.min_r by lia.
    change (Z.to_nat (0 * B)) with 0%nat. unfold len. rewrite Nat2Z.id.
    by rewrite take_ge.
Qed.

Lemma X15_batch_sizes_witness :
  batches (read_csv []) 4000 = []
  /\ batches (read_csv five_rows) 4000 = [(0, read_csv five_rows)].
Proof.
  split.
  - exact (proj1 (proj2 (X15_batch_sizes [] 4000 ltac:(lia))) eq_refl).
  - apply (proj2 (proj2 (X15_batch_sizes five_rows 4000 ltac:(lia)))).
    unfold len. cbn. lia.
Defined.

(** X16. The k-th point of the i-th batch has the id i * B + k, which is
    the position of its row in the input file, and the longitude and the
    latitude of that row. *)
Theorem X16_points_keep_their_row
    (rows : list (Q * Q)) (B : Z) (i k : nat) (b : Z * DataFrame) (pt : Point) :
  0 < B ->
  batches (read_csv rows) B !! i = Some b ->
  features b.2 !! k = Some pt ->
  pt_id pt = Z.of_nat i * B + Z.of_nat k
  /\ rows !! Z.to_nat (Z.of_nat i * B + Z.of_nat k) = Some (pt_lon pt, pt_lat pt).
Proof.
  intros HB (Hi & ->)%batches_lookup. cbn [snd].
  unfold features, iloc. rewrite list_lookup_fmap, lookup_drop.
  destruct (take _ _ !! _) as [[id [lon lat]]|] eqn:Hrow; [|discriminate].
  intros [= <-]. cbn.
  apply lookup_take_Some in Hrow as [Hrow _].
  unfold read_csv in Hrow. rewrite list_lookup_imap in Hrow.
  replace (Z.to_nat (Z.of_nat i * B + Z.of_nat k))
    with (Z.to_nat (Z.of_nat i * B) + k)%nat by lia.
  destruct (rows !! _) as [r|]; [|discriminate].
  injection Hrow as <- ->. split; [lia | done].
Qed.

Lemma X16_points_keep_their_row_witness :
  pt_id {| pt_id := 3; pt_lon := 76.97%Q; pt_lat := 12.89%Q |} = 1 * 2 + 1
  /\ five_rows !! Z.to_nat (1 * 2 + 1) = Some (76.97%Q, 12.89%Q).
Proof.
  exact (X16_points_keep_their_row five_rows 2 1 1 (1, iloc 2 4 (read_csv five_rows))
           {| pt_id := 3; pt_lon := 76.97%Q; pt_lat := 12.89%Q |}
           ltac:(lia) eq_refl eq_refl).
Defined.

End Batches.

(** ** Pixels outside the region *)

Lemma value_at_masked (image : Image) (p : Pixel) (n : string) :
  Forall (fun nb : string * Band => nb.2 p = None) image ->
  value_at n p (Some image) = None.
Proof.
  cbn. induction 1 as [|[m b] image Hb _ IH]; [done|]. cbn.
  destruct (String.eqb m n); [exact Hb | exact IH].
Qed.

Lemma clip_masks (region : Geometry) (i image : Image) (p : Pixel) :
  clip region (Some i) = Some image -> region p = false ->
  Forall (fun nb : string * Band => nb.2 p = None) image.
Proof.
  intros [= <-] Hp. apply Forall_fmap, Forall_true. intros nb. cbn. by rewrite Hp.
Qed.

(** X8. Outside the region no band of a stored image has a value: the
    radar bands VV, VH and VH_VV and the optical bands and indices are all
    masked there, so nothing can be sampled outside the region. *)
Theorem X8_nothing_outside_the_region
    (env : Env) (region : Geometry) (year : Z) (month : string)
    (s2_collection : list S2.Joined) (p : Pixel) (n : string) :
  region p = false ->
  value_at n p (S1.s1_month_image env region year month) = None
  /\ value_at n p (S2.s2_month_image env region s2_collection) = None.
Proof.
  intros Hp. split.
  - destruct (S1.s1_collection env region year month) as [[|s scenes]|] eqn:Hc.
    + unfold S1.s1_month_image, S1.s1_median_image. by rewrite Hc.
    + destruct (s1_month_image_bands env region year month (s :: scenes) Hc ltac:(done))
        as [_ ->].
      apply value_at_masked.
      repeat apply List.Forall_cons; try apply List.Forall_nil; cbn; unfold lift2;
        by rewrite Hp.
    + unfold S1.s1_month_image, S1.s1_median_image. by rewrite Hc.
  - unfold S2.s2_month_image.
    destruct (S2.s2_processed env s2_collection) as [[|s scenes]|] eqn:Hc; [done| |done].
    destruct (composite_band_names env region s2_collection (s :: scenes) Hc ltac:(done))
      as (image & Himage & Hnames).
    rewrite Himage. pose proof (clip_masks _ _ _ p Himage Hp) as Hmasked.
    destruct (composite_bands image Hnames) as (b2 & b3 & b4 & b5 & b8 & b11 & b12 & ->).
    rewrite compute_indices_unfold. apply value_at_masked.
    repeat (apply Forall_cons in Hmasked as [? Hmasked]). cbn [snd] in *.
    repeat apply List.Forall_cons; try apply List.Forall_nil; cbn; unfold lift2;
      by repeat match goal with H : _ p = None |- _ => rewrite H; clear H end.
Qed.

Lemma X8_nothing_outside_the_region_witness :
  value_at "VH_VV" (1, 1)%Z (S1.s1_month_image radar_env origin_only 2019 "09") = None
  /\ value_at "NDVI" (1, 1)%Z (S2.s2_month_image synthetic_env origin_only august_collection)
     = None.
Proof.
  split.
  - exact (proj1 (X8_nothing_outside_the_region radar_env origin_only 2019 "09"
                    august_collection (1, 1)%Z "VH_VV" eq_refl)).
  - exact (proj2 (X8_nothing_outside_the_region synthetic_env origin_only 2019 "08"
                    august_collection (1, 1)%Z "NDVI" eq_refl)).
Defined.

(** ** Where the indices are defined, and their range *)

Lemma lift2_is_Some (f : Q -> Q -> Q) (x y : Band) (p : Pixel) :
  is_Some (lift2 f x y p) <-> is_Some (x p) /\ is_Some (y p).
Proof.
  unfold lift2. destruct (x p) as [a|], (y p) as [b|]; cbn.
  - split; [intros _; split; [by exists a | by exists b] | intros _; by exists (f a b)].
  - split; [by intros ?%is_Some_None | by intros [_ ?%is_Some_None]].
  - split; [by intros ?%is_Some_None | by intros [?%is_Some_None _]].
  - split; [by intros ?%is_Some_None | by intros [?%is_Some_None _]].
Qed.

(** X9. On a composite, an index has a value at a pixel exactly where
    every band it is computed from has one: NDVI and SAVI need B8 and B4,
    EVI needs B8, B4 and B2, GNDVI and NDWI need B8 and B3, NDMI needs B8
    and B11, RENDVI needs B5 and B4.  No index depends on B12. *)
Theorem X9_index_defined_where_its_bands_are (image : Image) (p : Pixel) :
  bandNames image = S2.s2_bands ->
  Forall (fun io : string * list string =>
            is_Some (value_at io.1 p (S2.compute_indices (Some image)))
            <-> Forall (fun b => is_Some (band_value b p image)) io.2)
         index_operands.
Proof.
  intros Hn.
  destruct (composite_bands image Hn) as (b2 & b3 & b4 & b5 & b8 & b11 & b12 & ->).
  rewrite compute_indices_unfold. unfold index_operands.
  repeat apply List.Forall_cons; try apply List.Forall_nil;
    cbn; rewrite !lift2_is_Some, ?Forall_cons, ?Forall_nil; cbn;
    intuition (by eexists).
Qed.

Lemma X9_index_defined_where_its_bands_are_witness :
  Forall (fun io : string * list string =>
            is_Some (value_at io.1 (0, 0)%Z (S2.compute_indices (Some synthetic_composite)))
            <-> Forall (fun b => is_Some (band_value b (0, 0)%Z synthetic_composite)) io.2)
         index_operands.
Proof.
  exact (X9_index_defined_where_its_bands_are synthetic_composite (0, 0)%Z eq_refl).
Defined.

Lemma normalised_difference_range (x y : Q) :
  (0 <= x)%Q -> (0 <= y)%Q -> (0 < x + y)%Q -> (-1 <= (x - y) / (x + y) <= 1)%Q.
Proof.
  intros Hx Hy Hs. split.
  - apply Qle_shift_div_l; [done|]. lra.
  - apply Qle_shift_div_r; [done|]. lra.
Qed.

(** X10. On a composite, where the two bands of a normalised difference
    (NDVI, GNDVI, NDWI, NDMI, RENDVI) are not negative and not both zero,
    the index has a value and it lies between -1 and 1. *)
Theorem X10_normalised_differences_are_bounded (image : Image) (p : Pixel) :
  bandNames image = S2.s2_bands ->
  Forall (fun ixy : string * string * string =>
            forall x y : Q,
              band_value ixy.1.2 p image = Some x ->
              band_value ixy.2 p image = Some y ->
              (0 <= x)%Q -> (0 <= y)%Q -> (0 < x + y)%Q ->
              exists v, value_at ixy.1.1 p (S2.compute_indices (Some image)) = Some v
                        /\ (-1 <= v <= 1)%Q)
         normalised_differences.
Proof.
  intros Hn.
  destruct (composite_bands image Hn) as (b2 & b3 & b4 & b5 & b8 & b11 & b12 & ->).
  rewrite compute_indices_unfold. unfold normalised_differences.
  repeat apply List.Forall_cons; try apply List.Forall_nil;
    cbn; intros x y Hx Hy H0x H0y Hs; unfold lift2; rewrite Hx, Hy; cbn;
    eexists; (split; [reflexivity|]); by apply normalised_difference_range.
Qed.

Lemma X10_normalised_differences_are_bounded_witness :
  exists v, value_at "NDVI" (0, 0)%Z (S2.compute_indices (Some synthetic_composite)) = Some v
            /\ (-1 <= v <= 1)%Q.
Proof.
  pose proof (X10_normalised_differences_are_bounded synthetic_composite (0, 0)%Z eq_refl)
    as H.
  apply Forall_cons in H as [H _].
  apply (H 0.5%Q 0.1%Q eq_refl eq_refl); by vm_compute.
Defined.

(** ** Where the radar composite is defined *)

Lemma length_insert_sorted (x : Q) (l : list Q) :
  length (insert_sorted x l) = S (length l).
Proof.
  induction l as [|y l IH]; [done|]. cbn. destruct (Qle_bool x y); cbn; by rewrite ?IH.
Qed.

Lemma length_sort (l : list Q) : length (sort l) = length l.
Proof.
  induction l as [|x l IH]; [done|].
  change (sort (x :: l)) with (insert_sorted x (sort l)).
  by rewrite length_insert_sorted, IH.
Qed.

(** The median is defined for every input that is not empty. *)
Lemma median_of_is_Some (l : list Q) : is_Some (median_of l) <-> l <> [].
Proof.
  unfold median_of. cbv zeta. rewrite length_sort.
  destruct l as [|x l]; cbn [length].
  - split; [by intros ?%is_Some_None | done].
  - split; [done|]. intros _. by destruct (Nat.even _).
Qed.

Lemma omap_nonempty {A B} (f : A -> option B) (l : list A) :
  omap f l <> [] <-> exists x, x ∈ l /\ is_Some (f x).
Proof.
  induction l as [|x l IH]; cbn.
  - split; [done|]. by intros (x & ?%elem_of_nil & _).
  - destruct (f x) as [y|] eqn:Hx.
    + split; [|done]. intros _. exists x. split; [by left | by rewrite Hx].
    + rewrite IH. split.
      * intros (z & Hz & Hs). exists z. split; [by right | done].
      * intros (z & [-> | Hz]%elem_of_cons & Hs).
        -- rewrite Hx in Hs. by apply is_Some_None in Hs.
        -- by exists z.
Qed.

(** X11. For a month whose filtered radar collection is not empty, the
    stored image has a VV (or VH) value at a pixel exactly when the pixel
    is in the region and at least one scene of the collection has a VV
    (or VH) value there; the ratio has a value exactly where both VV and
    VH have one. *)
Theorem X11_radar_values_exist_where_scenes_do
    (env : Env) (region : Geometry) (year : Z) (month : string)
    (scenes : list Image) (p : Pixel) :
  S1.s1_collection env region year month = Some scenes ->
  scenes <> [] ->
  let out := S1.s1_month_image env region year month in
  (forall n, n ∈ ["VV"; "VH"] ->
     is_Some (value_at n p out)
     <-> region p = true /\ exists s, s ∈ scenes /\ is_Some (band_value n p s))
  /\ (is_Some (value_at "VH_VV" p out)
      <-> is_Some (value_at "VH" p out) /\ is_Some (value_at "VV" p out)).
Proof.
  intros Hc Hne out.
  destruct (s1_month_image_bands env region year month scenes Hc Hne) as [_ Hout].
  subst out. rewrite Hout. split.
  - intros n [-> | [-> | []%elem_of_nil]%elem_of_cons]%elem_of_cons; cbn;
      (destruct (region p);
       [ rewrite median_of_is_Some, omap_nonempty;
         split; [intros H; by split | by intros [_ H]]
       | split; [by intros ?%is_Some_None | by intros [? _]] ]).
  - cbn.
    exact (lift2_is_Some Qdiv
             (fun q => if region q then median_of (omap (band_value "VH" q) scenes) else None)
             (fun q => if region q then median_of (omap (band_value "VV" q) scenes) else None)
             p).
Qed.

Lemma X11_radar_values_exist_where_scenes_do_witness :
  is_Some (value_at "VH_VV" (0, 0)%Z (S1.s1_month_image radar_env everywhere 2019 "09"))
  <-> is_Some (value_at "VH" (0, 0)%Z (S1.s1_month_image radar_env everywhere 2019 "09"))
      /\ is_Some (value_at "VV" (0, 0)%Z (S1.s1_month_image radar_env everywhere 2019 "09")).
Proof.
  exact (proj2 (X11_radar_values_exist_where_scenes_do radar_env everywhere 2019 "09"
                  september_scenes (0, 0)%Z eq_refl ltac:(discriminate))).
Defined.

(** ** A month without scenes *)

Lemma s1_empty_month (env : Env) (region : Geometry) (year : Z) (month : string) :
  S1.s1_collection env region year month = Some [] ->
  S1.s1_month_image env region year month = None.
Proof. intros H. unfold S1.s1_month_image, S1.s1_median_image. by rewrite H. Qed.

Lemma s2_empty_month (env : Env) (region : Geometry) (s2_collection : list S2.Joined) :
  S2.s2_processed env s2_collection = Some [] ->
  S2.s2_month_image env region s2_collection = None.
Proof. intros H. unfold S2.s2_month_image. by rewrite H. Qed.

Lemma built_world_runs (env : Env) :
  exists (w1 w2 : World) (res : result unit),
    S1.create_monthwise_s1_collection env 2019 initial_world = (Ok tt, w1)
    /\ S2.create_monthwise_s2_collection env 2019 w1 = (res, w2)
    /\ built_world env = w2.
Proof.
  unfold built_world.
  destruct (S1.create_monthwise_s1_collection env 2019 initial_world) as [r1 w1] eqn:E1.
  destruct (s1_builder_returns _ _ _ _ _ E1) as (-> & _).
  rewrite (bind_ok _ _ _ _ _ E1).
  destruct (S2.create_monthwise_s2_collection env 2019 w1) as [res w2] eqn:E2.
  by exists w1, w2, res.
Qed.

Lemma month_image_by_position (w : World) (i : nat) (name : string) :
  Index.months !! i = Some name ->
  exists var1 var2 : string,
    S1.month_vars !! i = Some var1 /\ S2.month_vars !! i = Some var2
    /\ S1.month_image w name = s1_globals w !! var1
    /\ S2.month_image w name = s2_globals w !! var2.
Proof.
  intros Hname.
  do 6 (destruct i as [|i];
        [injection Hname as <-; do 2 eexists; repeat split; reflexivity|]).
  discriminate Hname.
Qed.

(** X18. A month for which no scene passes the filters is not noticed
    when the composites are built.  When no client call fails, the
    month's global is set all the same, to an expression the backend
    cannot evaluate, so the exporters' test for an unset month lets it
    through: the failure only shows when the month is sampled. *)
Theorem X18_empty_month_is_stored_all_the_same
    (env : Env) (region : Geometry) (i : nat) (name month : string) :
  load_geojson env = Ok region ->
  (forall function m, client_fault env function m = None) ->
  Index.months !! i = Some name ->
  S1.months !! i = Some month ->
  (S1.s1_collection env region 2019 month = Some [] ->
   S1.month_image (built_world env) name = Some None)
  /\ (S2.s2_processed env
        (S2.get_s2_sr_cld_col env region (S2.start_date 2019 month)
           (S2.end_date 2019 month) S2.CLOUD_FILTER) = Some [] ->
      S2.month_image (built_world env) name = Some None).
Proof.
  intros Hload Hnofault Hname Hmonth.
  destruct (built_world_runs env) as (w1 & w2 & res & E1 & E2 & ->).
  pose proof (s1_builder_globals env 2019 _ _ region _ Hload E1) as H1.
  destruct (s2_builder_frame _ _ _ _ _ E2) as [Hframe _].
  assert (forall m, m ∈ S2.months -> s2_month_fault env m = None) as Hclean.
  { intros m _. unfold s2_month_fault, s2_stages. cbn. by rewrite !Hnofault. }
  destruct (s2_builder_globals env 2019 _ _ region _ Hload Hclean E2) as [_ H2].
  destruct (month_image_by_position w2 i name Hname)
    as (var1 & var2 & Hvar1 & Hvar2 & -> & ->).
  rewrite Hframe, (H1 i month var1 Hmonth Hvar1), Hnofault.
  assert (S2.months !! i = Some month) as Hmonth2 by exact Hmonth.
  rewrite (H2 i month var2 Hmonth2 Hvar2). unfold s2_stored.
  split; intros Hempty.
  - by rewrite s1_empty_month.
  - by rewrite s2_empty_month.
Qed.

Lemma X18_empty_month_is_stored_all_the_same_witness :
  S1.month_image (built_world demo_env) "July" = Some None
  /\ S2.month_image (built_world demo_env) "July" = Some None.
Proof.
  destruct (X18_empty_month_is_stored_all_the_same demo_env (fun _ => true) 0 "July" "07")
    as [H1 H2]; try reflexivity.
  split; [apply H1 | apply H2]; reflexivity.
Defined.

(** ** The cloud and shadow flags *)

(** The bands of a scene after [add_cloud_bands] and [add_shadow_bands]. *)
Lemma flag_bands (env : Env) (j : S2.Joined)
    (b2 b3 b4 b5 b8 b11 b12 scl prob : Band) (azimuth : Q) :
  S2.primary_image j
  = Some [("B2", b2); ("B3", b3); ("B4", b4); ("B5", b5); ("B8", b8);
          ("B11", b11); ("B12", b12); ("SCL", scl)] ->
  lookup_band "probability" (bands (S2.s2cloudless j)) = Some prob ->
  num_props (S2.primary j) !! "MEAN_SOLAR_AZIMUTH_ANGLE" = Some azimuth ->
  let clouds := lift1 (fun v => Qbool (Qltb S2.CLD_PRB_THRESH v)) prob in
  let dark_pixels :=
    lift2 Qmult (lift1 (fun v => Qbool (Qltb v (S2.NIR_DRK_THRESH * 10000))) b8)
      (lift1 (fun v => Qbool (negb (Qeqb v 6))) scl) in
  let cld_proj : Band :=
    fun p => Some (Qbool (bool_decide (is_Some
      (directionalDistanceTransform env (90 - azimuth) (S2.CLD_PRJ_DIST * 10) clouds p)))) in
  S2.add_shadow_bands env j (S2.add_cloud_bands j (S2.primary_image j))
  = Some [("B2", b2); ("B3", b3); ("B4", b4); ("B5", b5); ("B8", b8);
          ("B11", b11); ("B12", b12); ("SCL", scl); ("probability", prob);
          ("clouds", clouds); ("dark_pixels", dark_pixels);
          ("cloud_transform", cld_proj); ("shadows", lift2 Qmult cld_proj dark_pixels)].
Proof.
  intros Himg Hprob Haz. cbv zeta.
  unfold S2.add_shadow_bands, S2.add_cloud_bands. rewrite Himg, Haz.
  assert (select "probability" (Some (bands (S2.s2cloudless j)))
          = Some [("probability", prob)]) as ->.
  { unfold select. cbn [mbind option_bind]. by rewrite Hprob. }
  reflexivity.
Qed.

(** X14. The flags of a scene follow the thresholds of the code.  A pixel
    is flagged cloud when its cloud probability is strictly above 70, and
    is clear at 70 or below.  A pixel is flagged shadow only when it is
    dark (B8 below 1500), is not water (SCL other than 6) and the cloud
    projection along the sun's direction reaches it. *)
Theorem X14_flags_follow_the_thresholds
    (env : Env) (j : S2.Joined) (b2 b3 b4 b5 b8 b11 b12 scl prob : Band)
    (azimuth : Q) (p : Pixel) :
  S2.primary_image j
  = Some [("B2", b2); ("B3", b3); ("B4", b4); ("B5", b5); ("B8", b8);
          ("B11", b11); ("B12", b12); ("SCL", scl)] ->
  lookup_band "probability" (bands (S2.s2cloudless j)) = Some prob ->
  num_props (S2.primary j) !! "MEAN_SOLAR_AZIMUTH_ANGLE" = Some azimuth ->
  let image := S2.add_shadow_bands env j (S2.add_cloud_bands j (S2.primary_image j)) in
  (forall v : Q, prob p = Some v ->
     ((70 < v)%Q -> value_at "clouds" p image = Some 1%Q)
     /\ ((v <= 70)%Q -> value_at "clouds" p image = Some 0%Q))
  /\ (forall s : Q, value_at "shadows" p image = Some s -> ~ (s == 0)%Q ->
        exists (nir class : Q) (clouds : Band),
          b8 p = Some nir /\ scl p = Some class
          /\ (nir < 1500)%Q /\ ~ (class == 6)%Q
          /\ (image ≫= lookup_band "clouds") = Some clouds
          /\ is_Some (directionalDistanceTransform env (90 - azimuth)%Q 10%Q clouds p)).
Proof.
  intros Himg Hprob Haz image. subst image.
  rewrite (flag_bands env j _ _ _ _ _ _ _ _ _ _ Himg Hprob Haz). cbv zeta.
  split.
  - intros v Hv. cbn. unfold lift1. rewrite Hv. cbn. unfold Qltb, S2.CLD_PRB_THRESH.
    split; intros Hcmp.
    + destruct (Qle_bool v 70) eqn:E; [|done].
      apply Qle_bool_iff in E. lra.
    + apply Qle_bool_iff in Hcmp. by rewrite Hcmp.
  - intros s Hs Hne. cbn in Hs. unfold lift2, lift1 in Hs.
    destruct (b8 p) as [nir|] eqn:Hnir; [|done].
    destruct (scl p) as [class|] eqn:Hclass; [|done].
    cbn in Hs. injection Hs as <-.
    exists nir, class. eexists. do 2 (split; [reflexivity|]).
    destruct (Qltb nir (S2.NIR_DRK_THRESH * 10000)) eqn:Edark;
      [|exfalso; apply Hne; by destruct (bool_decide _), (negb _)].
    destruct (Qeqb class 6) eqn:Ewater;
      [exfalso; apply Hne; by destruct (bool_decide _)|].
    destruct (bool_decide _) eqn:Eproj; [|exfalso; by apply Hne].
    apply bool_decide_eq_true in Eproj.
    repeat split.
    + unfold Qltb, S2.NIR_DRK_THRESH in Edark. apply negb_true_iff in Edark.
      destruct (Qlt_le_dec nir 1500) as [Hlt|Hle]; [done|].
      assert (0.15 * 10000 <= nir)%Q as Hle' by lra.
      apply Qle_bool_iff in Hle'. congruence.
    + intros Heq. apply Qeq_bool_iff in Heq. unfold Qeqb in Ewater. congruence.
    + exact Eproj.
Qed.

Lemma X14_flags_follow_the_thresholds_witness :
  value_at "clouds" (0, 0)%Z (with_flags cloud_block) = Some 1%Q
  /\ value_at "clouds" (4, 0)%Z (with_flags cloud_block) = Some 0%Q.
Proof.
  split.
  - refine (proj1 (proj1 (X14_flags_follow_the_thresholds demo_env (joined cloud_block)
                            _ _ _ _ _ _ _ _ cloud_block 150%Q (0, 0)%Z
                            eq_refl eq_refl eq_refl) 100%Q eq_refl) _).
    reflexivity.
  - refine (proj2 (proj1 (X14_flags_follow_the_thresholds demo_env (joined cloud_block)
                            _ _ _ _ _ _ _ _ cloud_block 150%Q (4, 0)%Z
                            eq_refl eq_refl eq_refl) 0%Q eq_refl) _).
    discriminate.
Defined.

(** ** The scenes that enter a month's composite *)

Lemma elem_of_filterBounds (region : Geometry) (s : Scene) (c : list Scene) :
  s ∈ filterBounds region c <-> meets region s /\ s ∈ c.
Proof.
  unfold filterBounds, meets. rewrite list_elem_of_filter, Is_true_true, existsb_exists.
  by setoid_rewrite list_elem_of_In.
Qed.

Lemma elem_of_filterDate (start_date end_date : string) (s : Scene) (c : list Scene) :
  s ∈ filterDate start_date end_date c <-> acquired_within start_date end_date s /\ s ∈ c.
Proof.
  unfold filterDate, acquired_within.
  by rewrite list_elem_of_filter, Is_true_true, andb_true_iff.
Qed.

Lemma elem_of_filter_by (f : Scene -> bool) (s : Scene) (c : list Scene) :
  s ∈ filter_by f c <-> f s = true /\ s ∈ c.
Proof. unfold filter_by. by rewrite list_elem_of_filter, Is_true_true. Qed.

Lemma Filter_lte_true (k : string) (v : Q) (s : Scene) :
  Filter_lte k v s = true <-> exists x : Q, num_props s !! k = Some x /\ (x <= v)%Q.
Proof.
  unfold Filter_lte. destruct (num_props s !! k) as [x|].
  - rewrite Qle_bool_iff. split; [by exists x|]. by intros (? & [= <-] & ?).
  - split; [done|]. by intros (? & [=] & _).
Qed.

(** The date window is closed at its start and open at its end. *)
Lemma window_excludes_its_end (start_date end_date : string) (s : Scene) :
  String.leb end_date (date s) = true -> ~ acquired_within start_date end_date s.
Proof.
  intros Hle [_ Hlt]. unfold String.leb in Hle. unfold String.ltb in Hlt.
  rewrite String.compare_antisym in Hle.
  by destruct (String.compare (date s) end_date).
Qed.

Lemma elem_of_saveFirst (j : S2.Joined) (primaries : list (Scene * img))
    (secondary : list Scene) :
  j ∈ S2.saveFirst primaries secondary
  <-> (S2.primary j, S2.primary_image j) ∈ primaries
      /\ head (filter (fun s => system_index s = system_index (S2.primary j)) secondary)
         = Some (S2.s2cloudless j).
Proof.
  unfold S2.saveFirst. rewrite list_elem_of_omap. split.
  - intros ([s i] & Hin & H). cbn in H.
    destruct (head _) as [t|] eqn:Hhead; [|done]. cbn in H. by simplify_eq.
  - intros [Hin Hhead]. eexists. split; [exact Hin|]. cbn. rewrite Hhead.
    by destruct j.
Qed.

(** X12. The date window of a month is open at its end: a scene dated on
    the end date, which is the last day of the month, or later is not
    among the radar scenes that enter the month's composite, and is
    neither the optical nor the cloud-probability scene of any element
    of the month's joined optical collection. *)
Theorem X12_scenes_of_the_last_day_are_left_out
    (env : Env) (region : Geometry) (year : Z) (month : string) (s : Scene) :
  String.leb (S1.end_date year month) (date s) = true ->
  S1.s1_collection env region year month
  = map_collection (fun s => select_list ["VV"; "VH"] (Some (bands s)))
      (s1_scenes env region year month)
  /\ (s ∉ s1_scenes env region year month)
  /\ forall j : S2.Joined,
       j ∈ S2.get_s2_sr_cld_col env region (S2.start_date year month)
             (S2.end_date year month) S2.CLOUD_FILTER ->
       S2.primary j <> s /\ S2.s2cloudless j <> s.
Proof.
  intros Hlate. split; [reflexivity|]. split.
  - unfold s1_scenes. rewrite !elem_of_filter_by, elem_of_filterDate.
    intros (_ & _ & _ & _ & Hin & _). by apply window_excludes_its_end in Hin.
  - intros j Hj. unfold S2.get_s2_sr_cld_col in Hj. cbv zeta in Hj.
    apply elem_of_saveFirst in Hj as [Hp Hc].
    apply list_elem_of_fmap in Hp as (s' & [= Hs' _] & Hp).
    apply elem_of_filter_by in Hp as (_ & Hp). apply elem_of_filterDate in Hp as [Hp _].
    apply head_Some_elem_of, list_elem_of_filter in Hc as [_ Hc].
    apply elem_of_filterDate in Hc as [Hc _].
    split; intros Heq; subst s.
    + rewrite Hs' in Hlate. by apply window_excludes_its_end in Hp.
    + by apply window_excludes_its_end in Hc.
Qed.

Lemma X12_scenes_of_the_last_day_are_left_out_witness :
  radar_scene "S1A_f" "2019-07-31" "DESCENDING" (-12) (-18) ∉ s1_scenes radar_env (fun _ => true) 2019 "07".
Proof.
  exact (proj1 (proj2 (X12_scenes_of_the_last_day_are_left_out radar_env (fun _ => true)
                         2019 "07" (radar_scene "S1A_f" "2019-07-31" "DESCENDING" (-12) (-18)) eq_refl))).
Defined.

(** X13. The optical collection of a month is an inner join on
    [system:index].  Every element pairs an optical scene of the
    catalogue with a cloud-probability scene of the same index; both meet
    the region and lie in the date window, the optical scene has at most
    the given cloudy-pixel percentage, and the eight bands are selected
    on it.  An optical scene appears in the collection exactly when it
    passes its filters and some cloud-probability scene that passes the
    region and date filters has its index: a scene without such a
    partner is dropped. *)
Theorem X13_optical_collection_is_an_inner_join
    (env : Env) (aoi : Geometry) (start_date end_date : string) (CLOUD_FILTER : Q) :
  let collection := S2.get_s2_sr_cld_col env aoi start_date end_date CLOUD_FILTER in
  (forall j : S2.Joined, j ∈ collection ->
     S2.primary j ∈ S2_SR_HARMONIZED env
     /\ S2.s2cloudless j ∈ S2_CLOUD_PROBABILITY env
     /\ system_index (S2.s2cloudless j) = system_index (S2.primary j)
     /\ meets aoi (S2.primary j) /\ meets aoi (S2.s2cloudless j)
     /\ acquired_within start_date end_date (S2.primary j)
     /\ acquired_within start_date end_date (S2.s2cloudless j)
     /\ (exists c : Q, num_props (S2.primary j) !! "CLOUDY_PIXEL_PERCENTAGE" = Some c
                       /\ (c <= CLOUD_FILTER)%Q)
     /\ S2.primary_image j
        = select_list ["B2"; "B3"; "B4"; "B5"; "B8"; "B11"; "B12"; "SCL"]
            (Some (bands (S2.primary j))))
  /\ (forall s : Scene,
        (exists j : S2.Joined, j ∈ collection /\ S2.primary j = s)
        <-> s ∈ S2_SR_HARMONIZED env /\ meets aoi s
            /\ acquired_within start_date end_date s
            /\ (exists c : Q, num_props s !! "CLOUDY_PIXEL_PERCENTAGE" = Some c
                              /\ (c <= CLOUD_FILTER)%Q)
            /\ exists t : Scene,
                 t ∈ S2_CLOUD_PROBABILITY env /\ meets aoi t
                 /\ acquired_within start_date end_date t
                 /\ system_index t = system_index s).
Proof.
  intros collection.
  assert (forall j : S2.Joined, j ∈ collection ->
     S2.primary j ∈ S2_SR_HARMONIZED env
     /\ S2.s2cloudless j ∈ S2_CLOUD_PROBABILITY env
     /\ system_index (S2.s2cloudless j) = system_index (S2.primary j)
     /\ meets aoi (S2.primary j) /\ meets aoi (S2.s2cloudless j)
     /\ acquired_within start_date end_date (S2.primary j)
     /\ acquired_within start_date end_date (S2.s2cloudless j)
     /\ (exists c : Q, num_props (S2.primary j) !! "CLOUDY_PIXEL_PERCENTAGE" = Some c
                       /\ (c <= CLOUD_FILTER)%Q)
     /\ S2.primary_image j
        = select_list ["B2"; "B3"; "B4"; "B5"; "B8"; "B11"; "B12"; "SCL"]
            (Some (bands (S2.primary j)))) as Hsound.
  { intros j Hj. subst collection. unfold S2.get_s2_sr_cld_col in Hj. cbv zeta in Hj.
    apply elem_of_saveFirst in Hj as [Hp Hc].
    apply list_elem_of_fmap in Hp as (s' & [= Hs' Himg] & Hp). subst s'.
    apply elem_of_filter_by in Hp as (Hcloudy & Hp). apply Filter_lte_true in Hcloudy.
    apply elem_of_filterDate in Hp as [Hdate Hp].
    apply elem_of_filterBounds in Hp as [Hmeet Hp].
    apply head_Some_elem_of, list_elem_of_filter in Hc as [Hindex Hc].
    apply elem_of_filterDate in Hc as [Hdate' Hc].
    apply elem_of_filterBounds in Hc as [Hmeet' Hc].
    done. }
  split; [exact Hsound|].
  intros s. split.
  - intros (j & Hj & <-).
    destruct (Hsound j Hj) as (? & ? & ? & ? & ? & ? & ? & ? & ?).
    repeat (split; [done|]). by exists (S2.s2cloudless j).
  - intros (Hs & Hmeet & Hdate & Hcloudy & t & Ht & Hmeet' & Hdate' & Hindex).
    subst collection. unfold S2.get_s2_sr_cld_col. cbv zeta.
    assert (t ∈ filter (fun t => system_index t = system_index s)
                  (filterDate start_date end_date
                     (filterBounds aoi (S2_CLOUD_PROBABILITY env)))) as Hpartner.
    { apply list_elem_of_filter. split; [done|].
      apply elem_of_filterDate. split; [done|]. by apply elem_of_filterBounds. }
    destruct (filter _ _) as [|t' rest] eqn:Hfilter; [by apply elem_of_nil in Hpartner|].
    exists {| S2.primary := s;
              S2.primary_image :=
                select_list ["B2"; "B3"; "B4"; "B5"; "B8"; "B11"; "B12"; "SCL"]
                  (Some (bands s));
              S2.s2cloudless := t' |}.
    split; [|done]. apply elem_of_saveFirst. cbn [S2.primary S2.primary_image S2.s2cloudless].
    split; [|by rewrite Hfilter].
    apply list_elem_of_fmap. exists s. split; [done|].
    apply elem_of_filter_by. split; [by apply Filter_lte_true|].
    apply elem_of_filterDate. split; [done|]. by apply elem_of_filterBounds.
Qed.

(** ** A run on which nothing fails *)

Lemma unit_written_frame (paths : string -> Prop) (env : Env) (schema : list string)
    (image : img) (fc : list Point) (path : string) (w w' : World) :
  touches paths w w' -> ~ paths path ->
  unit_written env schema image fc path w -> unit_written env schema image fc path w'.
Proof.
  intros (_ & _ & Hfiles) Hpath (features & rows & Hs & Hf & Hrows).
  exists features, rows. by rewrite Hfiles.
Qed.

Lemma same_globals_touches (paths : string -> Prop) (built w w' : World) :
  touches paths w w' -> same_globals built w -> same_globals built w'.
Proof. intros (H1 & H2 & _) [G1 G2]. split; congruence. Qed.

Lemma same_globals_month_image (built w : World) (month : string) :
  same_globals built w ->
  S1.month_image w month = S1.month_image built month
  /\ S2.month_image w month = S2.month_image built month.
Proof. intros [G1 G2]. unfold S1.month_image, S2.month_image. by rewrite G1, G2. Qed.

(** A loop over units, each of which leaves the results of the others
    alone: when every step returns, the loop returns and every unit's
    result stands at the end. *)
Lemma for_each_units {A K} (key : A -> K) (I : World -> Prop) (Q : A -> World -> Prop)
    (body : A -> Prog unit) (l : list A) :
  NoDup (key <$> l) ->
  (forall x w, x ∈ l -> I w ->
     exists w', body x w = (Ok tt, w') /\ I w' /\ Q x w'
                /\ forall z, key z <> key x -> Q z w -> Q z w') ->
  forall w, I w ->
    exists w', for_each l body w = (Ok tt, w') /\ I w'
               /\ (forall x, x ∈ l -> Q x w')
               /\ (forall z, key z ∉ key <$> l -> Q z w -> Q z w').
Proof.
  induction l as [|x l IH]; intros Hnd Hstep w HI.
  - exists w. repeat split; try done. intros x Hx. by apply elem_of_nil in Hx.
  - rewrite fmap_cons in Hnd. apply NoDup_cons in Hnd as [Hx Hnd].
    destruct (Hstep x w) as (w1 & E1 & HI1 & HQ1 & Hf1); [by left | done |].
    destruct (IH Hnd) with (w := w1) as (w' & E & HI' & HQ & Hf); [|done|].
    { intros y w0 Hy. apply Hstep. by right. }
    exists w'. cbn [for_each]. rewrite (bind_ok _ _ _ _ _ E1).
    split; [done|]. split; [done|]. split.
    + intros y [-> | Hy]%elem_of_cons; [by apply Hf | by apply HQ].
    + intros z Hz HQz. rewrite fmap_cons in Hz. apply not_elem_of_cons in Hz as [Hne Hz].
      apply Hf; [done|]. by apply Hf1.
Qed.

Lemma submit_units {A K} (key : A -> K) (I : World -> Prop) (Q : A -> World -> Prop)
    (task : A -> Prog unit) (l : list A) :
  NoDup (key <$> l) ->
  (forall x w, x ∈ l -> I w ->
     exists w', task x w = (Ok tt, w') /\ I w' /\ Q x w'
                /\ forall z, key z <> key x -> Q z w -> Q z w') ->
  forall w, I w ->
    exists futures w',
      map_prog (fun x => Index.submit (task x)) l w = (Ok futures, w') /\ I w'
      /\ (forall x, x ∈ l -> Q x w')
      /\ (forall z, key z ∉ key <$> l -> Q z w -> Q z w').
Proof.
  induction l as [|x l IH]; intros Hnd Hstep w HI.
  - exists [], w. repeat split; try done. intros x Hx. by apply elem_of_nil in Hx.
  - rewrite fmap_cons in Hnd. apply NoDup_cons in Hnd as [Hx Hnd].
    destruct (Hstep x w) as (w1 & E1 & HI1 & HQ1 & Hf1); [by left | done |].
    destruct (IH Hnd) with (w := w1) as (fs & w' & E & HI' & HQ & Hf); [|done|].
    { intros y w0 Hy. apply Hstep. by right. }
    exists (Ok tt :: fs), w'. cbn [map_prog].
    unfold bind at 1. unfold Index.submit at 1. rewrite E1. cbn [fst snd].
    rewrite (bind_ok _ _ _ _ _ E).
    split; [done|]. split; [done|]. split.
    + intros y [-> | Hy]%elem_of_cons; [by apply Hf | by apply HQ].
    + intros z Hz HQz. rewrite fmap_cons in Hz. apply not_elem_of_cons in Hz as [Hne Hz].
      apply Hf; [done|]. by apply Hf1.
Qed.

Section CleanRun.

Variables (env : Env) (output_dir : string) (built : World).

(** The feature collections the run asks about. *)
Variable requested : list Point -> Prop.

Hypothesis Hwrite : forall path, write_fault env path = None.
Hypothesis Hanswered : forall fc month,
  requested fc -> month ∈ Index.months ->
  exists image1 image2,
    S1.month_image built month = Some image1
    /\ S2.month_image built month = Some image2
    /\ (exists features,
          sample_getInfo env image1 fc = Ok features /\ Forall well_formed features)
    /\ (exists n, size_getInfo env image2 fc = Ok n)
    /\ (exists features,
          sample_getInfo env image2 fc = Ok features /\ Forall well_formed features).

Lemma s1_unit_written (fc : list Point) (month : string) (batch_idx : Z) (w : World)
    (image : img) :
  S1.month_image w month = Some image ->
  (exists features,
     sample_getInfo env image fc = Ok features /\ Forall well_formed features) ->
  exists w', S1.export_sentinel_1_data env fc month batch_idx output_dir w = (Ok tt, w')
    /\ writes_only (S1.output_file output_dir month batch_idx) w w'
    /\ unit_written env s1_schema image fc (S1.output_file output_dir month batch_idx) w'.
Proof.
  intros Himg (features & Hs & Hwf).
  destruct (export_s1_rows env fc month batch_idx output_dir w image features
              Himg Hs Hwf (Hwrite _)) as (rows & Hok & Hfile & Hrows).
  destruct (S1.export_sentinel_1_data env fc month batch_idx output_dir w)
    as [r w'] eqn:E.
  cbn in Hok, Hfile. subst r. exists w'. split; [done|]. split.
  - eapply writes_only_cases, s1_export_cases, E.
  - by exists features, rows.
Qed.

Lemma s2_unit_written (fc : list Point) (month : string) (batch_idx : Z) (w : World)
    (image : img) :
  S2.month_image w month = Some image ->
  (exists n, size_getInfo env image fc = Ok n) ->
  (exists features,
     sample_getInfo env image fc = Ok features /\ Forall well_formed features) ->
  exists w', S2.export_sentinel_2_data env fc month batch_idx output_dir w = (Ok tt, w')
    /\ writes_only (S2.output_file output_dir month batch_idx) w w'
    /\ unit_written env s2_schema image fc (S2.output_file output_dir month batch_idx) w'.
Proof.
  intros Himg [n Hn] (features & Hs & Hwf).
  destruct (export_s2_rows env fc month batch_idx output_dir w image n features
              Himg Hn Hs Hwf (Hwrite _)) as (rows & Hok & Hfile & Hrows).
  destruct (S2.export_sentinel_2_data env fc month batch_idx output_dir w)
    as [r w'] eqn:E.
  cbn in Hok, Hfile. subst r. exists w'. split; [done|]. split.
  - eapply writes_only_cases, s2_export_cases, E.
  - by exists features, rows.
Qed.

(** The files of a month of a batch are no files of another month, nor of
    another batch. *)
Lemma month_paths_apart (m1 m2 : string) (i1 i2 : Z) (p : string) :
  m1 ∈ Index.months -> m2 ∈ Index.months -> m1 <> m2 \/ i1 <> i2 ->
  month_paths output_dir m1 i1 p -> ~ month_paths output_dir m2 i2 p.
Proof.
  intros H1 H2 Hne Hp Hp'.
  destruct (output_files_distinct output_dir m1 m2 i1 i2 H1 H2) as (Ha & Hb & Hc).
  destruct (output_files_distinct output_dir m2 m1 i2 i1 H2 H1) as (_ & _ & Hd).
  destruct Hp as [-> | ->], Hp' as [Hp' | Hp'].
  - apply Ha in Hp' as [? ?]. by destruct Hne.
  - by apply Hc in Hp'.
  - symmetry in Hp'. by apply Hd in Hp'.
  - apply Hb in Hp' as [? ?]. by destruct Hne.
Qed.

Lemma month_written_frame (paths : string -> Prop) (fc : list Point) (batch_idx : Z)
    (month : string) (w w' : World) :
  touches paths w w' ->
  (forall p, month ∈ Index.months -> month_paths output_dir month batch_idx p -> ~ paths p) ->
  month_written env output_dir built fc batch_idx month w ->
  month_written env output_dir built fc batch_idx month w'.
Proof.
  intros Ht Hp HQ image1 image2 Hm H1 H2. destruct (HQ image1 image2 Hm H1 H2) as [A B].
  split; (eapply unit_written_frame; [exact Ht | | done]); apply Hp; try done.
  - by left.
  - by right.
Qed.

(** One turn of the month loop of [process_batch]. *)
Lemma month_step (fc : list Point) (batch_idx : Z) (month : string) (w : World)
    (text1 text2 : string) :
  requested fc -> month ∈ Index.months -> same_globals built w ->
  exists w',
    bind (logger INFO text1) (fun _ =>
      bind (S1.export_sentinel_1_data env fc month batch_idx output_dir) (fun _ =>
        bind (logger INFO text2) (fun _ =>
          S2.export_sentinel_2_data env fc month batch_idx output_dir))) w = (Ok tt, w')
    /\ same_globals built w'
    /\ month_written env output_dir built fc batch_idx month w'
    /\ touches (month_paths output_dir month batch_idx) w w'.
Proof.
  intros Hfc Hm HI.
  destruct (Hanswered fc month Hfc Hm) as (image1 & image2 & H1 & H2 & A1 & A2 & A3).
  rewrite bind_logger. set (w0 := (logger INFO text1 w).2).
  assert (touches (month_paths output_dir month batch_idx) w w0) as T0
    by apply touches_logger.
  pose proof (same_globals_touches _ _ _ _ T0 HI) as HI0.
  destruct (s1_unit_written fc month batch_idx w0 image1) as (w1 & E1 & W1 & U1);
    [|done|].
  { by rewrite (proj1 (same_globals_month_image built w0 month HI0)). }
  apply (writes_only_touches (month_paths output_dir month batch_idx)) in W1 as T1;
    [|by left].
  pose proof (same_globals_touches _ _ _ _ T1 HI0) as HI1.
  rewrite (bind_ok _ _ _ _ _ E1), bind_logger. set (w2 := (logger INFO text2 w1).2).
  assert (touches (month_paths output_dir month batch_idx) w1 w2) as T2
    by apply touches_logger.
  pose proof (same_globals_touches _ _ _ _ T2 HI1) as HI2.
  destruct (s2_unit_written fc month batch_idx w2 image2) as (w3 & E3 & W3 & U3);
    [|done|done|].
  { by rewrite (proj2 (same_globals_month_image built w2 month HI2)). }
  apply (writes_only_touches (month_paths output_dir month batch_idx)) in W3 as T3;
    [|by right].
  exists w3. split; [done|]. split; [exact (same_globals_touches _ _ _ _ T3 HI2)|]. split.
  - intros i1 i2 _ G1 G2. rewrite H1 in G1. rewrite H2 in G2. simplify_eq. split; [|done].
    eapply (unit_written_frame (eq (S2.output_file output_dir month batch_idx)));
      [| |exact U1].
    + destruct W3 as (A & B & C & _). destruct T2 as (A' & B' & C').
      repeat split; try congruence. intros p Hp. by rewrite C by congruence.
    + intros Heq. symmetry in Heq.
      by apply (output_files_distinct output_dir month month batch_idx batch_idx Hm Hm) in Heq.
  - eauto using touches_trans.
Qed.

Lemma process_batch_written (nb : Z) (b : Z * Index.DataFrame) (w : World) :
  requested (Index.features b.2) ->
  same_globals built w ->
  exists w',
    Index.process_batch env nb b.1 b.2 Index.months output_dir w = (Ok tt, w')
    /\ same_globals built w'
    /\ batch_written env output_dir built b w'
    /\ forall z : Z * Index.DataFrame,
         z.1 <> b.1 -> batch_written env output_dir built z w ->
         batch_written env output_dir built z w'.
Proof.
  intros Hfc HI. unfold Index.process_batch. rewrite bind_logger.
  set (w0 := (logger INFO _ w).2).
  assert (same_globals built w0) as HI0 by done.
  destruct (for_each_units id (same_globals built)
              (month_written env output_dir built (Index.features b.2) b.1)
              (fun month =>
                 bind (logger INFO ("Processing Sentinel-1 data for " +:+ month
                                    +:+ ", batch " +:+ pretty (b.1 + 1)%Z)) (fun _ =>
                 bind (S1.export_sentinel_1_data env (Index.features b.2) month b.1
                         output_dir) (fun _ =>
                 bind (logger INFO ("Processing Sentinel-2 data for " +:+ month
                                    +:+ ", batch " +:+ pretty (b.1 + 1)%Z)) (fun _ =>
                 S2.export_sentinel_2_data env (Index.features b.2) month b.1
                   output_dir))))
              Index.months) with (w := w0) as (w' & E & HI' & HQ & _); [| |done|].
  { rewrite list_fmap_id. by apply (bool_decide_unpack _). }
  { intros month w1 Hm HI1.
    destruct (month_step (Index.features b.2) b.1 month w1
                ("Processing Sentinel-1 data for " +:+ month
                 +:+ ", batch " +:+ pretty (b.1 + 1)%Z)
                ("Processing Sentinel-2 data for " +:+ month
                 +:+ ", batch " +:+ pretty (b.1 + 1)%Z) Hfc Hm HI1)
      as (w2 & E2 & HI2 & HQ2 & T2).
    exists w2. split; [exact E2|]. split; [done|]. split; [done|].
    intros z Hz. apply (month_written_frame _ _ _ _ _ _ T2).
    intros p Hz' Hp Hp'. revert Hp'. apply (month_paths_apart z month b.1 b.1); try done.
    by left. }
  exists w'. split; [exact E|]. split; [done|]. split.
  - intros month image1 image2 Hm. by apply HQ.
  - intros z Hz HQz month.
    assert (touches (batch_paths output_dir Index.months b.1) w w') as T.
    { apply (process_batch_touches env nb b.1 b.2 output_dir Index.months w w' (Ok tt)).
      unfold Index.process_batch. rewrite bind_logger. exact E. }
    apply (month_written_frame _ _ _ _ _ _ T); [|apply HQz].
    intros p Hm Hp (m' & Hm' & Hp').
    revert Hp. apply (month_paths_apart m' month b.1 z.1); try done.
    by right.
Qed.

End CleanRun.

Lemma batches_keys (df : Index.DataFrame) (B : Z) : NoDup (fst <$> Index.batches df B).
Proof.
  unfold Index.batches. rewrite <- list_fmap_compose.
  erewrite list_fmap_ext; [rewrite list_fmap_id; apply NoDup_seqZ|].
  by intros.
Qed.

Lemma month_position (i : nat) (name : string) :
  Index.months !! i = Some name -> exists month, S1.months !! i = Some month.
Proof.
  intros H. do 6 (destruct i as [|i]; [by eexists|]). discriminate H.
Qed.

(** The composites the two builders leave for a month when no client call
    fails. *)
Lemma built_month_images (env : Env) (region : Geometry) (w w1 w2 : World)
    (res : result unit) :
  load_geojson env = Ok region ->
  (forall function month, client_fault env function month = None) ->
  S1.create_monthwise_s1_collection env 2019 w = (Ok tt, w1) ->
  S2.create_monthwise_s2_collection env 2019 w1 = (res, w2) ->
  res = Ok tt
  /\ forall (i : nat) (name month : string),
       Index.months !! i = Some name -> S1.months !! i = Some month ->
       S1.month_image w2 name = Some (S1.s1_month_image env region 2019 month)
       /\ S2.month_image w2 name = Some (s2_stored env region 2019 month).
Proof.
  intros Hload Hnofault E1 E2.
  pose proof (s1_builder_globals env 2019 _ _ region _ Hload E1) as H1.
  destruct (s2_builder_frame _ _ _ _ _ E2) as [Hframe _].
  assert (forall m, m ∈ S2.months -> s2_month_fault env m = None) as Hclean.
  { intros m _. unfold s2_month_fault, s2_stages. cbn. by rewrite !Hnofault. }
  destruct (s2_builder_globals env 2019 _ _ region _ Hload Hclean E2) as [-> H2].
  split; [done|]. intros i name month Hname Hmonth.
  destruct (month_image_by_position w2 i name Hname)
    as (var1 & var2 & Hvar1 & Hvar2 & -> & ->).
  rewrite Hframe, (H1 i month var1 Hmonth Hvar1), Hnofault.
  assert (S2.months !! i = Some month) as Hmonth2 by exact Hmonth.
  by rewrite (H2 i month var2 Hmonth2 Hvar2).
Qed.

(** X17. A run on which nothing fails writes every file.  When the region
    loads, no client call fails, every request the run makes (sampling
    each month's radar composite and each month's optical composite at
    the points of each batch) is answered with well-formed features, and
    every file can be written, the script returns normally, and for
    every batch and every month the radar file and the optical file of
    the unit hold, at the end of the run, one row per feature sampled
    from that month's composite at the points of that batch, in the order
    returned.  (The batch tasks are run one after the other, in the order
    they are submitted.) *)
Theorem X17_clean_run_writes_every_file
    (env : Env) (region : Geometry) (rows : list (Q * Q)) (w : World) :
  load_geojson env = Ok region ->
  (forall function month, client_fault env function month = None) ->
  (forall (b : Z * Index.DataFrame) (month : string),
     b ∈ Index.batches (Index.read_csv rows) Index.batch_size ->
     month ∈ S1.months ->
     (exists features,
        sample_getInfo env (S1.s1_month_image env region 2019 month)
          (Index.features b.2) = Ok features
        /\ Forall well_formed features)
     /\ (exists n,
           size_getInfo env (s2_stored env region 2019 month) (Index.features b.2) = Ok n)
     /\ (exists features,
           sample_getInfo env (s2_stored env region 2019 month)
             (Index.features b.2) = Ok features
           /\ Forall well_formed features)) ->
  (forall path, write_fault env path = None) ->
  exists w' : World,
    Index.main env rows w = (Ok tt, w')
    /\ forall (b : Z * Index.DataFrame) (i : nat) (name month : string),
         b ∈ Index.batches (Index.read_csv rows) Index.batch_size ->
         Index.months !! i = Some name -> S1.months !! i = Some month ->
         unit_written env s1_schema (S1.s1_month_image env region 2019 month)
           (Index.features b.2) (S1.output_file Index.OUTPUT_DIR name b.1) w'
         /\ unit_written env s2_schema (s2_stored env region 2019 month)
              (Index.features b.2) (S2.output_file Index.OUTPUT_DIR name b.1) w'.
Proof.
  intros Hload Hnofault Hanswered Hwrite.
  unfold Index.main. rewrite !bind_logger.
  set (w0 := (logger INFO _ (logger INFO _ w).2).2).
  destruct (S1.create_monthwise_s1_collection env 2019 w0) as [r1 w1] eqn:E1.
  destruct (s1_builder_returns _ _ _ _ _ E1) as (-> & _).
  destruct (S2.create_monthwise_s2_collection env 2019 w1) as [res w2] eqn:E2.
  destruct (built_month_images env region w0 w1 w2 res Hload Hnofault E1 E2)
    as [-> Himages].
  rewrite (bind_ok _ _ _ _ _ E1), (bind_ok _ _ _ _ _ E2), bind_logger.
  set (w3 := (logger INFO _ w2).2).
  set (requested := fun fc : list Point =>
         exists b, b ∈ Index.batches (Index.read_csv rows) Index.batch_size
                   /\ fc = Index.features b.2).
  assert (forall fc name, requested fc -> name ∈ Index.months ->
            exists image1 image2,
              S1.month_image w2 name = Some image1
              /\ S2.month_image w2 name = Some image2
              /\ (exists features,
                    sample_getInfo env image1 fc = Ok features
                    /\ Forall well_formed features)
              /\ (exists n, size_getInfo env image2 fc = Ok n)
              /\ (exists features,
                    sample_getInfo env image2 fc = Ok features
                    /\ Forall well_formed features)) as Hbuilt.
  { intros fc name (b & Hb & ->) (i & Hi)%list_elem_of_lookup.
    destruct (month_position i name Hi) as [month Hmonth].
    destruct (Himages i name month Hi Hmonth) as [G1 G2].
    destruct (Hanswered b month Hb) as (A1 & A2 & A3);
      [by eapply list_elem_of_lookup_2|].
    by exists (S1.s1_month_image env region 2019 month), (s2_stored env region 2019 month). }
  destruct (submit_units fst (same_globals w2)
              (batch_written env Index.OUTPUT_DIR w2)
              (fun b : Z * Index.DataFrame =>
                 Index.process_batch env
                   (Index.num_batches (Index.read_csv rows) Index.batch_size)
                   b.1 b.2 Index.months Index.OUTPUT_DIR)
              (Index.batches (Index.read_csv rows) Index.batch_size)
              (batches_keys _ _)) with (w := w3)
    as (futures & w4 & Hsub & HI4 & HQ4 & _); [|done|].
  { intros b w5 Hb HI5.
    apply (process_batch_written env Index.OUTPUT_DIR w2 requested Hwrite Hbuilt
             _ b w5); [by exists b | done]. }
  rewrite (bind_ok _ _ _ _ _ Hsub).
  destruct (collect_returns futures w4) as (w5 & Hcol & T5).
  rewrite (bind_ok _ _ _ _ _ Hcol).
  eexists. split; [reflexivity|].
  intros b i name month Hb Hname Hmonth.
  destruct (Himages i name month Hname Hmonth) as [G1 G2].
  assert (name ∈ Index.months) as Hin by (by eapply list_elem_of_lookup_2).
  destruct (HQ4 b Hb name _ _ Hin G1 G2) as [U1 U2].
  assert (touches (fun _ => False) w4 (logger INFO
            ("Processing complete. CSVs saved in " +:+ Index.OUTPUT_DIR) w5).2) as T.
  { eapply touches_trans; [exact T5 | apply touches_logger]. }
  split; (eapply unit_written_frame; [exact T | tauto | done]).
Qed.

Lemma X17_clean_run_writes_every_file_witness :
  exists w' : World,
    Index.main full_year_env one_row initial_world = (Ok tt, w')
    /\ is_Some (files w' !! S1.output_file Index.OUTPUT_DIR "July" 0)
    /\ is_Some (files w' !! S2.output_file Index.OUTPUT_DIR "December" 0)
    /\ sample_getInfo full_year_env None one_point
       = Raise (EEException "Image.select: Pattern did not match any bands.").
Proof.
  assert ((0%Z, [(0%Z, (76.9430421, 12.8601999)%Q)])
          ∈ Index.batches (Index.read_csv one_row) Index.batch_size)
    as Hb by (vm_compute; by left).
  destruct (X17_clean_run_writes_every_file full_year_env (fun _ => true)
              one_row initial_world) as (w' & Hrun & Hfiles).
  - reflexivity.
  - reflexivity.
  - intros b month Hin Hm.
    assert (b = (0%Z, [(0%Z, (76.9430421, 12.8601999)%Q)])) as ->.
    { vm_compute in Hin. by apply list_elem_of_singleton in Hin. }
    assert (Forall well_formed
              (sampled_feature
                 <$> Index.features (0%Z, [(0%Z, (76.9430421, 12.8601999)%Q)]).2)) as Hwf.
    { repeat constructor. by eexists. }
    unfold S1.months in Hm.
    repeat (apply elem_of_cons in Hm as [-> | Hm]); [ .. | by apply elem_of_nil in Hm ];
      (split; [eexists; split; [vm_compute; reflexivity | exact Hwf]|];
       split; [eexists; vm_compute; reflexivity|];
       eexists; split; [vm_compute; reflexivity | exact Hwf]).
  - reflexivity.
  - exists w'. split; [exact Hrun|]. split; [|split].
    + destruct (Hfiles _ 0%nat "July" "07" Hb eq_refl eq_refl)
        as [(features & rows & _ & Hf & _) _].
      by eexists.
    + destruct (Hfiles _ 5%nat "December" "12" Hb eq_refl eq_refl)
        as [_ (features & rows & _ & Hf & _)].
      by eexists.
    + reflexivity.
Defined.

(** ** A radar month that could not be built *)

Section UnbuiltMonth.

Variables (env : Env) (name : string) (batch_idx : Z).

Hypothesis Hname : name ∈ Index.months.

Lemma never_written_s1_export (fc : list Point) (month : string) (i : Z)
    (w w' : World) (res : result unit) :
  month ∈ Index.months ->
  S1.export_sentinel_1_data env fc month i Index.OUTPUT_DIR w = (res, w') ->
  never_written name batch_idx w -> never_written name batch_idx w'.
Proof.
  intros Hm E [Himg Hfile].
  pose proof (writes_only_cases w _ _ _ (s1_export_cases env fc month i _ w _ _ E))
    as (G1 & _ & Hfiles & _).
  split; [unfold S1.month_image in *; by rewrite G1|].
  destruct (decide (S1.output_file Index.OUTPUT_DIR name batch_idx
                    = S1.output_file Index.OUTPUT_DIR month i)) as [Heq | Hne].
  - apply (output_files_distinct Index.OUTPUT_DIR name month batch_idx i Hname Hm)
      in Heq as [<- <-].
    revert E. unfold S1.export_sentinel_1_data, bind, get_world. rewrite Himg.
    by intros [= <- <-].
  - by rewrite Hfiles.
Qed.

Lemma never_written_s2_export (fc : list Point) (month : string) (i : Z)
    (w w' : World) (res : result unit) :
  month ∈ Index.months ->
  S2.export_sentinel_2_data env fc month i Index.OUTPUT_DIR w = (res, w') ->
  never_written name batch_idx w -> never_written name batch_idx w'.
Proof.
  intros Hm E [Himg Hfile].
  pose proof (writes_only_cases w _ _ _ (s2_export_cases env fc month i _ w _ _ E))
    as (G1 & _ & Hfiles & _).
  split; [unfold S1.month_image in *; by rewrite G1|].
  rewrite Hfiles; [done|].
  apply (output_files_distinct Index.OUTPUT_DIR name month batch_idx i Hname Hm).
Qed.

Lemma never_written_process_batch (nb i : Z) (batch_df : Index.DataFrame)
    (w w' : World) (res : result unit) :
  Index.process_batch env nb i batch_df Index.months Index.OUTPUT_DIR w = (res, w') ->
  never_written name batch_idx w -> never_written name batch_idx w'.
Proof.
  set (R := fun a b : World =>
            never_written name batch_idx a -> never_written name batch_idx b).
  assert (Htrans : forall a b c, R a b -> R b c -> R a c) by (unfold R; auto).
  assert (Hlog : forall l text w0 r w1, logger l text w0 = (r, w1) -> R w0 w1).
  { intros l text w0 r w1 [= <- <-]. exact (fun H => H). }
  intros E. change (R w w'). revert E. unfold Index.process_batch.
  apply bind_rel; [done | apply Hlog |]. intros _ w0 r0.
  apply for_each_rel; [intros a; exact (fun H => H) | done |].
  intros m w1 r1 w2 Hm.
  apply bind_rel; [done | apply Hlog |]. intros _ w3 r3.
  apply bind_rel; [done | |].
  { intros r w4 E. exact (never_written_s1_export _ _ _ _ _ _ Hm E). }
  intros _ w4 r4.
  apply bind_rel; [done | apply Hlog |]. intros _ w5 r5 E.
  exact (never_written_s2_export _ _ _ _ _ _ Hm E).
Qed.

End UnbuiltMonth.

(** X3. A radar month that could not be built is never exported.  When,
    with the region loaded, a client call fails while the radar builder
    builds a month, and that
    month's composite was unset and its files did not exist before the
    run, as when the script starts, then whatever else happens in the
    run, at its end the month's composite is still unset and no radar
    file of that month exists, for any batch: every batch task finds the
    month unset and skips it, and no other unit writes to its path. *)
Theorem X3_unbuilt_radar_month_is_never_written
    (env : Env) (region : Geometry) (rows : list (Q * Q)) (w : World)
    (i : nat) (name month : string) (e : exn) (batch_idx : Z) :
  load_geojson env = Ok region ->
  Index.months !! i = Some name ->
  S1.months !! i = Some month ->
  client_fault env "create_monthwise_s1_collection" month = Some e ->
  never_written name batch_idx w ->
  never_written name batch_idx (Index.main env rows w).2.
Proof.
  intros Hload Hname Hmonth Hfault [Himg Hfile].
  assert (name ∈ Index.months) as Hin by (by eapply list_elem_of_lookup_2).
  destruct (month_image_by_position w i name Hname) as (var & _ & Hvar & _ & Hw & _).
  unfold Index.main. rewrite !bind_logger.
  set (w0 := (logger INFO _ (logger INFO _ w).2).2).
  destruct (S1.create_monthwise_s1_collection env 2019 w0) as [r1 w1] eqn:E1.
  destruct (s1_builder_returns _ _ _ _ _ E1) as (-> & _ & Hf1).
  pose proof (s1_builder_globals env 2019 _ _ region _ Hload E1 i month var Hmonth Hvar)
    as Hg1.
  rewrite Hfault in Hg1.
  destruct (S2.create_monthwise_s2_collection env 2019 w1) as [res w2] eqn:E2.
  destruct (s2_builder_frame _ _ _ _ _ E2) as [Hg2 Hf2].
  assert (never_written name batch_idx w2) as H2.
  { split; [|by rewrite Hf2, Hf1].
    destruct (month_image_by_position w2 i name Hname) as (var' & _ & Hvar' & _ & -> & _).
    assert (var' = var) as -> by congruence.
    rewrite Hg2, Hg1. change (s1_globals w !! var = None). by rewrite <- Hw. }
  rewrite (bind_ok _ _ _ _ _ E1).
  destruct res as [[]|e2]; [|by rewrite (bind_raise _ _ _ _ _ E2)].
  rewrite (bind_ok _ _ _ _ _ E2), bind_logger.
  set (w3 := (logger INFO _ w2).2).
  destruct (submit_all_returns
              (fun a b : World =>
                 never_written name batch_idx a -> never_written name batch_idx b)
              (fun b : Z * Index.DataFrame =>
                 Index.process_batch env
                   (Index.num_batches (Index.read_csv rows) Index.batch_size)
                   b.1 b.2 Index.months Index.OUTPUT_DIR)
              (Index.batches (Index.read_csv rows) Index.batch_size))
    with (w := w3) as (futures & w4 & Hsub & HR4); [auto | auto | |].
  { intros x w5 r w6 E. exact (never_written_process_batch env name batch_idx Hin _ _ _ _ _ _ E). }
  rewrite (bind_ok _ _ _ _ _ Hsub).
  destruct (collect_returns futures w4) as (w5 & Hcol & (G5 & _ & F5)).
  rewrite (bind_ok _ _ _ _ _ Hcol).
  destruct (HR4 H2) as [A B].
  split; cbn.
  - unfold S1.month_image in *. by rewrite G5.
  - rewrite F5 by tauto. exact B.
Qed.

Lemma X3_unbuilt_radar_month_is_never_written_witness :
  never_written "August" 0
    (Index.main (august_fault_env "create_monthwise_s1_collection") one_row initial_world).2.
Proof.
  apply (X3_unbuilt_radar_month_is_never_written
           (august_fault_env "create_monthwise_s1_collection") (fun _ => true) one_row
           initial_world 1 "August" "08" (EEException "Connection reset by peer") 0);
    try reflexivity.
  by split.
Defined.
